(** * Alma CKB scraper: a shallow embedding of the two development scripts

    [Alma_CKB_Scraper_10_dev.py] and [Alma_CKB_Scraper_11_dev.py] are
    embedded as the modules [V10] and [V11].  Both scripts share the
    vocabulary of the first part of this file: Python strings, lists and
    dictionaries, the parse tree built by BeautifulSoup, the directory tree
    touched through [os], the DataFrame built by pandas, and a small monad
    for the effects of a run (the logging stream, the directory tree and
    raised exceptions). *)

From Stdlib Require Import List String Ascii Bool Arith Lia.
From Stdlib Require Import DecimalString.
From Stdlib Require DecimalNat DecimalFacts.
Import ListNotations.
Set Warnings "-register-all".
Open Scope string_scope.

(** ** Python strings *)

(** [c.isspace()] on the ASCII range. *)
Definition isspace (c : ascii) : bool :=
  let n := nat_of_ascii c in
  (((9 <=? n) && (n <=? 13)) || ((28 <=? n) && (n <=? 32)))%nat.

Fixpoint lstrip (s : string) : string :=
  match s with
  | EmptyString => EmptyString
  | String c s' => if isspace c then lstrip s' else s
  end.

Fixpoint rstrip (s : string) : string :=
  match s with
  | EmptyString => EmptyString
  | String c s' =>
      match rstrip s' with
      | EmptyString => if isspace c then EmptyString else String c EmptyString
      | r => String c r
      end
  end.

(** [s.strip()] *)
Definition strip (s : string) : string := rstrip (lstrip s).

(** [needle in hay] *)
Fixpoint contains (needle hay : string) : bool :=
  String.prefix needle hay ||
  match hay with
  | EmptyString => false
  | String _ hay' => contains needle hay'
  end.

(** [str(n)] for a non-negative integer. *)
Definition str (n : nat) : string := NilZero.string_of_uint (Nat.to_uint n).

(** ** Python lists and dictionaries *)

(** [enumerate(l, 1)] *)
Definition enumerate1 {A} (l : list A) : list (nat * A) :=
  combine (seq 1 (List.length l)) l.

(** [range(n)] *)
Definition range (n : nat) : list nat := seq 0 n.

(** A mapping with string keys that keeps insertion order, as a Python
    [dict] does; the same shape serves for the entries of a directory. *)
Fixpoint assoc {V} (k : string) (d : list (string * V)) : option V :=
  match d with
  | [] => None
  | (k', v) :: d' => if k' =? k then Some v else assoc k d'
  end.

(** [d[k] = v]: an existing key keeps its position, a new one goes last. *)
Fixpoint assoc_set {V} (k : string) (v : V) (d : list (string * V))
  : list (string * V) :=
  match d with
  | [] => [(k, v)]
  | (k', v') :: d' =>
      if k' =? k then (k, v) :: d' else (k', v') :: assoc_set k v d'
  end.

(** [del d[k]] *)
Fixpoint assoc_del {V} (k : string) (d : list (string * V))
  : list (string * V) :=
  match d with
  | [] => []
  | (k', v') :: d' =>
      if k' =? k then assoc_del k d' else (k', v') :: assoc_del k d'
  end.

Definition keys {V} (d : list (string * V)) : list string := map fst d.

Definition dict := list (string * string).

(** [d.update(items)] *)
Definition dict_update (d : dict) (items : list (string * string)) : dict :=
  fold_left (fun acc kv => assoc_set (fst kv) (snd kv) acc) items d.

(** ** The BeautifulSoup parse tree *)

(** A node of the tree is a string or a tag.  [class] is the one
    attribute the scripts read that BeautifulSoup stores as a list of
    tokens; it is kept apart from the single-valued attributes. *)
Inductive node : Type :=
| NavigableString (s : string)
| Tag (name : string) (class_ : option (list string))
      (attrs : list (string * string)) (contents : list node).

(** [n] followed by everything below it, in parse order (the order of
    BeautifulSoup's [next_element] chain). *)
Fixpoint parse_order (n : node) : list node :=
  n :: match n with
       | NavigableString _ => []
       | Tag _ _ _ cs => flat_map parse_order cs
       end.

(** [n.text] *)
Fixpoint text (n : node) : string :=
  match n with
  | NavigableString s => s
  | Tag _ _ _ cs => String.concat "" (map text cs)
  end.

(** A tag object handed around by the scripts: the node together with its
    rank in the parse order of the whole document, which is what
    [find_previous] walks back from. *)
Record element := { position : nat; markup : node }.

(** The [BeautifulSoup] object itself is the tag at rank 0. *)
Definition document (soup : node) : element :=
  {| position := 0; markup := soup |}.

Definition number_from (k : nat) (l : list node) : list element :=
  map (fun kn => {| position := fst kn; markup := snd kn |})
      (combine (seq k (List.length l)) l).

(** [e.descendants] *)
Definition descendants (e : element) : list element :=
  number_from (S (position e)) (tl (parse_order (markup e))).

Definition is_tag (name : string) (n : node) : bool :=
  match n with
  | Tag nm _ _ _ => nm =? name
  | NavigableString _ => false
  end.

(** How BeautifulSoup matches a [class_] filter [p]: against each token
    of the attribute and then against the tokens joined by a space; a tag
    without the attribute does not match. *)
Definition class_matches (p : string -> bool) (n : node) : bool :=
  match n with
  | Tag _ (Some tokens) _ _ => existsb p tokens || p (String.concat " " tokens)
  | _ => false
  end.

(** [e.find_all(name, class_=p)]; [any_class] stands for a call without
    [class_]. *)
Definition find_all (name : string) (p : node -> bool) (e : element)
  : list element :=
  filter (fun d => is_tag name (markup d) && p (markup d)) (descendants e).

Definition any_class (n : node) : bool := true.

(** [e.find(name, class_=p)] *)
Definition find (name : string) (p : node -> bool) (e : element)
  : option element :=
  hd_error (find_all name p e).

(** [e.find_previous(name)]: the nearest tag called [name] met when walking
    the parse order of the document backwards from [e]. *)
Definition find_previous (name : string) (soup : node) (e : element)
  : option node :=
  hd_error (filter (is_tag name)
                   (rev (firstn (position e) (parse_order soup)))).

(** ** The directory tree *)

(** A file holds delimited text, kept as its lines, each line as its
    fields. *)
Inductive entry : Type :=
| File (lines : list (list string))
| Dir (children : list (string * entry)).

Definition path := list string.

(** [os.path.join(p, name)] *)
Definition os_path_join (p : path) (name : string) : path :=
  (p ++ [name])%list.

Fixpoint lookup (p : path) (e : entry) : option entry :=
  match p with
  | [] => Some e
  | n :: p' =>
      match e with
      | Dir cs =>
          match assoc n cs with
          | Some c => lookup p' c
          | None => None
          end
      | File _ => None
      end
  end.

(** Replace ([Some]) or unlink ([None]) what sits at [p]; nothing happens
    when the parent of [p] is not a directory. *)
Fixpoint put (p : path) (o : option entry) (e : entry) : entry :=
  match p with
  | [] => e
  | n :: p' =>
      match e with
      | File _ => e
      | Dir cs =>
          match p' with
          | [] =>
              Dir (match o with
                   | Some x => assoc_set n x cs
                   | None => assoc_del n cs
                   end)
          | _ :: _ =>
              match assoc n cs with
              | Some c => Dir (assoc_set n (put p' o c) cs)
              | None => e
              end
          end
      end
  end.

Definition parent (p : path) : path := removelast p.

(** ** Exceptions, log records and the monad of a run *)

Inductive exn : Type :=
| IndexError
| KeyError (key : string)
| RequestException
| HTTPError
| YAMLError
| FileNotFoundError
| FileExistsError
| IsADirectoryError
| NotADirectoryError
| UnboundLocalError (name : string).

(** [isinstance(e, requests.RequestException)] *)
Definition is_RequestException (e : exn) : bool :=
  match e with
  | RequestException | HTTPError => true
  | _ => false
  end.

(** [str(e)].  The wording of the operating system's and of the libraries'
    messages is not modelled beyond the kind of the error. *)
Definition str_exn (e : exn) : string :=
  match e with
  | IndexError => "list index out of range"
  | KeyError k => "'" ++ k ++ "'"
  | RequestException => "request failed"
  | HTTPError => "HTTP error"
  | YAMLError => "YAML error"
  | FileNotFoundError => "No such file or directory"
  | FileExistsError => "File exists"
  | IsADirectoryError => "Is a directory"
  | NotADirectoryError => "Not a directory"
  | UnboundLocalError x =>
      "cannot access local variable '" ++ x ++
      "' where it is not associated with a value"
  end.

Inductive result (A : Type) : Type :=
| Ok (a : A)
| Raise (e : exn).
Arguments Ok {A} a.
Arguments Raise {A} e.

Inductive level : Type := DEBUG | INFO | ERROR | CRITICAL.

Definition log_record : Type := level * string.

(** What a run can change: the stream of log records (the log file and the
    console receive the same records) and the directory tree. *)
Record world := { log : list log_record; disk : entry }.

Definition M (A : Type) : Type := world -> result A * world.

Definition ret {A} (a : A) : M A := fun w => (Ok a, w).

Definition raise {A} (e : exn) : M A := fun w => (Raise e, w).

Definition bind {A B} (m : M A) (k : A -> M B) : M B :=
  fun w =>
    match m w with
    | (Ok a, w') => k a w'
    | (Raise e, w') => (Raise e, w')
    end.

(** [try: m  except Exception as e: h e] *)
Definition try_except {A} (m : M A) (h : exn -> M A) : M A :=
  fun w =>
    match m w with
    | (Ok a, w') => (Ok a, w')
    | (Raise e, w') => h e w'
    end.

Declare Scope py_scope.
Delimit Scope py_scope with py.
Notation "x <- m ;; k" := (bind m (fun x => k))
  (at level 61, m at next level, right associativity) : py_scope.
Notation "' pat <- m ;; k" := (bind m (fun x => match x with pat => k end))
  (at level 61, pat pattern, m at next level, right associativity) : py_scope.
Notation "m ;; k" := (bind m (fun _ => k))
  (at level 61, right associativity) : py_scope.
Open Scope py_scope.

(** [for x in l: body], threading the local variables [s] that the body
    assigns. *)
Fixpoint for_in {A S} (l : list A) (body : A -> S -> M S) (s : S) : M S :=
  match l with
  | [] => ret s
  | x :: l' => s' <- body x s ;; for_in l' body s'
  end.

(** [l[i]] *)
Definition getitem {A} (l : list A) (i : nat) : M A :=
  match nth_error l i with
  | Some x => ret x
  | None => raise IndexError
  end.

(** The scripts configure the root logger at level INFO, so [debug]
    records are discarded. *)
Definition emit (r : log_record) : M unit :=
  fun w => (Ok tt, {| log := (log w ++ [r])%list; disk := disk w |}).

Definition logging_debug (msg : string) : M unit := ret tt.
Definition logging_info (msg : string) : M unit := emit (INFO, msg).
Definition logging_error (msg : string) : M unit := emit (ERROR, msg).
Definition logging_critical (msg : string) : M unit := emit (CRITICAL, msg).

(** What a call evaluates to: [None] for a function that ends without a
    [return] value, else the returned object. *)
Inductive value : Type :=
| PyNone
| PyInt (n : nat)
| PyStr (s : string).

(** [not v] *)
Definition falsy (v : value) : bool :=
  match v with
  | PyNone => true
  | PyInt n => (n =? 0)%nat
  | PyStr s => s =? ""
  end.

(** [try: m  except C as e: h e] for the exception classes selected by
    [C]; any other exception goes on to the caller. *)
Definition try_except_on {A} (C : exn -> bool) (m : M A) (h : exn -> M A)
  : M A :=
  try_except m (fun e => if C e then h e else raise e).

(** The outcome of a call into a library, taken into the run. *)
Definition lift {A} (r : result A) : M A := fun w => (r, w).

(** [d[key]] for a mapping read from the configuration file. *)
Definition subscript {A} (key : string) (o : option A) : M A :=
  match o with
  | Some a => ret a
  | None => raise (KeyError key)
  end.

(** ** [os] *)

(** [os.makedirs(p, exist_ok=True)] on a tree. *)
Fixpoint mkdirs (p : path) (e : entry) : result entry :=
  match e with
  | File _ =>
      Raise (match p with [] => FileExistsError | _ => NotADirectoryError end)
  | Dir cs =>
      match p with
      | [] => Ok e
      | n :: p' =>
          let c := match assoc n cs with Some c => c | None => Dir [] end in
          match mkdirs p' c with
          | Ok c' => Ok (Dir (assoc_set n c' cs))
          | Raise x => Raise x
          end
      end
  end.

Definition set_disk (d : entry) (w : world) : world :=
  {| log := log w; disk := d |}.

Definition os_makedirs (p : path) : M unit :=
  fun w =>
    match mkdirs p (disk w) with
    | Ok d => (Ok tt, set_disk d w)
    | Raise e => (Raise e, w)
    end.

(** [os.listdir(p)]: the names in the order the directory yields them. *)
Definition os_listdir (p : path) : M (list string) :=
  fun w =>
    match lookup p (disk w) with
    | Some (Dir cs) => (Ok (keys cs), w)
    | Some (File _) => (Raise NotADirectoryError, w)
    | None => (Raise FileNotFoundError, w)
    end.

Definition os_path_exists (p : path) : M bool :=
  fun w =>
    (Ok (match lookup p (disk w) with Some _ => true | None => false end), w).

(** [os.remove(p)] unlinks a file and refuses a directory. *)
Definition os_remove (p : path) : M unit :=
  fun w =>
    match lookup p (disk w) with
    | Some (File _) => (Ok tt, set_disk (put p None (disk w)) w)
    | Some (Dir _) => (Raise IsADirectoryError, w)
    | None => (Raise FileNotFoundError, w)
    end.

(** [os.rename(src, dst)], with the behaviour of the platform the scripts
    name their output directory for: an existing [dst] is refused. *)
Definition os_rename (src dst : path) : M unit :=
  fun w =>
    match lookup src (disk w) with
    | None => (Raise FileNotFoundError, w)
    | Some e =>
        match lookup dst (disk w) with
        | Some _ => (Raise FileExistsError, w)
        | None =>
            match lookup (parent dst) (disk w) with
            | Some (Dir _) =>
                (Ok tt, set_disk (put dst (Some e) (put src None (disk w))) w)
            | _ => (Raise FileNotFoundError, w)
            end
        end
    end.

(** ** pandas *)

(** A frame of strings; [None] is a missing value (NaN). *)
Record DataFrame := {
  columns : list string;
  data : list (list (option string))
}.

(** The columns of a frame built from dictionaries: every key, in the
    order of its first appearance. *)
Definition add_keys (cols : list string) (r : dict) : list string :=
  fold_left
    (fun acc k =>
       if existsb (String.eqb k) acc then acc else (acc ++ [k])%list)
    (keys r) cols.

(** [pd.DataFrame(rows)] for a list of dictionaries. *)
Definition pd_DataFrame (rows : list dict) : DataFrame :=
  let cols := fold_left add_keys rows [] in
  {| columns := cols;
     data := map (fun r => map (fun c => assoc c r) cols) rows |}.

(** The lines [to_csv(index=False)] writes: the column names, then one
    line per row, a missing value as the empty field. *)
Definition csv_lines (df : DataFrame) : list (list string) :=
  columns df ::
  map (map (fun v => match v with Some x => x | None => "" end)) (data df).

(** [df.to_csv(filename, index=False)] *)
Definition to_csv (df : DataFrame) (filename : path) : M unit :=
  fun w =>
    match lookup filename (disk w) with
    | Some (Dir _) => (Raise IsADirectoryError, w)
    | _ =>
        match lookup (parent filename) (disk w) with
        | Some (Dir _) =>
            (Ok tt,
             set_disk (put filename (Some (File (csv_lines df))) (disk w)) w)
        | _ => (Raise FileNotFoundError, w)
        end
    end.

(** ** What the scripts are given *)

(** One extracted table: the dictionary with the keys ['headers'],
    ['rows'] and ['table_title']. *)
Record table := {
  headers : list string;
  rows : list dict;
  table_title : string
}.

(** The configuration read from [config.yaml]; an absent key is [None]. *)
Record link_selectors_cfg := {
  cfg_container : option string;
  cfg_list : option string
}.

Record urls_cfg := {
  cfg_main_url : option string;
  cfg_link_selectors : option link_selectors_cfg
}.

Record config := { cfg_urls : option urls_cfg }.

Record response := { status_code : nat; response_text : string }.

(** The libraries and the surroundings the scripts call into: the clock,
    the path separator, the YAML file on disk, the network, the HTML
    parser and the CSS selector engine. *)
Record collaborators := {
  timestamp : string;
  os_sep : string;
  yaml_safe_load : string -> result config;
  requests_get : string -> result response;
  html_parser : string -> node;
  select_one : string -> element -> option element
}.

(** [response.raise_for_status()] *)
Definition raise_for_status (r : response) : M unit :=
  if ((400 <=? status_code r) && (status_code r <? 600))%nat
  then raise HTTPError else ret tt.

Definition attrs_of (n : node) : list (string * string) :=
  match n with
  | Tag _ _ a _ => a
  | NavigableString _ => []
  end.

(** The three columns every record is tagged with. *)
Definition synthetic_columns : list string :=
  ["week_info"; "source_url"; "table_title"].

(** ** The functions the two scripts share word for word *)

Section Shared.

Variable env : collaborators.

(** A path as the string the scripts print. *)
Definition path_str (p : path) : string := String.concat (os_sep env) p.

(** The directory [logs] and the log file in it are what [log] stands
    for; they lie outside the directory tree modelled here. *)
Definition setup_logging : M value :=
  let log_dir := ["logs"] in
  let log_file :=
    os_path_join log_dir ("scraper_" ++ timestamp env ++ ".log") in
  logging_info ("Logging initialized. Log file: " ++ path_str log_file) ;;
  ret PyNone.

Definition load_config (config_path : string) : M config :=
  try_except
    (logging_info ("Loading configuration from " ++ config_path) ;;
     config <- lift (yaml_safe_load env config_path) ;;
     logging_info "Configuration loaded successfully" ;;
     ret config)
    (fun e =>
       match e with
       | FileNotFoundError =>
           logging_error ("Configuration file not found: " ++ config_path) ;;
           raise e
       | YAMLError =>
           logging_error
             ("Error parsing configuration file: " ++ str_exn e) ;;
           raise e
       | _ => raise e
       end).

Definition fetch_html (url : string) : M string :=
  logging_info ("Fetching HTML content from: " ++ url) ;;
  try_except_on is_RequestException
    (response <- lift (requests_get env url) ;;
     raise_for_status response ;;
     logging_info ("Successfully fetched content (status code: "
                   ++ str (status_code response) ++ ")") ;;
     ret (response_text response))
    (fun e =>
       logging_error ("Failed to fetch HTML content: " ++ str_exn e) ;;
       raise e).

(** The dictionary comprehension
    [{headers[i]: cells[i] for i in range(len(headers))}]. *)
Definition row_comprehension (headers cells : list string) : M dict :=
  for_in (range (List.length headers))
    (fun i row_data =>
       k <- getitem headers i ;;
       v <- getitem cells i ;;
       ret (assoc_set k v row_data))
    [].

End Shared.

(** ** [Alma_CKB_Scraper_10_dev.py] *)

Module V10.
Section Script.

Variable env : collaborators.

Definition get_latest_month_url (config : config) : M value :=
  try_except
    (urls <- subscript "urls" (cfg_urls config) ;;
     main_url <- subscript "main_url" (cfg_main_url urls) ;;
     logging_info ("Accessing main URL: " ++ main_url) ;;
     response <- lift (requests_get env main_url) ;;
     raise_for_status response ;;
     let soup := html_parser env (response_text response) in
     logging_debug "Successfully parsed main page HTML" ;;
     selectors <- subscript "link_selectors" (cfg_link_selectors urls) ;;
     container_selector <- subscript "container" (cfg_container selectors) ;;
     match select_one env container_selector (document soup) with
     | None =>
         logging_error "Content container not found using selector" ;;
         ret PyNone
     | Some container =>
         list_selector <- subscript "list" (cfg_list selectors) ;;
         match select_one env list_selector container with
         | Some latest_link =>
             match assoc "href" (attrs_of (markup latest_link)) with
             | Some full_url =>
                 logging_info
                   ("Found latest release notes URL: " ++ full_url) ;;
                 ret (PyStr full_url)
             | None =>
                 logging_error "Could not find latest release notes link" ;;
                 ret PyNone
             end
         | None =>
             logging_error "Could not find latest release notes link" ;;
             ret PyNone
         end
     end)
    (fun e =>
       if is_RequestException e then
         logging_error ("Error accessing main URL: " ++ str_exn e) ;;
         ret PyNone
       else
         logging_error
           ("Unexpected error while getting latest month URL: "
            ++ str_exn e) ;;
         ret PyNone).

Definition extract_tables (html_content source_url : string)
  : M (list table) :=
  logging_info "Beginning table extraction" ;;
  let soup := html_parser env html_content in
  let rnsub_divs :=
    find_all "div"
      (class_matches (fun x => negb (x =? "") && contains "rnsub" x))
      (document soup) in
  logging_info
    ("Found " ++ str (List.length rnsub_divs) ++ " rnsub divisions") ;;
  extracted_tables <-
    for_in (enumerate1 rnsub_divs)
      (fun '(idx, div) extracted_tables =>
         logging_debug
           ("Processing division " ++ str idx ++ "/"
            ++ str (List.length rnsub_divs)) ;;
         let week_info :=
           match find "span" (class_matches (String.eqb "AlmaRNTag")) div with
           | Some tag => strip (text (markup tag))
           | None => "Unknown Week"
           end in
         logging_debug ("Week info: " ++ week_info) ;;
         let tables := find_all "table" any_class div in
         logging_debug
           ("Found " ++ str (List.length tables) ++ " tables in division "
            ++ str idx) ;;
         for_in (enumerate1 tables)
           (fun '(table_idx, table) extracted_tables =>
              try_except
                (let table_title :=
                   match find_previous "h2" soup table with
                   | Some title_element => strip (text title_element)
                   | None => "Untitled Table"
                   end in
                 logging_info ("Processing table: " ++ table_title) ;;
                 let headers :=
                   map (fun th => strip (text (markup th)))
                       (find_all "th" any_class table) in
                 let rows := tl (find_all "tr" any_class table) in
                 logging_debug
                   ("Found " ++ str (List.length rows) ++ " rows in table "
                    ++ str table_idx) ;;
                 table_data <-
                   for_in (enumerate1 rows)
                     (fun '(row_idx, row) table_data =>
                        try_except
                          (let cells :=
                             map (fun cell => strip (text (markup cell)))
                                 (find_all "td" any_class row) in
                           row_data <- row_comprehension headers cells ;;
                           let row_data :=
                             dict_update row_data
                               [("week_info", week_info);
                                ("source_url", source_url);
                                ("table_title", table_title)] in
                           ret (table_data ++ [row_data])%list)
                          (fun e =>
                             logging_error
                               ("Error processing row " ++ str row_idx
                                ++ " in table '" ++ table_title ++ "': "
                                ++ str_exn e) ;;
                             ret table_data))
                     [] ;;
                 let extracted_tables :=
                   (extracted_tables ++
                    [{| headers := (headers ++ synthetic_columns)%list;
                        rows := table_data;
                        table_title := table_title |}])%list in
                 logging_info
                   ("Successfully extracted table: " ++ table_title
                    ++ " with " ++ str (List.length table_data) ++ " rows") ;;
                 ret extracted_tables)
                (fun e =>
                   logging_error
                     ("Error processing table " ++ str table_idx
                      ++ " in division " ++ str idx ++ ": " ++ str_exn e) ;;
                   ret extracted_tables))
           extracted_tables)
      [] ;;
  logging_info
    ("Completed table extraction. Total tables extracted: "
     ++ str (List.length extracted_tables)) ;;
  ret extracted_tables.

Definition save_tables (extracted_tables : list table) (output_dir : path)
  : M value :=
  logging_info ("Saving tables to directory: " ++ path_str env output_dir) ;;
  os_makedirs output_dir ;;
  saved_count <-
    for_in (enumerate1 extracted_tables)
      (fun '(idx, table) saved_count =>
         try_except
           (let df := pd_DataFrame (rows table) in
            let filename :=
              os_path_join output_dir ("table_" ++ str idx ++ ".csv") in
            to_csv df filename ;;
            logging_info
              ("Saved table '" ++ table_title table ++ "' to "
               ++ path_str env filename) ;;
            ret (saved_count + 1))
           (fun e =>
              logging_error
                ("Error saving table " ++ str idx ++ ": " ++ str_exn e) ;;
              ret saved_count))
      0 ;;
  logging_info
    ("Successfully saved " ++ str saved_count ++ " out of "
     ++ str (List.length extracted_tables) ++ " tables") ;;
  ret PyNone.

Definition output_dir : path :=
  ["C:"; "Users"; "masedet"; "Tel-Aviv University"; "masedet - Documents";
   "Data"; "CKB"].

Definition main : M value :=
  try_except
    (setup_logging env ;;
     logging_info "Starting web scraping process" ;;
     config <- load_config env "config.yaml" ;;
     latest_url <- get_latest_month_url config ;;
     match latest_url with
     | PyStr url =>
         if falsy latest_url then
           logging_error "Could not retrieve the latest month URL. Exiting." ;;
           ret PyNone
         else
           logging_info ("Fetching data from " ++ url) ;;
           html_content <- fetch_html env url ;;
           tables <- extract_tables html_content url ;;
           save_tables tables output_dir ;;
           logging_info "Web scraping process completed successfully" ;;
           ret PyNone
     | _ =>
         logging_error "Could not retrieve the latest month URL. Exiting." ;;
         ret PyNone
     end)
    (fun e =>
       logging_critical ("Critical error in main process: " ++ str_exn e) ;;
       raise e).

End Script.
End V10.

(** ** [Alma_CKB_Scraper_11_dev.py] *)

Module V11.
Section Script.

Variable env : collaborators.

Definition get_latest_month_url (config : config) : M value :=
  try_except_on is_RequestException
    (urls <- subscript "urls" (cfg_urls config) ;;
     main_url <- subscript "main_url" (cfg_main_url urls) ;;
     logging_info ("Accessing main URL: " ++ main_url) ;;
     response <- lift (requests_get env main_url) ;;
     raise_for_status response ;;
     let soup := html_parser env (response_text response) in
     logging_debug "Successfully parsed main page HTML" ;;
     selectors <- subscript "link_selectors" (cfg_link_selectors urls) ;;
     container_selector <- subscript "container" (cfg_container selectors) ;;
     match select_one env container_selector (document soup) with
     | None =>
         logging_error "Content container not found using selector" ;;
         ret PyNone
     | Some container =>
         list_selector <- subscript "list" (cfg_list selectors) ;;
         match select_one env list_selector container with
         | Some latest_link =>
             match assoc "href" (attrs_of (markup latest_link)) with
             | Some full_url =>
                 logging_info
                   ("Found latest release notes URL: " ++ full_url) ;;
                 ret (PyStr full_url)
             | None =>
                 logging_error "Could not find latest release notes link" ;;
                 ret PyNone
             end
         | None =>
             logging_error "Could not find latest release notes link" ;;
             ret PyNone
         end
     end)
    (fun e =>
       logging_error ("Error accessing main URL: " ++ str_exn e) ;;
       ret PyNone).

Definition extract_tables (html_content source_url : string)
  : M (list table) :=
  logging_info "Beginning table extraction" ;;
  let soup := html_parser env html_content in
  let rnsub_divs :=
    find_all "div"
      (class_matches (fun x => negb (x =? "") && contains "rnsub" x))
      (document soup) in
  logging_info
    ("Found " ++ str (List.length rnsub_divs) ++ " rnsub divisions") ;;
  extracted_tables <-
    for_in (enumerate1 rnsub_divs)
      (fun '(idx, div) extracted_tables =>
         logging_debug
           ("Processing division " ++ str idx ++ "/"
            ++ str (List.length rnsub_divs)) ;;
         let week_info :=
           match find "span" (class_matches (String.eqb "AlmaRNTag")) div with
           | Some tag => strip (text (markup tag))
           | None => "Unknown Week"
           end in
         let tables := find_all "table" any_class div in
         for_in (enumerate1 tables)
           (fun '(table_idx, table) extracted_tables =>
              try_except
                (let table_title :=
                   match find_previous "h2" soup table with
                   | Some title_element => strip (text title_element)
                   | None => "Untitled Table"
                   end in
                 let headers :=
                   map (fun th => strip (text (markup th)))
                       (find_all "th" any_class table) in
                 let rows := tl (find_all "tr" any_class table) in
                 table_data <-
                   for_in rows
                     (fun row table_data =>
                        let cells :=
                          map (fun cell => strip (text (markup cell)))
                              (find_all "td" any_class row) in
                        row_data <- row_comprehension headers cells ;;
                        let row_data :=
                          dict_update row_data
                            [("week_info", week_info);
                             ("source_url", source_url);
                             ("table_title", table_title)] in
                        ret (table_data ++ [row_data])%list)
                     [] ;;
                 ret (extracted_tables ++
                      [{| headers := (headers ++ synthetic_columns)%list;
                          rows := table_data;
                          table_title := table_title |}])%list)
                (fun e =>
                   logging_error
                     ("Error processing table " ++ str table_idx ++ ": "
                      ++ str_exn e) ;;
                   ret extracted_tables))
           extracted_tables)
      [] ;;
  logging_info
    ("Completed table extraction. Total tables extracted: "
     ++ str (List.length extracted_tables)) ;;
  ret extracted_tables.

Definition manage_output_folders (base_dir : path) : M value :=
  let current_dir := os_path_join base_dir "current" in
  let last_time_dir := os_path_join base_dir "last time" in
  os_makedirs current_dir ;;
  os_makedirs last_time_dir ;;
  listing <- os_listdir current_dir ;;
  match listing with
  | [] => ret PyNone
  | _ :: _ =>
      logging_info "Moving current files to last time directory" ;;
      file_names <- os_listdir current_dir ;;
      paths <-
        for_in file_names
          (fun file_name (_ : option (path * path)) =>
             let source_path := os_path_join current_dir file_name in
             let destination_path := os_path_join last_time_dir file_name in
             present <- os_path_exists destination_path ;;
             (if present : bool then os_remove destination_path
              else ret tt) ;;
             ret (Some (source_path, destination_path)))
          None ;;
      match paths with
      | Some (source_path, destination_path) =>
          os_rename source_path destination_path ;;
          ret PyNone
      | None => raise (UnboundLocalError "source_path")
      end
  end.

Definition save_tables (extracted_tables : list table) (output_dir : path)
  : M value :=
  logging_info ("Saving tables to directory: " ++ path_str env output_dir) ;;
  os_makedirs output_dir ;;
  for_in (enumerate1 extracted_tables)
    (fun '(idx, table) (_ : unit) =>
       try_except
         (let df := pd_DataFrame (rows table) in
          let filename :=
            os_path_join output_dir ("table_" ++ str idx ++ ".csv") in
          to_csv df filename ;;
          logging_info
            ("Saved table '" ++ table_title table ++ "' to "
             ++ path_str env filename))
         (fun e =>
            logging_error
              ("Error saving table " ++ str idx ++ ": " ++ str_exn e)))
    tt ;;
  ret PyNone.

Definition base_output_dir : path :=
  ["C:"; "Users"; "masedet"; "Tel-Aviv University"; "masedet - Documents";
   "Data"; "CKB"].

Definition main : M value :=
  try_except
    (setup_logging env ;;
     config <- load_config env "config.yaml" ;;
     latest_url <- get_latest_month_url config ;;
     match latest_url with
     | PyStr url =>
         if falsy latest_url then
           logging_error "Could not retrieve the latest month URL. Exiting." ;;
           ret PyNone
         else
           html_content <- fetch_html env url ;;
           tables <- extract_tables html_content url ;;
           manage_output_folders base_output_dir ;;
           save_tables tables (os_path_join base_output_dir "current") ;;
           logging_info "Web scraping process completed successfully" ;;
           ret PyNone
     | _ =>
         logging_error "Could not retrieve the latest month URL. Exiting." ;;
         ret PyNone
     end)
    (fun e =>
       logging_critical ("Critical error in main process: " ++ str_exn e) ;;
       raise e).

End Script.
End V11.

(** * Vocabulary of the properties *)

(** ** Runs that only write log records *)

Definition add_log (lg : list log_record) (w : world) : world :=
  {| log := (log w ++ lg)%list; disk := disk w |}.

(** [m] ends in [r] from every world, and changes nothing but the log. *)
Definition logs_only {A} (m : M A) (r : result A) : Prop :=
  forall w, exists lg, m w = (r, add_log lg w).

(** The pure counterpart of [for_in]. *)
Fixpoint fold_result {A S} (f : A -> S -> result S) (l : list A) (s : S)
  : result S :=
  match l with
  | [] => Ok s
  | x :: l' =>
      match f x s with
      | Ok s' => fold_result f l' s'
      | Raise e => Raise e
      end
  end.

(** ** What the extractor reads off a page *)

(** The section blocks of a page. *)
Definition sections (soup : node) : list element :=
  find_all "div"
    (class_matches (fun x => negb (x =? "") && contains "rnsub" x))
    (document soup).

(** The label of a section block. *)
Definition label_of (div : element) : string :=
  match find "span" (class_matches (String.eqb "AlmaRNTag")) div with
  | Some tag => strip (text (markup tag))
  | None => "Unknown Week"
  end.

Definition tables_of (div : element) : list element :=
  find_all "table" any_class div.

(** The title of a table. *)
Definition title_of (soup : node) (tbl : element) : string :=
  match find_previous "h2" soup tbl with
  | Some title_element => strip (text title_element)
  | None => "Untitled Table"
  end.

Definition headers_of (tbl : element) : list string :=
  map (fun th => strip (text (markup th))) (find_all "th" any_class tbl).

(** The data rows of a table: every row but the first. *)
Definition data_rows (tbl : element) : list element :=
  tl (find_all "tr" any_class tbl).

Definition cells_of (row : element) : list string :=
  map (fun cell => strip (text (markup cell))) (find_all "td" any_class row).

(** A row that supplies a cell for every header. *)
Definition complete (hs : list string) (row : element) : bool :=
  (List.length hs <=? List.length (cells_of row))%nat.

(** Headers paired with cells by position, later pairs overwriting
    earlier ones with the same header. *)
Definition zip_dict (hs cells : list string) : dict :=
  fold_left (fun d kv => assoc_set (fst kv) (snd kv) d) (combine hs cells) [].

(** What the dictionary comprehension of a row evaluates to. *)
Definition zip_result (hs cells : list string) : result dict :=
  if (List.length hs <=? List.length cells)%nat
  then Ok (zip_dict hs cells) else Raise IndexError.

(** The record of a complete row. *)
Definition record_of (hs : list string) (week url title : string)
  (row : element) : dict :=
  dict_update (zip_dict hs (cells_of row))
    [("week_info", week); ("source_url", url); ("table_title", title)].

(** The table the earlier script extracts: short rows are left out. *)
Definition table_v10 (soup : node) (url week : string) (tbl : element)
  : table :=
  let hs := headers_of tbl in
  let title := title_of soup tbl in
  {| headers := (hs ++ synthetic_columns)%list;
     rows := map (record_of hs week url title)
                 (filter (complete hs) (data_rows tbl));
     table_title := title |}.

(** The table the later script extracts, if any: one short row and the
    table is left out. *)
Definition table_v11 (soup : node) (url week : string) (tbl : element)
  : list table :=
  let hs := headers_of tbl in
  let title := title_of soup tbl in
  if forallb (complete hs) (data_rows tbl) then
    [{| headers := (hs ++ synthetic_columns)%list;
        rows := map (record_of hs week url title) (data_rows tbl);
        table_title := title |}]
  else [].

Definition snapshot_v10 (soup : node) (url : string) : list table :=
  flat_map
    (fun div => map (table_v10 soup url (label_of div)) (tables_of div))
    (sections soup).

Definition snapshot_v11 (soup : node) (url : string) : list table :=
  flat_map
    (fun div => flat_map (table_v11 soup url (label_of div)) (tables_of div))
    (sections soup).

(** ** Tag objects and the document *)

(** The tag object [e] is where its rank says: the stretch of the parse
    order of the document that starts at the rank of [e] is [e] with
    everything below it. *)
Definition sits_in (soup : node) (e : element) : Prop :=
  firstn (List.length (parse_order (markup e)))
         (skipn (position e) (parse_order soup))
  = parse_order (markup e).

(** ** Sample pages and surroundings *)

Definition th (s : string) : node := Tag "th" None [] [NavigableString s].
Definition td (s : string) : node := Tag "td" None [] [NavigableString s].
Definition tr (cells : list node) : node := Tag "tr" None [] cells.

(** A section block tagged "Week 1" whose table, titled "Added", has two
    headers, a complete data row and a data row of one cell. *)
Definition short_row_page : node :=
  Tag "[document]" None []
    [Tag "div" (Some ["rnsub"]) []
       [Tag "span" (Some ["AlmaRNTag"]) [] [NavigableString " Week 1 "];
        Tag "h2" None [] [NavigableString "Added"];
        Tag "table" None []
          [tr [th "Name"; th "Type"];
           tr [td "A"; td "Journal"];
           tr [td "B"]]]].

(** Two tables in one section block: the first has a short data row, the
    second is well formed. *)
Definition two_table_page : node :=
  Tag "[document]" None []
    [Tag "div" (Some ["rnsub"; "week"]) []
       [Tag "h2" None [] [NavigableString "Added"];
        Tag "table" None []
          [tr [th "Name"; th "Type"];
           tr [td "A"];
           tr [td "B"; td "Journal"]];
        Tag "h2" None [] [NavigableString "Removed"];
        Tag "table" None []
          [tr [th "Name"];
           tr [td "C"]]]].

(** A table that comes before any heading, in a block with no tag span. *)
Definition bare_page : node :=
  Tag "[document]" None []
    [Tag "div" (Some ["rnsub"]) []
       [Tag "table" None []
          [tr [th "Name"];
           tr [td "A"]]]].

(** Surroundings in which every page parses to [soup]; the network and
    the configuration file are absent. *)
Definition offline (soup : node) : collaborators :=
  {| timestamp := "20240101_000000";
     os_sep := "/";
     yaml_safe_load := fun _ => Raise FileNotFoundError;
     requests_get := fun _ => Raise RequestException;
     html_parser := fun _ => soup;
     select_one := fun _ _ => None |}.

Definition blank : world := {| log := []; disk := Dir [] |}.

(** The section block, the table and the short data row of
    [short_row_page]. *)
Definition short_row_div : element :=
  hd (document short_row_page) (sections short_row_page).

Definition short_row_table : element :=
  hd (document short_row_page) (tables_of short_row_div).

Definition short_row : element :=
  nth 1 (data_rows short_row_table) (document short_row_page).

(** The section block and the table of [bare_page]. *)
Definition bare_div : element :=
  hd (document bare_page) (sections bare_page).

Definition bare_table : element :=
  hd (document bare_page) (tables_of bare_div).

(** ** Provenance *)

(** The tables of the page, each with the section block under which the
    extractor meets it, in the order in which it meets them: block by
    block, and table by table within a block. *)
Definition placed_tables (soup : node) : list (element * element) :=
  flat_map (fun div => map (pair div) (tables_of div)) (sections soup).

(** Every data row of the table has a cell for each header. *)
Definition whole (p : element * element) : bool :=
  forallb (complete (headers_of (snd p))) (data_rows (snd p)).

(** The number of tables met before the one at position [i] all of whose
    data rows are complete. *)
Definition returned_before (soup : node) (i : nat) : nat :=
  List.length (filter whole (firstn i (placed_tables soup))).

(** [r] has the three synthetic columns, set to [week], [url] and
    [title]. *)
Definition carries (week url title : string) (r : dict) : Prop :=
  assoc "week_info" r = Some week /\
  assoc "source_url" r = Some url /\
  assoc "table_title" r = Some title.

(** [t] is a table extracted from the table element [snd p] met under the
    section block [fst p]: it has the title of that element, and its
    records are, one for one and in order, those of the complete data rows
    of the element, each carrying the label of the block, [url] and the
    title. *)
Definition stems_from (soup : node) (url : string) (p : element * element)
  (t : table) : Prop :=
  table_title t = title_of soup (snd p) /\
  Forall2
    (fun (row : element) r =>
       carries (label_of (fst p)) url (title_of soup (snd p)) r)
    (filter (complete (headers_of (snd p))) (data_rows (snd p)))
    (rows t).

(** Two section blocks with different labels; their tables have the same
    title, header and row. *)
Definition two_weeks_page : node :=
  Tag "[document]" None []
    [Tag "div" (Some ["rnsub"]) []
       [Tag "span" (Some ["AlmaRNTag"]) [] [NavigableString "Week 1"];
        Tag "h2" None [] [NavigableString "Added"];
        Tag "table" None [] [tr [th "Name"]; tr [td "A"]]];
     Tag "div" (Some ["rnsub"]) []
       [Tag "span" (Some ["AlmaRNTag"]) [] [NavigableString "Week 2"];
        Tag "h2" None [] [NavigableString "Added"];
        Tag "table" None [] [tr [th "Name"]; tr [td "A"]]]].

(** No level-2 heading comes before [tbl] in the document. *)
Definition no_heading_before (soup : node) (tbl : element) : bool :=
  forallb (fun n => negb (is_tag "h2" n))
          (firstn (position tbl) (parse_order soup)).

(** The section block [div] contains no tag span. *)
Definition no_tag_span (div : element) : bool :=
  forallb
    (fun d => negb (is_tag "span" (markup d) &&
                    class_matches (String.eqb "AlmaRNTag") (markup d)))
    (descendants div).

(** [r] is the record of a complete data row of a table of a section
    block of the page. *)
Definition from_complete_row (soup : node) (url : string) (r : dict) : Prop :=
  exists div tbl row,
    In div (sections soup) /\ In tbl (tables_of div) /\
    In row (data_rows tbl) /\ complete (headers_of tbl) row = true /\
    r = record_of (headers_of tbl) (label_of div) url (title_of soup tbl) row.

(** ** The front page *)

(** [response.raise_for_status()] lets the response through. *)
Definition status_ok (r : response) : bool :=
  negb ((400 <=? status_code r) && (status_code r <? 600))%nat.

(** A configuration with every key the scripts read. *)
Definition sample_config : config :=
  {| cfg_urls :=
       Some {| cfg_main_url := Some "https://kb.example/release-notes";
               cfg_link_selectors :=
                 Some {| cfg_container := Some "div.mt-content-container";
                         cfg_list := Some "li a" |} |} |}.

(** Surroundings in which the configuration loads and the front page is
    served, but no selector matches anything on it. *)
Definition no_container : collaborators :=
  {| timestamp := "20240101_000000";
     os_sep := "/";
     yaml_safe_load := fun _ => Ok sample_config;
     requests_get :=
       fun _ => Ok {| status_code := 200; response_text := "<html></html>" |};
     html_parser := fun _ => Tag "[document]" None [] [Tag "html" None [] []];
     select_one := fun _ _ => None |}.

(** ** Directories and the writer *)

(** The name of the file written for the table at 1-based position
    [idx]. *)
Definition table_file (idx : nat) : string := "table_" ++ str idx ++ ".csv".

(** The entries of the slot [name] of a base directory: a slot not yet
    made has none, and a file in its place is no slot. *)
Definition slot (bs : list (string * entry)) (name : string)
  : option (list (string * entry)) :=
  match assoc name bs with
  | None => Some []
  | Some (Dir cs) => Some cs
  | Some (File _) => None
  end.

Definition is_dir (o : option entry) : bool :=
  match o with
  | Some (Dir _) => true
  | _ => false
  end.

(** The entries of [d] whose names are not among [names]. *)
Definition without {V} (names : list string) (d : list (string * V))
  : list (string * V) :=
  filter (fun kv => negb (existsb (String.eqb (fst kv)) names)) d.

(** What writing the table at position [idx] does to the entries of the
    output directory: a directory that has the name of the file is in the
    way, otherwise the file is created or replaced. *)
Definition write_one (idx : nat) (t : table) (cs : list (string * entry))
  : list (string * entry) :=
  if is_dir (assoc (table_file idx) cs) then cs
  else assoc_set (table_file idx) (File (csv_lines (pd_DataFrame (rows t)))) cs.

Fixpoint write_all (idx : nat) (ts : list table) (cs : list (string * entry))
  : list (string * entry) :=
  match ts with
  | [] => cs
  | t :: ts' => write_all (S idx) ts' (write_one idx t cs)
  end.

(** How many of the files for positions [idx], [idx + 1], ... can be
    written. *)
Fixpoint writable (idx : nat) (ts : list table) (cs : list (string * entry))
  : nat :=
  match ts with
  | [] => 0
  | _ :: ts' =>
      (if is_dir (assoc (table_file idx) cs) then 0 else 1)
      + writable (S idx) ts' cs
  end.



(** ** Sample snapshots *)

(** A page whose only table has a header row and no data row. *)
Definition header_only_page : node :=
  Tag "[document]" None []
    [Tag "div" (Some ["rnsub"]) []
       [Tag "h2" None [] [NavigableString "Added"];
        Tag "table" None [] [tr [th "Name"; th "Type"]]]].

(** The table extracted from [header_only_page]. *)
Definition header_only_table : table :=
  {| headers := ["Name"; "Type"; "week_info"; "source_url"; "table_title"];
     rows := [];
     table_title := "Added" |}.

(** The table the earlier script extracts from [short_row_page]. *)
Definition one_record_table : table :=
  {| headers := ["Name"; "Type"; "week_info"; "source_url"; "table_title"];
     rows := [[("Name", "A"); ("Type", "Journal"); ("week_info", "Week 1");
               ("source_url", "http://x"); ("table_title", "Added")]];
     table_title := "Added" |}.

(** ** Sample directory trees *)

(** An output directory after two runs: two files in [current], and in
    [last time] an older copy of each next to a file of another name. *)
Definition two_runs : world :=
  {| log := [];
     disk :=
       Dir [("out",
             Dir [("current",
                   Dir [("table_1.csv", File [["a"]; ["1"]]);
                        ("table_2.csv", File [["b"]; ["2"]])]);
                  ("last time",
                   Dir [("table_1.csv", File [["a"]; ["0"]]);
                        ("table_3.csv", File [["c"]; ["0"]]);
                        ("table_2.csv", File [["b"]; ["0"]])]);
                  ("notes.txt", File [["kept"]])])] |}.

(** An output directory that has an archive but no [current] slot yet. *)
Definition archive_only : world :=
  {| log := [];
     disk :=
       Dir [("out",
             Dir [("last time", Dir [("table_1.csv", File [["a"]; ["0"]])]);
                  ("notes.txt", File [["kept"]])])] |}.

(** ** Sample site *)

(** A front page whose container lists one link. *)
Definition front_page : node :=
  Tag "[document]" None []
    [Tag "div" (Some ["mt-content-container"]) []
       [Tag "li" None []
          [Tag "a" None [("href", "https://kb.example/2024-01")]
             [NavigableString "January 2024"]]]].

(** A stand-in for the selector engine that knows the two selectors of
    [sample_config]. *)
Definition sample_select (selector : string) (e : element) : option element :=
  if selector =? "div.mt-content-container" then
    find "div" (class_matches (String.eqb "mt-content-container")) e
  else if selector =? "li a" then find "a" any_class e
  else None.

(** Surroundings in which the configuration loads, the front page is
    served and parses to [front_page], and the page behind its link is
    served, or refused, as [notes] says, and parses to [soup]. *)
Definition site (notes : result response) (soup : node) : collaborators :=
  {| timestamp := "20240101_000000";
     os_sep := "/";
     yaml_safe_load := fun _ => Ok sample_config;
     requests_get :=
       fun url =>
         if url =? "https://kb.example/release-notes" then
           Ok {| status_code := 200; response_text := "front" |}
         else notes;
     html_parser := fun body => if body =? "front" then front_page else soup;
     select_one := sample_select |}.

Definition served_notes : result response :=
  Ok {| status_code := 200; response_text := "notes" |}.

(** The link of a container, as the resolver reads it: the [href] of the
    first element the list selector matches, if there is one and it has
    the attribute. *)
Definition href_of (env : collaborators) (list_selector : string)
  (container : element) : option string :=
  match select_one env list_selector container with
  | Some latest_link => assoc "href" (attrs_of (markup latest_link))
  | None => None
  end.

(** The error a request for [url] ends in, if it does: the exception of
    the request itself, or the HTTP error of a status in 400-599. *)
Definition request_error (env : collaborators) (url : string) : option exn :=
  match requests_get env url with
  | Ok r => if status_ok r then None else Some HTTPError
  | Raise e => Some e
  end.

(** Surroundings without network in which the configuration loads as
    [cfg]. *)
Definition configured (cfg : config) : collaborators :=
  {| timestamp := "20240101_000000";
     os_sep := "/";
     yaml_safe_load := fun _ => Ok cfg;
     requests_get := fun _ => Raise RequestException;
     html_parser := fun _ => Tag "[document]" None [] [];
     select_one := fun _ _ => None |}.

(** ** A whole run *)

(** What the rotation leaves in [current]: everything but the entry of
    the last name listed. *)
Definition kept (cs : list (string * entry)) : list (string * entry) :=
  match cs with
  | [] => []
  | _ :: _ => assoc_del (last (keys cs) "") cs
  end.

(** What the rotation leaves in [last time] when [current] holds [cs]
    and [last time] holds [ps]. *)
Definition archived (cs ps : list (string * entry)) : list (string * entry) :=
  match cs with
  | [] => ps
  | _ :: _ =>
      (without (keys cs) ps ++
       match assoc (last (keys cs) "") cs with
       | Some moved => [(last (keys cs) "", moved)]
       | None => []
       end)%list
  end.

(** A front page whose link has an empty [href]. *)
Definition blank_link_page : node :=
  Tag "[document]" None []
    [Tag "div" (Some ["mt-content-container"]) []
       [Tag "li" None [] [Tag "a" None [("href", "")] []]]].

Definition blank_link_site : collaborators :=
  {| timestamp := "20240101_000000";
     os_sep := "/";
     yaml_safe_load := fun _ => Ok sample_config;
     requests_get :=
       fun _ => Ok {| status_code := 200; response_text := "front" |};
     html_parser := fun _ => blank_link_page;
     select_one := sample_select |}.

(** The tree that holds [e] at [p] and nothing else. *)
Fixpoint under (p : path) (e : entry) : entry :=
  match p with
  | [] => e
  | n :: p' => Dir [(n, under p' e)]
  end.

(** The output directory of the later script after two runs. *)
Definition second_run : world :=
  {| log := [];
     disk :=
       under V11.base_output_dir
         (Dir [("current",
                Dir [("table_1.csv", File [["a"]; ["1"]]);
                     ("table_2.csv", File [["b"]; ["1"]]);
                     ("table_3.csv", File [["c"]; ["1"]])]);
               ("last time",
                Dir [("table_3.csv", File [["c"]; ["0"]])])]) |}.

(** [m], started on any tree that satisfies [pre], ends in [r] on a tree
    that satisfies [post]. *)
Definition run_from {A} (pre : entry -> Prop) (m : M A) (r : result A)
  (post : entry -> Prop) : Prop :=
  forall w, pre (disk w) -> exists w', m w = (r, w') /\ post (disk w').

(** No level-2 heading lies between [t1] and [t2] in the document, [t1]
    included. *)
Definition no_heading_between (soup : node) (t1 t2 : element) : bool :=
  forallb (fun n => negb (is_tag "h2" n))
          (firstn (position t2 - position t1)
                  (skipn (position t1) (parse_order soup))).

(** Two section blocks; the heading that precedes the table of the first
    is the last one before the table of the second. *)
Definition shared_heading_page : node :=
  Tag "[document]" None []
    [Tag "div" (Some ["rnsub"]) []
       [Tag "h2" None [] [NavigableString "Added"];
        Tag "table" None [] [tr [th "Name"]; tr [td "A"]]];
     Tag "div" (Some ["rnsub"]) []
       [Tag "table" None [] [tr [th "Title"]; tr [td "B"]]]].

(** An output directory in which a directory of [last time] has the name
    of a file of [current]. *)
Definition blocked_archive : world :=
  {| log := [];
     disk :=
       Dir [("out",
             Dir [("current",
                   Dir [("table_1.csv", File [["a"]; ["1"]]);
                        ("table_2.csv", File [["b"]; ["1"]])]);
                  ("last time",
                   Dir [("table_1.csv", File [["a"]; ["0"]]);
                        ("table_2.csv", Dir [])])])] |}.

(** * Properties *)

(** ** Runs that only write log records *)

Lemma add_log_nil w : add_log [] w = w.
Proof. destruct w; unfold add_log; simpl; now rewrite app_nil_r. Qed.

Lemma add_log_app l1 l2 w : add_log l2 (add_log l1 w) = add_log (l1 ++ l2) w.
Proof. unfold add_log; simpl; now rewrite app_assoc. Qed.

Lemma logs_only_pure {A} (m : M A) r :
  (forall w, m w = (r, w)) -> logs_only m r.
Proof. intros H w; exists []; now rewrite add_log_nil. Qed.

Lemma logs_only_ret {A} (a : A) : logs_only (ret a) (Ok a).
Proof. now apply logs_only_pure. Qed.

Lemma logs_only_raise {A} e : logs_only (@raise A e) (Raise e).
Proof. now apply logs_only_pure. Qed.

Lemma logs_only_emit r : logs_only (emit r) (Ok tt).
Proof. intros w; exists [r]; reflexivity. Qed.

Lemma logs_only_bind {A B} (m : M A) (k : A -> M B) a r :
  logs_only m (Ok a) -> logs_only (k a) r -> logs_only (bind m k) r.
Proof.
  intros Hm Hk w. destruct (Hm w) as [l1 E1].
  destruct (Hk (add_log l1 w)) as [l2 E2].
  exists (l1 ++ l2)%list. unfold bind. now rewrite E1, E2, add_log_app.
Qed.

Lemma logs_only_bind_raise {A B} (m : M A) (k : A -> M B) e :
  logs_only m (Raise e) -> logs_only (bind m k) (Raise e).
Proof.
  intros Hm w. destruct (Hm w) as [l1 E1].
  exists l1. unfold bind. now rewrite E1.
Qed.

Lemma logs_only_try_ok {A} (m : M A) h a :
  logs_only m (Ok a) -> logs_only (try_except m h) (Ok a).
Proof.
  intros Hm w. destruct (Hm w) as [l1 E1].
  exists l1. unfold try_except. now rewrite E1.
Qed.

Lemma logs_only_try_raise {A} (m : M A) h e r :
  logs_only m (Raise e) -> logs_only (h e) r -> logs_only (try_except m h) r.
Proof.
  intros Hm Hh w. destruct (Hm w) as [l1 E1].
  destruct (Hh (add_log l1 w)) as [l2 E2].
  exists (l1 ++ l2)%list. unfold try_except. now rewrite E1, E2, add_log_app.
Qed.

Lemma logs_only_for_in {A S} (body : A -> S -> M S) f :
  (forall x s, logs_only (body x s) (f x s)) ->
  forall l s, logs_only (for_in l body s) (fold_result f l s).
Proof.
  intros Hb l; induction l as [|x l IH]; intros s; simpl.
  - apply logs_only_ret.
  - specialize (Hb x s). destruct (f x s) as [s'|e].
    + eapply logs_only_bind; [exact Hb | apply IH].
    + now apply logs_only_bind_raise.
Qed.

Lemma logs_only_det {A} (m : M A) r1 r2 :
  logs_only m r1 -> logs_only m r2 -> r1 = r2.
Proof.
  intros H1 H2. pose (w := {| log := []; disk := Dir [] |}).
  destruct (H1 w) as [l1 E1], (H2 w) as [l2 E2]. congruence.
Qed.

Lemma logs_only_run {A} (m : M A) r w :
  logs_only m r -> fst (m w) = r /\ disk (snd (m w)) = disk w.
Proof. intros H; destruct (H w) as [lg E]; rewrite E; split; reflexivity. Qed.

Create HintDb logs.
#[local] Hint Resolve logs_only_ret logs_only_raise logs_only_emit : logs.

Ltac log_step :=
  first
    [ apply logs_only_ret
    | apply logs_only_raise
    | apply logs_only_emit
    | eapply logs_only_bind; [ solve [ auto with logs ] | ] ].

(** ** Lists *)

Lemma nth_error_skipn_some {A} (l : list A) k x :
  nth_error l k = Some x -> skipn k l = x :: skipn (S k) l.
Proof.
  revert k; induction l as [|y l IH]; intros [|k] H; simpl in *;
    try discriminate.
  - now inversion H.
  - now apply IH.
Qed.

Lemma nth_error_skipn_none {A} (l : list A) k :
  nth_error l k = None -> skipn k l = [].
Proof.
  revert k; induction l as [|y l IH]; intros [|k] H; simpl in *;
    try discriminate; auto.
Qed.

Lemma fold_result_enumerate {A S} (f : A -> S -> result S) (l : list A) :
  forall k s,
    fold_result (fun ix s => f (snd ix) s)
                (combine (seq k (List.length l)) l) s
    = fold_result f l s.
Proof.
  induction l as [|x l IH]; intros k s; simpl; auto.
  destruct (f x s); auto.
Qed.

Lemma fold_result_append {A B} (g : A -> list B) (l : list A) :
  forall s, fold_result (fun x s => Ok (s ++ g x)%list) l s
            = Ok (s ++ flat_map g l)%list.
Proof.
  induction l as [|x l IH]; intros s; simpl.
  - now rewrite app_nil_r.
  - now rewrite IH, app_assoc.
Qed.

(** ** The dictionary comprehension of a row *)

Lemma row_loop_run (ph hs cells : list string) :
  forall d w,
    for_in (seq (List.length ph) (List.length hs))
      (fun i row_data =>
         k <- getitem (ph ++ hs)%list i ;;
         v <- getitem cells i ;;
         ret (assoc_set k v row_data)) d w
    = (if (List.length hs <=? List.length (skipn (List.length ph) cells))%nat
       then Ok (fold_left (fun d kv => assoc_set (fst kv) (snd kv) d)
                  (combine hs (skipn (List.length ph) cells)) d)
       else Raise IndexError, w).
Proof.
  revert ph; induction hs as [|h hs IH]; intros ph d w.
  - reflexivity.
  - cbn [List.length seq for_in]. unfold bind at 1.
    unfold bind at 1. unfold getitem at 1.
    rewrite nth_error_app2 by lia. rewrite Nat.sub_diag. cbn [nth_error ret].
    unfold bind at 1. unfold getitem at 1.
    destruct (nth_error cells (List.length ph)) as [c|] eqn:E.
    + rewrite (nth_error_skipn_some _ _ _ E). cbn [ret].
      specialize (IH (ph ++ [h])%list (assoc_set h c d) w).
      rewrite <- app_assoc in IH. cbn [app] in IH.
      rewrite length_app in IH. cbn [List.length] in IH.
      rewrite Nat.add_1_r in IH. rewrite IH. reflexivity.
    + rewrite (nth_error_skipn_none _ _ E). reflexivity.
Qed.

Lemma row_comprehension_run hs cells w :
  row_comprehension hs cells w = (zip_result hs cells, w).
Proof.
  unfold row_comprehension, range, zip_result, zip_dict.
  exact (row_loop_run [] hs cells [] w).
Qed.

Lemma logs_only_row_comprehension hs cells :
  logs_only (row_comprehension hs cells) (zip_result hs cells).
Proof. apply logs_only_pure; intros; apply row_comprehension_run. Qed.

(** ** Loops that collect *)

Lemma logs_only_for_enumerate_append {A B}
  (body : nat * A -> list B -> M (list B)) (g : A -> list B) l s :
  (forall i x s, logs_only (body (i, x) s) (Ok (s ++ g x)%list)) ->
  logs_only (for_in (enumerate1 l) body s) (Ok (s ++ flat_map g l)%list).
Proof.
  intros Hb.
  rewrite <- fold_result_append,
    <- (fold_result_enumerate (fun x s => Ok (s ++ g x)%list) l 1 s).
  apply logs_only_for_in. intros [i x] s'. apply Hb.
Qed.

Lemma flat_map_filter_map {A B} (p : A -> bool) (f : A -> B) l :
  flat_map (fun x => if p x then [f x] else []) l = map f (filter p l).
Proof.
  induction l as [|x l IH]; simpl; auto.
  destruct (p x); simpl; now rewrite IH.
Qed.

Lemma filter_all {A} (p : A -> bool) l :
  forallb p l = true -> filter p l = l.
Proof.
  induction l as [|x l IH]; simpl; auto.
  intros H. apply andb_prop in H. destruct H as [Hx Hl].
  rewrite Hx. now rewrite IH.
Qed.

Lemma map_as_flat_map {A B} (f : A -> B) l :
  map f l = flat_map (fun x => [f x]) l.
Proof. induction l as [|x l IH]; simpl; congruence. Qed.

Lemma fold_result_all {A B} (p : A -> bool) (f : A -> B) e l :
  forall s,
    fold_result
      (fun x s => if p x then Ok (s ++ [f x])%list else Raise e) l s
    = if forallb p l then Ok (s ++ map f l)%list else Raise e.
Proof.
  induction l as [|x l IH]; intros s; simpl.
  - now rewrite app_nil_r.
  - destruct (p x); simpl; auto.
    rewrite IH. now rewrite <- app_assoc.
Qed.

(** ** What [extract_tables] returns *)

Section Extraction.

Variable env : collaborators.

Lemma logs_only_row_v10 hs week url title row_idx row table_data :
  logs_only
    (try_except
       (let cells :=
          map (fun cell => strip (text (markup cell)))
              (find_all "td" any_class row) in
        row_data <- row_comprehension hs cells ;;
        let row_data :=
          dict_update row_data
            [("week_info", week); ("source_url", url);
             ("table_title", title)] in
        ret (table_data ++ [row_data])%list)
       (fun e =>
          logging_error
            ("Error processing row " ++ str row_idx ++ " in table '"
             ++ title ++ "': " ++ str_exn e) ;;
          ret table_data))
    (Ok (table_data ++
         (if complete hs row then [record_of hs week url title row]
          else []))%list).
Proof.
  cbv zeta. fold (cells_of row).
  pose proof (logs_only_row_comprehension hs (cells_of row)) as H.
  unfold zip_result in H. unfold complete.
  destruct (List.length hs <=? List.length (cells_of row))%nat.
  - apply logs_only_try_ok. eapply logs_only_bind; [exact H|].
    apply logs_only_ret.
  - eapply logs_only_try_raise.
    + apply logs_only_bind_raise. exact H.
    + rewrite app_nil_r. unfold logging_error. repeat log_step.
Qed.

Lemma logs_only_row_v11 hs week url title row table_data :
  logs_only
    (let cells :=
       map (fun cell => strip (text (markup cell)))
           (find_all "td" any_class row) in
     row_data <- row_comprehension hs cells ;;
     let row_data :=
       dict_update row_data
         [("week_info", week); ("source_url", url);
          ("table_title", title)] in
     ret (table_data ++ [row_data])%list)
    (if complete hs row
     then Ok (table_data ++ [record_of hs week url title row])%list
     else Raise IndexError).
Proof.
  cbv zeta. fold (cells_of row).
  pose proof (logs_only_row_comprehension hs (cells_of row)) as H.
  unfold zip_result in H. unfold complete.
  destruct (List.length hs <=? List.length (cells_of row))%nat.
  - eapply logs_only_bind; [exact H|]. apply logs_only_ret.
  - apply logs_only_bind_raise. exact H.
Qed.

(** The earlier script returns every table of every section block. *)
Lemma extract_tables_v10 html url :
  logs_only (V10.extract_tables env html url)
            (Ok (snapshot_v10 (html_parser env html) url)).
Proof.
  unfold V10.extract_tables, logging_info, logging_debug, logging_error.
  cbv zeta. fold (sections (html_parser env html)).
  log_step. log_step.
  eapply logs_only_bind.
  - apply (logs_only_for_enumerate_append _
             (fun div => map (table_v10 (html_parser env html) url
                                (label_of div)) (tables_of div))).
    intros idx div acc. fold (label_of div). fold (tables_of div).
    log_step. log_step. log_step.
    rewrite map_as_flat_map.
    apply (logs_only_for_enumerate_append _
             (fun t => [table_v10 (html_parser env html) url
                          (label_of div) t])).
    intros table_idx t acc'.
    apply logs_only_try_ok.
    fold (title_of (html_parser env html) t). fold (headers_of t).
    fold (data_rows t).
    log_step. log_step.
    eapply logs_only_bind.
    + apply (logs_only_for_enumerate_append _
               (fun row =>
                  if complete (headers_of t) row
                  then [record_of (headers_of t) (label_of div) url
                          (title_of (html_parser env html) t) row]
                  else [])).
      intros row_idx row td. apply logs_only_row_v10.
    + log_step. unfold table_v10. cbv zeta.
      rewrite flat_map_filter_map. apply logs_only_ret.
  - cbn [app]. log_step. apply logs_only_ret.
Qed.

(** The later script returns the tables all of whose data rows are
    complete. *)
Lemma extract_tables_v11 html url :
  logs_only (V11.extract_tables env html url)
            (Ok (snapshot_v11 (html_parser env html) url)).
Proof.
  unfold V11.extract_tables, logging_info, logging_debug, logging_error.
  cbv zeta. fold (sections (html_parser env html)).
  log_step. log_step.
  eapply logs_only_bind.
  - apply (logs_only_for_enumerate_append _
             (fun div => flat_map (table_v11 (html_parser env html) url
                                     (label_of div)) (tables_of div))).
    intros idx div acc. fold (label_of div). fold (tables_of div).
    log_step.
    apply (logs_only_for_enumerate_append _
             (table_v11 (html_parser env html) url (label_of div))).
    intros table_idx t acc'.
    fold (title_of (html_parser env html) t). fold (headers_of t).
    fold (data_rows t).
    pose proof (logs_only_for_in _ _
      (fun row td =>
         logs_only_row_v11 (headers_of t) (label_of div) url
           (title_of (html_parser env html) t) row td)
      (data_rows t) []) as Hrows.
    rewrite fold_result_all in Hrows. unfold table_v11. cbv zeta.
    destruct (forallb (complete (headers_of t)) (data_rows t)).
    + apply logs_only_try_ok. eapply logs_only_bind; [exact Hrows|].
      apply logs_only_ret.
    + eapply logs_only_try_raise.
      * apply logs_only_bind_raise. exact Hrows.
      * rewrite app_nil_r. repeat log_step.
  - cbn [app]. log_step. apply logs_only_ret.
Qed.

End Extraction.

(** ** Dictionaries *)

Lemma assoc_set_same {V} k (v : V) d : assoc k (assoc_set k v d) = Some v.
Proof.
  induction d as [|[k' v'] d IH]; simpl.
  - now rewrite String.eqb_refl.
  - destruct (k' =? k) eqn:E; simpl.
    + now rewrite String.eqb_refl.
    + now rewrite E.
Qed.

Lemma assoc_set_other {V} k k' (v : V) d :
  k <> k' -> assoc k (assoc_set k' v d) = assoc k d.
Proof.
  intros N. induction d as [|[k2 v2] d IH]; simpl.
  - destruct (k' =? k) eqn:E; auto.
    apply String.eqb_eq in E. congruence.
  - destruct (k2 =? k') eqn:E; simpl.
    + apply String.eqb_eq in E; subst k2.
      destruct (k' =? k) eqn:E2; auto.
      apply String.eqb_eq in E2. congruence.
    + destruct (k2 =? k); auto.
Qed.

Lemma record_of_tags hs week url title row :
  assoc "week_info" (record_of hs week url title row) = Some week /\
  assoc "source_url" (record_of hs week url title row) = Some url /\
  assoc "table_title" (record_of hs week url title row) = Some title.
Proof.
  unfold record_of, dict_update. cbn [fold_left fst snd].
  repeat split.
  - rewrite !assoc_set_other by discriminate. apply assoc_set_same.
  - rewrite assoc_set_other by discriminate. apply assoc_set_same.
  - apply assoc_set_same.
Qed.

(** ** Claims about the extractor *)

Lemma zip_result_short hs cells :
  List.length cells < List.length hs -> zip_result hs cells = Raise IndexError.
Proof.
  intros H. unfold zip_result.
  destruct (Nat.leb_spec (List.length hs) (List.length cells)); auto; lia.
Qed.

Lemma complete_false_short hs row :
  complete hs row = false <-> List.length (cells_of row) < List.length hs.
Proof. unfold complete. rewrite Nat.leb_gt. reflexivity. Qed.

Lemma in_snapshot_v10 soup url div tbl :
  In div (sections soup) -> In tbl (tables_of div) ->
  In (table_v10 soup url (label_of div) tbl) (snapshot_v10 soup url).
Proof.
  intros Hd Ht. unfold snapshot_v10. apply in_flat_map.
  exists div; split; auto. now apply in_map.
Qed.

Lemma in_snapshot_v11 soup url div tbl t :
  In div (sections soup) -> In tbl (tables_of div) ->
  In t (table_v11 soup url (label_of div) tbl) ->
  In t (snapshot_v11 soup url).
Proof.
  intros Hd Ht Hin. unfold snapshot_v11. apply in_flat_map.
  exists div; split; auto. apply in_flat_map. now exists tbl.
Qed.

(** The snapshots, table by table. *)

Lemma table_v11_whole soup url week div tbl :
  table_v11 soup url week tbl
  = if whole (div, tbl) then [table_v10 soup url week tbl] else [].
Proof.
  unfold table_v11, table_v10, whole. cbv zeta. cbn [snd].
  destruct (forallb (complete (headers_of tbl)) (data_rows tbl)) eqn:Hall;
    [|reflexivity].
  now rewrite (filter_all _ _ Hall).
Qed.

Lemma snapshot_v10_placed soup url :
  snapshot_v10 soup url
  = map (fun p => table_v10 soup url (label_of (fst p)) (snd p))
        (placed_tables soup).
Proof.
  unfold snapshot_v10, placed_tables.
  induction (sections soup) as [|div l IH]; simpl; auto.
  rewrite map_app, map_map, IH. reflexivity.
Qed.

Lemma snapshot_v11_placed soup url :
  snapshot_v11 soup url
  = map (fun p => table_v10 soup url (label_of (fst p)) (snd p))
        (filter whole (placed_tables soup)).
Proof.
  unfold snapshot_v11, placed_tables.
  induction (sections soup) as [|div l IH]; simpl; auto.
  rewrite filter_app, map_app, IH. f_equal.
  induction (tables_of div) as [|tbl ts IHt]; simpl; auto.
  rewrite (table_v11_whole soup url (label_of div) div tbl).
  destruct (whole (div, tbl)); simpl; now rewrite IHt.
Qed.

Lemma Forall2_map_right {A B} (R : A -> B -> Prop) (f : A -> B) l :
  (forall x, R x (f x)) -> Forall2 R l (map f l).
Proof. intros H. induction l; simpl; constructor; auto. Qed.

Lemma stems_from_table_v10 soup url p :
  stems_from soup url p (table_v10 soup url (label_of (fst p)) (snd p)).
Proof.
  unfold stems_from, table_v10, carries. cbv zeta. cbn [table_title rows].
  split; [reflexivity|]. apply Forall2_map_right. intros row.
  apply record_of_tags.
Qed.

Lemma nth_error_filter_rank {A} (p : A -> bool) l : forall i x,
  nth_error l i = Some x -> p x = true ->
  nth_error (filter p l) (List.length (filter p (firstn i l))) = Some x.
Proof.
  induction l as [|y l IH]; intros [|i] x H Hp; simpl in *;
    try discriminate.
  - inversion H; subst. now rewrite Hp.
  - destruct (p y); simpl; auto.
Qed.

Lemma nth_snapshot_v10 soup url i div tbl :
  nth_error (placed_tables soup) i = Some (div, tbl) ->
  nth_error (snapshot_v10 soup url) i
  = Some (table_v10 soup url (label_of div) tbl).
Proof.
  intros H. rewrite snapshot_v10_placed.
  exact (map_nth_error
           (fun p => table_v10 soup url (label_of (fst p)) (snd p)) _ _ H).
Qed.

Lemma nth_snapshot_v11 soup url i div tbl :
  nth_error (placed_tables soup) i = Some (div, tbl) ->
  whole (div, tbl) = true ->
  nth_error (snapshot_v11 soup url) (returned_before soup i)
  = Some (table_v10 soup url (label_of div) tbl).
Proof.
  intros H Hw. rewrite snapshot_v11_placed.
  exact (map_nth_error
           (fun p => table_v10 soup url (label_of (fst p)) (snd p)) _ _
           (nth_error_filter_rank whole _ _ _ H Hw)).
Qed.

Lemma table_v10_rows soup url week tbl :
  List.length (rows (table_v10 soup url week tbl))
  = List.length (filter (complete (headers_of tbl)) (data_rows tbl)).
Proof. unfold table_v10. cbv zeta. cbn [rows]. apply length_map. Qed.

Lemma records_v10_complete soup url t r :
  In t (snapshot_v10 soup url) -> In r (rows t) ->
  from_complete_row soup url r.
Proof.
  intros Hin Hr. unfold snapshot_v10 in Hin.
  apply in_flat_map in Hin. destruct Hin as (div & Hd & Hin).
  apply in_map_iff in Hin. destruct Hin as (tbl & <- & Ht).
  unfold table_v10 in Hr. cbv zeta in Hr. cbn [rows] in Hr.
  apply in_map_iff in Hr. destruct Hr as (row & <- & Hrow).
  apply filter_In in Hrow. destruct Hrow as [Hrow Hc].
  exists div, tbl, row. auto.
Qed.

Lemma records_v11_complete soup url t r :
  In t (snapshot_v11 soup url) -> In r (rows t) ->
  from_complete_row soup url r.
Proof.
  intros Hin Hr. unfold snapshot_v11 in Hin.
  apply in_flat_map in Hin. destruct Hin as (div & Hd & Hin).
  apply in_flat_map in Hin. destruct Hin as (tbl & Ht & Hin).
  unfold table_v11 in Hin. cbv zeta in Hin.
  destruct (forallb (complete (headers_of tbl)) (data_rows tbl)) eqn:Hall;
    [|contradiction].
  destruct Hin as [<-|[]]. cbn [rows] in Hr.
  apply in_map_iff in Hr. destruct Hr as (row & <- & Hrow).
  rewrite forallb_forall in Hall.
  exists div, tbl, row. repeat split; auto.
Qed.

(** C1, as amended.  A data row with fewer cells than the table has
    headers gets no record: the dictionary comprehension indexes the cells
    at every header position and raises an index error, so neither a
    truncated nor a padded record is built.  Both scripts return a
    snapshot, and every record in it stems from a row that has a cell for
    every header.  In the earlier script, which catches the error per row,
    the table keeps exactly the records of its complete rows, in order. *)
Theorem short_row_yields_no_record env html url div tbl row :
  let soup := html_parser env html in
  let hs := headers_of tbl in
  In div (sections soup) -> In tbl (tables_of div) ->
  In row (data_rows tbl) ->
  List.length (cells_of row) < List.length hs ->
  (forall w, row_comprehension hs (cells_of row) w = (Raise IndexError, w)) /\
  (exists snap,
      logs_only (V10.extract_tables env html url) (Ok snap) /\
      (forall t r, In t snap -> In r (rows t) -> from_complete_row soup url r) /\
      exists t,
        In t snap /\
        headers t = (hs ++ synthetic_columns)%list /\
        table_title t = title_of soup tbl /\
        rows t = map (record_of hs (label_of div) url (title_of soup tbl))
                     (filter (complete hs) (data_rows tbl)) /\
        ~ In row (filter (complete hs) (data_rows tbl))) /\
  (exists snap,
      logs_only (V11.extract_tables env html url) (Ok snap) /\
      forall t r, In t snap -> In r (rows t) -> from_complete_row soup url r).
Proof.
  intros soup hs Hd Ht Hr Hshort. split; [|split].
  - intros w. rewrite row_comprehension_run.
    now rewrite zip_result_short.
  - exists (snapshot_v10 soup url). split; [apply extract_tables_v10|].
    split; [apply records_v10_complete|].
    exists (table_v10 soup url (label_of div) tbl).
    split; [now apply in_snapshot_v10|]. repeat split.
    intros Hin. apply filter_In in Hin. destruct Hin as [_ Hc].
    apply complete_false_short in Hshort. fold hs in Hc. congruence.
  - exists (snapshot_v11 soup url). split; [apply extract_tables_v11|].
    apply records_v11_complete.
Qed.

Lemma short_row_yields_no_record_witness :
  In short_row_div (sections short_row_page) /\
  In short_row_table (tables_of short_row_div) /\
  In short_row (data_rows short_row_table) /\
  List.length (cells_of short_row) < List.length (headers_of short_row_table) /\
  row_comprehension (headers_of short_row_table) (cells_of short_row) blank
  = (Raise IndexError, blank).
Proof.
  assert (Hd : In short_row_div (sections short_row_page))
    by (vm_compute; auto).
  assert (Ht : In short_row_table (tables_of short_row_div))
    by (vm_compute; auto).
  assert (Hr : In short_row (data_rows short_row_table))
    by (vm_compute; auto).
  assert (Hs : List.length (cells_of short_row)
               < List.length (headers_of short_row_table))
    by (vm_compute; lia).
  repeat (split; [assumption|]).
  exact (proj1 (short_row_yields_no_record (offline short_row_page) ""
                  "http://x" short_row_div short_row_table short_row
                  Hd Ht Hr Hs) blank).
Defined.

(** C1 as stated fails: the second data row of the table of
    [short_row_page] has one cell for two headers, and neither script
    returns a record for it.  The earlier script returns the table with the
    record of the first row only, the later script returns no table. *)
Lemma short_row_counterexample :
  map (fun tbl => List.length (headers_of tbl))
      (flat_map tables_of (sections short_row_page)) = [2] /\
  map (fun row => List.length (cells_of row))
      (flat_map data_rows (flat_map tables_of (sections short_row_page)))
  = [2; 1] /\
  fst (V10.extract_tables (offline short_row_page) "" "http://x" blank)
  = Ok [{| headers :=
             ["Name"; "Type"; "week_info"; "source_url"; "table_title"];
           rows := [[("Name", "A"); ("Type", "Journal");
                     ("week_info", "Week 1"); ("source_url", "http://x");
                     ("table_title", "Added")]];
           table_title := "Added" |}] /\
  fst (V11.extract_tables (offline short_row_page) "" "http://x" blank)
  = Ok [].
Proof. repeat split; vm_compute; reflexivity. Qed.

(** Where a failing row is caught.  Building the record of a row raises
    exactly when the row is short.  The earlier script catches the error at
    row granularity: the table still appears in the snapshot, with the
    record of every complete row.  The later script has no handler around
    a row: a table with a short row contributes nothing, and a table whose
    rows are all complete appears with all its records. *)
Lemma row_failure_granularity env html url div tbl :
  let soup := html_parser env html in
  let hs := headers_of tbl in
  In div (sections soup) -> In tbl (tables_of div) ->
  (forall row w,
      row_comprehension hs (cells_of row) w
      = (if complete hs row then Ok (zip_dict hs (cells_of row))
         else Raise IndexError, w)) /\
  (exists snap,
      logs_only (V10.extract_tables env html url) (Ok snap) /\
      exists t,
        In t snap /\ table_title t = title_of soup tbl /\
        forall row, In row (data_rows tbl) -> complete hs row = true ->
          In (record_of hs (label_of div) url (title_of soup tbl) row)
             (rows t)) /\
  (exists snap,
      logs_only (V11.extract_tables env html url) (Ok snap) /\
      (forallb (complete hs) (data_rows tbl) = false ->
       table_v11 soup url (label_of div) tbl = []) /\
      (forallb (complete hs) (data_rows tbl) = true ->
       exists t,
         In t snap /\ table_title t = title_of soup tbl /\
         rows t = map (record_of hs (label_of div) url (title_of soup tbl))
                      (data_rows tbl)) /\
      snap = flat_map
               (fun div =>
                  flat_map (table_v11 soup url (label_of div)) (tables_of div))
               (sections soup)).
Proof.
  intros soup hs Hd Ht. split; [|split].
  - intros row w. rewrite row_comprehension_run. reflexivity.
  - exists (snapshot_v10 soup url). split; [apply extract_tables_v10|].
    exists (table_v10 soup url (label_of div) tbl).
    split; [now apply in_snapshot_v10|]. split; [reflexivity|].
    intros row Hr Hc. unfold table_v10. cbv zeta. cbn [rows].
    apply in_map. apply filter_In. auto.
  - exists (snapshot_v11 soup url). split; [apply extract_tables_v11|].
    split; [|split; [|reflexivity]].
    + intros Hall. unfold table_v11. cbv zeta. fold hs. now rewrite Hall.
    + intros Hall. eexists. split.
      * eapply in_snapshot_v11; eauto. unfold table_v11. cbv zeta.
        fold hs. rewrite Hall. left. reflexivity.
      * split; reflexivity.
Qed.

(** C2 fails on the later script.  The first table of [two_table_page]
    has two headers, a data row of one cell and a data row of two cells;
    the second table is well formed.  The later script returns the second
    table only: the failure of the short row was caught around the whole
    table, so the complete row of the first table was never turned into a
    record and the table is missing from the snapshot.  The earlier
    script, run on the same page, returns both tables, the first with the
    record of its complete row. *)
Lemma later_script_drops_table_of_failing_row :
  map (fun tbl => map (fun row => List.length (cells_of row)) (data_rows tbl))
      (flat_map tables_of (sections two_table_page)) = [[1; 2]; [1]] /\
  map (fun tbl => List.length (headers_of tbl))
      (flat_map tables_of (sections two_table_page)) = [2; 1] /\
  V11.extract_tables (offline two_table_page) "" "http://x" blank
  = (Ok [{| headers := ["Name"; "week_info"; "source_url"; "table_title"];
            rows := [[("Name", "C"); ("week_info", "Unknown Week");
                      ("source_url", "http://x");
                      ("table_title", "Removed")]];
            table_title := "Removed" |}],
     add_log
       [(INFO, "Beginning table extraction");
        (INFO, "Found 1 rnsub divisions");
        (ERROR, "Error processing table 1: list index out of range");
        (INFO, "Completed table extraction. Total tables extracted: 1")]
       blank) /\
  fst (V10.extract_tables (offline two_table_page) "" "http://x" blank)
  = Ok [{| headers :=
             ["Name"; "Type"; "week_info"; "source_url"; "table_title"];
           rows := [[("Name", "B"); ("Type", "Journal");
                     ("week_info", "Unknown Week"); ("source_url", "http://x");
                     ("table_title", "Added")]];
           table_title := "Added" |};
        {| headers := ["Name"; "week_info"; "source_url"; "table_title"];
           rows := [[("Name", "C"); ("week_info", "Unknown Week");
                     ("source_url", "http://x");
                     ("table_title", "Removed")]];
           table_title := "Removed" |}].
Proof. repeat split; vm_compute; reflexivity. Qed.

(** C7.  Both scripts return a snapshot whose tables answer, one for one
    and in order, the tables of the page as the extractor meets them under
    the section blocks (for the later script: those among them all of whose
    data rows are complete).  Every record of the table returned for a
    table element met under a section block carries the three synthetic
    columns, set to the label of that very block, to the URL handed to
    [extract_tables] and to the title of that table, and there is one such
    record for each complete data row. *)
Theorem records_carry_provenance env html url :
  let soup := html_parser env html in
  (exists snap,
      logs_only (V10.extract_tables env html url) (Ok snap) /\
      Forall2 (stems_from soup url) (placed_tables soup) snap) /\
  (exists snap,
      logs_only (V11.extract_tables env html url) (Ok snap) /\
      Forall2 (stems_from soup url) (filter whole (placed_tables soup)) snap).
Proof.
  intros soup. split.
  - exists (snapshot_v10 soup url). split; [apply extract_tables_v10|].
    rewrite snapshot_v10_placed. apply Forall2_map_right.
    apply stems_from_table_v10.
  - exists (snapshot_v11 soup url). split; [apply extract_tables_v11|].
    rewrite snapshot_v11_placed. apply Forall2_map_right.
    apply stems_from_table_v10.
Qed.

(** The relation tells the section blocks apart: on a page with two blocks
    labelled differently whose tables are otherwise alike, a record with
    the label of the first block does not pass for a record of the table
    of the second. *)
Lemma stems_from_tells_blocks_apart :
  forall p,
    nth_error (placed_tables two_weeks_page) 1 = Some p ->
    ~ stems_from two_weeks_page "http://x" p
        {| headers := ["Name"; "week_info"; "source_url"; "table_title"];
           rows := [[("Name", "A"); ("week_info", "Week 1");
                     ("source_url", "http://x"); ("table_title", "Added")]];
           table_title := "Added" |}.
Proof.
  intros p Hp. vm_compute in Hp. inversion Hp; subst p. clear Hp.
  intros [_ H]. vm_compute in H. inversion H as [|? ? ? ? Hc _]; subst.
  destruct Hc as (Hw & _). discriminate.
Qed.

Lemma filter_none {A} (p : A -> bool) l :
  forallb (fun x => negb (p x)) l = true -> filter p l = [].
Proof.
  induction l as [|x l IH]; simpl; auto.
  intros H. apply andb_prop in H. destruct H as [Hx Hl].
  apply negb_true_iff in Hx. rewrite Hx. auto.
Qed.

Lemma forallb_rev {A} (p : A -> bool) l :
  forallb p l = true -> forallb p (rev l) = true.
Proof.
  rewrite !forallb_forall. intros H x Hin. apply H. now apply in_rev.
Qed.

Lemma title_of_sentinel soup tbl :
  no_heading_before soup tbl = true -> title_of soup tbl = "Untitled Table".
Proof.
  unfold no_heading_before, title_of, find_previous. intros H.
  apply forallb_rev in H. now rewrite (filter_none _ _ H).
Qed.

Lemma label_of_sentinel div :
  no_tag_span div = true -> label_of div = "Unknown Week".
Proof.
  unfold no_tag_span, label_of, find, find_all. intros H.
  now rewrite (filter_none _ _ H).
Qed.

Lemma table_v10_tags soup url week tbl r :
  In r (rows (table_v10 soup url week tbl)) ->
  assoc "week_info" r = Some week /\
  assoc "source_url" r = Some url /\
  assoc "table_title" r = Some (title_of soup tbl).
Proof.
  unfold table_v10. cbv zeta. cbn [rows]. intros H.
  apply in_map_iff in H. destruct H as (row & <- & _). apply record_of_tags.
Qed.

(** C8.  Take the table met at position [i] among the tables of the page,
    under the section block [div].  The earlier script returns a table for
    it at position [i] of its snapshot, with one record for each complete
    data row; the later script, when every data row is complete, returns a
    table for it at the position that counts the tables with only complete
    rows before it, with one record for each data row.  If no level-2
    heading precedes the table in the document, the returned table has the
    title "Untitled Table" and so has each of its records; if the block has
    no tag span, each record has the label "Unknown Week". *)
Theorem sentinels env html url i div tbl :
  let soup := html_parser env html in
  nth_error (placed_tables soup) i = Some (div, tbl) ->
  exists snap10 snap11,
    logs_only (V10.extract_tables env html url) (Ok snap10) /\
    logs_only (V11.extract_tables env html url) (Ok snap11) /\
    (exists t,
        nth_error snap10 i = Some t /\
        List.length (rows t)
        = List.length (filter (complete (headers_of tbl)) (data_rows tbl)) /\
        (no_heading_before soup tbl = true ->
         table_title t = "Untitled Table" /\
         forall r, In r (rows t) ->
           assoc "table_title" r = Some "Untitled Table") /\
        (no_tag_span div = true ->
         forall r, In r (rows t) ->
           assoc "week_info" r = Some "Unknown Week")) /\
    (whole (div, tbl) = true ->
     exists t,
        nth_error snap11 (returned_before soup i) = Some t /\
        List.length (rows t) = List.length (data_rows tbl) /\
        (no_heading_before soup tbl = true ->
         table_title t = "Untitled Table" /\
         forall r, In r (rows t) ->
           assoc "table_title" r = Some "Untitled Table") /\
        (no_tag_span div = true ->
         forall r, In r (rows t) ->
           assoc "week_info" r = Some "Unknown Week")).
Proof.
  intros soup Hi.
  exists (snapshot_v10 soup url), (snapshot_v11 soup url).
  split; [apply extract_tables_v10|]. split; [apply extract_tables_v11|].
  assert (Hsent :
    (no_heading_before soup tbl = true ->
     table_title (table_v10 soup url (label_of div) tbl) = "Untitled Table" /\
     forall r, In r (rows (table_v10 soup url (label_of div) tbl)) ->
       assoc "table_title" r = Some "Untitled Table") /\
    (no_tag_span div = true ->
     forall r, In r (rows (table_v10 soup url (label_of div) tbl)) ->
       assoc "week_info" r = Some "Unknown Week")).
  { split.
    - intros Hh. rewrite <- (title_of_sentinel _ _ Hh).
      split; [reflexivity|]. intros r Hr.
      now apply table_v10_tags in Hr.
    - intros Hs r Hr. rewrite <- (label_of_sentinel _ Hs).
      now apply table_v10_tags in Hr. }
  split.
  - exists (table_v10 soup url (label_of div) tbl).
    split; [now apply nth_snapshot_v10|].
    split; [apply table_v10_rows|exact Hsent].
  - intros Hw. exists (table_v10 soup url (label_of div) tbl).
    split; [now apply nth_snapshot_v11|].
    split; [|exact Hsent].
    rewrite table_v10_rows. unfold whole in Hw. cbn [snd] in Hw.
    now rewrite (filter_all _ _ Hw).
Qed.

Lemma sentinels_witness :
  nth_error (placed_tables bare_page) 0 = Some (bare_div, bare_table) /\
  no_heading_before bare_page bare_table = true /\
  no_tag_span bare_div = true /\
  exists snap10,
    logs_only (V10.extract_tables (offline bare_page) "" "http://x")
              (Ok snap10) /\
    exists t r,
      nth_error snap10 0 = Some t /\ table_title t = "Untitled Table" /\
      In r (rows t) /\ assoc "week_info" r = Some "Unknown Week".
Proof.
  assert (Hi : nth_error (placed_tables bare_page) 0
               = Some (bare_div, bare_table)) by reflexivity.
  assert (Hh : no_heading_before bare_page bare_table = true)
    by (vm_compute; reflexivity).
  assert (Hs : no_tag_span bare_div = true) by (vm_compute; reflexivity).
  repeat (split; [assumption|]).
  destruct (sentinels (offline bare_page) "" "http://x" 0 bare_div bare_table
              Hi)
    as (snap10 & snap11 & H10 & _ & (t & Hin & Hlen & Htitle & Hweek) & _).
  exists snap10. split; [exact H10|].
  destruct (rows t) as [|r rs] eqn:Er; [vm_compute in Hlen; discriminate|].
  exists t, r. split; [exact Hin|]. split; [exact (proj1 (Htitle Hh))|].
  rewrite Er. split; [now left|]. apply (Hweek Hs). now left.
Defined.

(** ** Claims about the link resolver *)

Lemma logs_only_lift {A} (r : result A) : logs_only (lift r) r.
Proof. now apply logs_only_pure. Qed.

Lemma logs_only_raise_for_status r :
  status_ok r = true -> logs_only (raise_for_status r) (Ok tt).
Proof.
  unfold status_ok, raise_for_status. intros H.
  apply negb_true_iff in H. rewrite H. apply logs_only_ret.
Qed.

Lemma logs_only_setup_logging env : logs_only (setup_logging env) (Ok PyNone).
Proof. unfold setup_logging, logging_info. cbv zeta. repeat log_step. Qed.

Lemma logs_only_load_config env config_path cfg :
  yaml_safe_load env config_path = Ok cfg ->
  logs_only (load_config env config_path) (Ok cfg).
Proof.
  intros H. unfold load_config, logging_info. apply logs_only_try_ok.
  log_step. rewrite H. eapply logs_only_bind; [apply logs_only_lift|].
  repeat log_step.
Qed.

Section Resolver.

Variable env : collaborators.
Variables (cfg : config) (urls : urls_cfg) (selectors : link_selectors_cfg).
Variables (main_url container_selector : string) (front : response).

Hypothesis has_urls : cfg_urls cfg = Some urls.
Hypothesis has_main_url : cfg_main_url urls = Some main_url.
Hypothesis has_selectors : cfg_link_selectors urls = Some selectors.
Hypothesis has_container : cfg_container selectors = Some container_selector.
Hypothesis served : requests_get env main_url = Ok front.
Hypothesis served_ok : status_ok front = true.
Hypothesis no_match :
  select_one env container_selector
    (document (html_parser env (response_text front))) = None.

Lemma resolver_not_found w :
  V11.get_latest_month_url env cfg w
  = (Ok PyNone,
     add_log [(INFO, "Accessing main URL: " ++ main_url);
              (ERROR, "Content container not found using selector")] w).
Proof.
  unfold V11.get_latest_month_url, try_except_on, try_except, bind, subscript.
  rewrite has_urls. cbn [ret]. rewrite has_main_url. cbn [ret].
  unfold logging_info at 1. cbn [emit]. unfold lift. rewrite served.
  unfold raise_for_status. pose proof served_ok as Hs. unfold status_ok in Hs.
  apply negb_true_iff in Hs. rewrite Hs. cbn [ret]. unfold logging_debug.
  cbn [ret]. rewrite has_selectors. cbn [ret]. rewrite has_container.
  cbn [ret]. cbv zeta. rewrite no_match.
  unfold logging_error, emit, ret, add_log. cbn [log disk].
  now rewrite <- app_assoc.
Qed.

Lemma main_not_found :
  yaml_safe_load env "config.yaml" = Ok cfg ->
  logs_only (V11.main env) (Ok PyNone).
Proof.
  intros Hcfg. unfold V11.main. apply logs_only_try_ok.
  eapply logs_only_bind; [apply logs_only_setup_logging|].
  eapply logs_only_bind; [apply logs_only_load_config; exact Hcfg|].
  eapply logs_only_bind.
  - intros w. eexists. apply resolver_not_found.
  - unfold logging_error. repeat log_step.
Qed.

End Resolver.

(** C5.  When the configured container selector matches nothing on the
    front page, [get_latest_month_url] raises nothing and returns [None],
    having logged that the container was not found; [main] then returns
    normally, and the only thing the run has changed is the log: no
    directory is created and no file is written. *)
Theorem missing_container_ends_run
  env cfg urls selectors main_url container_selector front :
  yaml_safe_load env "config.yaml" = Ok cfg ->
  cfg_urls cfg = Some urls ->
  cfg_main_url urls = Some main_url ->
  cfg_link_selectors urls = Some selectors ->
  cfg_container selectors = Some container_selector ->
  requests_get env main_url = Ok front ->
  status_ok front = true ->
  select_one env container_selector
    (document (html_parser env (response_text front))) = None ->
  (forall w,
      V11.get_latest_month_url env cfg w
      = (Ok PyNone,
         add_log [(INFO, "Accessing main URL: " ++ main_url);
                  (ERROR, "Content container not found using selector")] w)) /\
  (forall w,
      exists lg,
        V11.main env w = (Ok PyNone, add_log lg w) /\
        disk (snd (V11.main env w)) = disk w).
Proof.
  intros Hcfg H1 H2 H3 H4 H5 H6 H7. split.
  - intros w. eapply resolver_not_found; eauto.
  - intros w.
    destruct (main_not_found env cfg urls selectors main_url
                container_selector front H1 H2 H3 H4 H5 H6 H7 Hcfg w)
      as [lg E].
    exists lg. rewrite E. split; reflexivity.
Qed.

Lemma missing_container_ends_run_witness :
  exists lg,
    V11.main no_container blank = (Ok PyNone, add_log lg blank) /\
    disk (snd (V11.main no_container blank)) = disk blank.
Proof.
  exact (proj2 (missing_container_ends_run no_container sample_config
                  _ _ _ _ _
                  eq_refl eq_refl eq_refl eq_refl eq_refl eq_refl eq_refl
                  eq_refl) blank).
Defined.

Example missing_container_run :
  V11.main no_container blank
  = (Ok PyNone,
     add_log
       [(INFO,
         "Logging initialized. Log file: logs/scraper_20240101_000000.log");
        (INFO, "Loading configuration from config.yaml");
        (INFO, "Configuration loaded successfully");
        (INFO, "Accessing main URL: https://kb.example/release-notes");
        (ERROR, "Content container not found using selector");
        (ERROR, "Could not retrieve the latest month URL. Exiting.")]
       blank).
Proof. vm_compute. reflexivity. Qed.

(** ** Entries of a directory *)

Lemma assoc_del_same {V} k (d : list (string * V)) : assoc k (assoc_del k d) = None.
Proof.
  induction d as [|[k' v] d IH]; simpl; auto.
  destruct (k' =? k) eqn:E; simpl; auto. now rewrite E.
Qed.

Lemma assoc_del_other {V} k k' (d : list (string * V)) :
  k <> k' -> assoc k (assoc_del k' d) = assoc k d.
Proof.
  intros N. induction d as [|[k2 v] d IH]; simpl; auto.
  destruct (k2 =? k') eqn:E; simpl.
  - apply String.eqb_eq in E; subst k2.
    destruct (k' =? k) eqn:E2; auto.
    apply String.eqb_eq in E2. congruence.
  - destruct (k2 =? k); auto.
Qed.

Lemma assoc_set_id {V} k (v : V) d : assoc k d = Some v -> assoc_set k v d = d.
Proof.
  induction d as [|[k' v'] d IH]; simpl; try discriminate.
  destruct (k' =? k) eqn:E.
  - apply String.eqb_eq in E; subst k'. now intros [= ->].
  - intros H. now rewrite IH.
Qed.

Lemma assoc_set_set {V} k (v v' : V) d :
  assoc_set k v (assoc_set k v' d) = assoc_set k v d.
Proof.
  induction d as [|[k' v2] d IH]; simpl.
  - now rewrite String.eqb_refl.
  - destruct (k' =? k) eqn:E; simpl.
    + now rewrite String.eqb_refl.
    + now rewrite E, IH.
Qed.

Lemma assoc_set_new {V} k (v : V) d :
  assoc k d = None -> assoc_set k v d = (d ++ [(k, v)])%list.
Proof.
  induction d as [|[k' v'] d IH]; simpl; auto.
  destruct (k' =? k); try discriminate. intros H. now rewrite IH.
Qed.

Lemma assoc_del_absent {V} k (d : list (string * V)) :
  assoc k d = None -> assoc_del k d = d.
Proof.
  induction d as [|[k' v'] d IH]; simpl; auto.
  destruct (k' =? k); try discriminate. intros H. now rewrite IH.
Qed.

Lemma assoc_del_filter {V} k (d : list (string * V)) :
  assoc_del k d = filter (fun kv => negb (fst kv =? k)) d.
Proof.
  induction d as [|[k' v'] d IH]; simpl; auto.
  destruct (k' =? k); simpl; now rewrite IH.
Qed.

Lemma fold_assoc_del_without {V} names :
  forall d : list (string * V),
    fold_left (fun d n => assoc_del n d) names d = without names d.
Proof.
  induction names as [|n names IH]; intros d; simpl.
  - unfold without. simpl. induction d as [|x d IHd]; simpl; congruence.
  - rewrite IH, assoc_del_filter. unfold without.
    induction d as [|[k v] d IHd]; simpl; auto.
    destruct (k =? n) eqn:E; simpl; auto.
    destruct (existsb (String.eqb k) names); simpl; now rewrite IHd.
Qed.

Lemma assoc_without {V} names k (d : list (string * V)) :
  assoc k (without names d)
  = if existsb (String.eqb k) names then None else assoc k d.
Proof.
  unfold without. induction d as [|[k' v] d IH]; simpl.
  - now destruct (existsb (String.eqb k) names).
  - destruct (existsb (String.eqb k') names) eqn:E1; simpl.
    + destruct (k' =? k) eqn:E2; auto.
      apply String.eqb_eq in E2; subst k'. now rewrite E1 in *.
    + destruct (k' =? k) eqn:E2; auto.
      apply String.eqb_eq in E2; subst k'. now rewrite E1.
Qed.

(** ** Paths *)

Lemma lookup_app p q e :
  lookup (p ++ q)%list e
  = match lookup p e with
    | Some e' => lookup q e'
    | None => None
    end.
Proof.
  revert e; induction p as [|n p IH]; intros e; simpl; auto.
  destruct e as [|cs]; auto. destruct (assoc n cs); auto.
Qed.

Lemma lookup_put_under p q o e sub :
  lookup p e = Some sub -> q <> [] ->
  lookup p (put (p ++ q)%list o e) = Some (put q o sub).
Proof.
  revert e; induction p as [|n p IH]; intros e H Hq; simpl in *.
  - now inversion H.
  - destruct e as [|cs]; try discriminate.
    destruct (assoc n cs) as [c|] eqn:E; try discriminate.
    specialize (IH c H Hq). destruct (p ++ q)%list eqn:Epq.
    + apply app_eq_nil in Epq. tauto.
    + simpl. rewrite assoc_set_same. exact IH.
Qed.

Lemma mkdirs_under p q e sub sub' :
  lookup p e = Some sub -> mkdirs q sub = Ok sub' ->
  exists e', mkdirs (p ++ q)%list e = Ok e' /\ lookup p e' = Some sub'.
Proof.
  revert e; induction p as [|n p IH]; intros e H Hq; simpl in *.
  - inversion H; subst. eauto.
  - destruct e as [|cs]; try discriminate.
    destruct (assoc n cs) as [c|] eqn:E; try discriminate.
    destruct (IH c H Hq) as (c' & Hm & Hl). rewrite Hm.
    eexists. split; [reflexivity|]. simpl. now rewrite assoc_set_same.
Qed.

Lemma mkdirs_is_dir p :
  forall e e', mkdirs p e = Ok e' ->
  exists cs, lookup p e' = Some (Dir cs) /\
             (forall cs0, lookup p e = Some (Dir cs0) -> cs = cs0) /\
             (lookup p e = None -> cs = []).
Proof.
  induction p as [|n p IH]; intros e e' H; simpl in *.
  - destruct e as [|cs]; try discriminate. inversion H; subst.
    exists cs. repeat split; auto; congruence.
  - destruct e as [|cs]; try discriminate.
    destruct (mkdirs p match assoc n cs with Some c => c | None => Dir [] end)
      as [c'|] eqn:E; try discriminate.
    inversion H; subst. simpl. rewrite assoc_set_same.
    destruct (IH _ _ E) as (cs' & Hl & Hsame & Hnone).
    exists cs'. split; auto. destruct (assoc n cs) as [c|]; split; auto.
    + discriminate.
    + intros _. destruct p; simpl in *.
      * inversion E; subst. congruence.
      * apply Hnone. reflexivity.
Qed.

(** [os.makedirs] neither creates, nor removes, nor changes a file. *)
Lemma mkdirs_files p :
  forall e e', mkdirs p e = Ok e' ->
  forall q c, lookup q e' = Some (File c) <-> lookup q e = Some (File c).
Proof.
  induction p as [|n p IH]; intros e e' H q c; simpl in *.
  - destruct e; try discriminate. now inversion H.
  - destruct e as [|cs]; try discriminate.
    destruct (mkdirs p match assoc n cs with Some c => c | None => Dir [] end)
      as [c'|] eqn:E; try discriminate.
    inversion H; subst. destruct q as [|m q]; simpl.
    + split; discriminate.
    + destruct (String.eqb_spec m n) as [->|N].
      * rewrite assoc_set_same. rewrite (IH _ _ E).
        destruct (assoc n cs); [reflexivity|].
        destruct q; simpl; split; discriminate.
      * rewrite assoc_set_other by auto. reflexivity.
Qed.

Lemma parent_join p name : parent (os_path_join p name) = p.
Proof. unfold parent, os_path_join. apply removelast_last. Qed.

(** ** File names *)

Lemma str_inj n m : str n = str m -> n = m.
Proof.
  unfold str. intros H.
  assert (Hn : forall k, Nat.to_uint k <> Decimal.Nil).
  { intros k. rewrite <- (DecimalNat.Unsigned.of_to k) at 1.
    rewrite DecimalNat.Unsigned.to_of. apply DecimalFacts.unorm_nonnil. }
  apply (f_equal NilZero.uint_of_string) in H.
  rewrite !NilZero.usu in H by apply Hn.
  inversion H. now apply DecimalNat.Unsigned.to_uint_inj.
Qed.

Lemma length_append a b :
  String.length (a ++ b) = String.length a + String.length b.
Proof. induction a as [|c a IH]; simpl; auto. Qed.

Lemma append_inj_l s a : forall b, a ++ s = b ++ s -> a = b.
Proof.
  induction a as [|c a IH]; intros [|d b] H; simpl in *; auto.
  - apply (f_equal String.length) in H. simpl in H.
    rewrite length_append in H. lia.
  - apply (f_equal String.length) in H. simpl in H.
    rewrite length_append in H. lia.
  - inversion H; subst. f_equal. now apply IH.
Qed.

Lemma table_file_inj i j : table_file i = table_file j -> i = j.
Proof.
  unfold table_file. intros H.
  apply str_inj. apply (append_inj_l ".csv").
  simpl in H. now inversion H.
Qed.

(** ** The writer *)

Lemma to_csv_run out f df w cs :
  lookup out (disk w) = Some (Dir cs) ->
  exists w',
    to_csv df (os_path_join out f) w
    = (if is_dir (assoc f cs) then Raise IsADirectoryError else Ok tt, w') /\
    log w' = log w /\
    lookup out (disk w')
    = Some (Dir (if is_dir (assoc f cs) then cs
                 else assoc_set f (File (csv_lines df)) cs)).
Proof.
  intros H. unfold to_csv. rewrite parent_join, H.
  unfold os_path_join. rewrite lookup_app, H. cbn [lookup].
  assert (Hput :
    lookup out (put (out ++ [f])%list (Some (File (csv_lines df))) (disk w))
    = Some (Dir (assoc_set f (File (csv_lines df)) cs))).
  { rewrite (lookup_put_under _ _ _ _ _ H) by discriminate. reflexivity. }
  destruct (assoc f cs) as [[l|sub]|]; cbn [is_dir];
    eexists; (split; [reflexivity|]); split; auto.
Qed.

Lemma is_dir_write_one f idx t cs :
  is_dir (assoc f (write_one idx t cs)) = is_dir (assoc f cs).
Proof.
  unfold write_one.
  destruct (is_dir (assoc (table_file idx) cs)) eqn:E; auto.
  destruct (String.eqb_spec f (table_file idx)) as [->|N].
  - now rewrite assoc_set_same, E.
  - now rewrite assoc_set_other.
Qed.

Lemma writable_write_one ts : forall idx j t cs,
  writable idx ts (write_one j t cs) = writable idx ts cs.
Proof.
  induction ts as [|t' ts IH]; intros idx j t cs; simpl; auto.
  now rewrite is_dir_write_one, IH.
Qed.

Lemma writable_le ts : forall idx cs, writable idx ts cs <= List.length ts.
Proof.
  induction ts as [|t ts IH]; intros idx cs; simpl; auto.
  specialize (IH (S idx) cs).
  destruct (is_dir (assoc (table_file idx) cs)); simpl; lia.
Qed.

Lemma write_all_other f ts : forall idx cs,
  (forall j, idx <= j -> table_file j <> f) ->
  assoc f (write_all idx ts cs) = assoc f cs.
Proof.
  induction ts as [|t ts IH]; intros idx cs Hf; simpl; auto.
  rewrite IH by (intros j Hj; apply Hf; lia).
  unfold write_one. destruct (is_dir (assoc (table_file idx) cs)); auto.
  apply assoc_set_other. intros ->. now apply (Hf idx).
Qed.

Lemma write_all_nth ts : forall idx cs i t,
  nth_error ts i = Some t ->
  is_dir (assoc (table_file (idx + i)) cs) = false ->
  assoc (table_file (idx + i)) (write_all idx ts cs)
  = Some (File (csv_lines (pd_DataFrame (rows t)))).
Proof.
  induction ts as [|t0 ts IH]; intros idx cs [|i] t Hn Hd; simpl in *;
    try discriminate.
  - inversion Hn; subst. rewrite Nat.add_0_r in *.
    rewrite write_all_other.
    + unfold write_one. rewrite Hd. apply assoc_set_same.
    + intros j Hj E. apply table_file_inj in E. lia.
  - rewrite <- Nat.add_succ_comm in *. apply IH; auto.
    now rewrite is_dir_write_one.
Qed.

Lemma write_all_position ts cs i t :
  nth_error ts i = Some t ->
  is_dir (assoc (table_file (S i)) cs) = false ->
  assoc (table_file (S i)) (write_all 1 ts cs)
  = Some (File (csv_lines (pd_DataFrame (rows t)))).
Proof. exact (write_all_nth ts 1 cs i t). Qed.

Section Writer.

Variable env : collaborators.
Variable out : path.

Lemma save_loop_v11 ts : forall idx w cs,
  lookup out (disk w) = Some (Dir cs) ->
  exists w',
    for_in (combine (seq idx (List.length ts)) ts)
      (fun '(idx, table) (_ : unit) =>
         try_except
           (let df := pd_DataFrame (rows table) in
            let filename :=
              os_path_join out ("table_" ++ str idx ++ ".csv") in
            to_csv df filename ;;
            logging_info
              ("Saved table '" ++ table_title table ++ "' to "
               ++ path_str env filename))
           (fun e =>
              logging_error
                ("Error saving table " ++ str idx ++ ": " ++ str_exn e)))
      tt w
    = (Ok tt, w') /\
    lookup out (disk w') = Some (Dir (write_all idx ts cs)).
Proof.
  induction ts as [|t ts IH]; intros idx w cs H.
  - exists w. split; [reflexivity|exact H].
  - cbn [List.length seq combine for_in write_all]. cbv zeta.
    fold (table_file idx).
    destruct (to_csv_run out (table_file idx) (pd_DataFrame (rows t)) w cs H)
      as (w1 & Hrun & _ & Hl).
    unfold bind at 1, try_except, bind at 1. rewrite Hrun.
    unfold write_one.
    destruct (is_dir (assoc (table_file idx) cs));
      unfold logging_info, logging_error, emit; cbn [ret];
      match goal with
      | |- context [for_in _ _ tt ?w2] =>
          destruct (IH (S idx) w2 _ Hl) as (w' & Hloop & Hl')
      end;
      exists w'; (split; [exact Hloop|exact Hl']).
Qed.

Lemma save_loop_v10 ts : forall idx n w cs,
  lookup out (disk w) = Some (Dir cs) ->
  exists w',
    for_in (combine (seq idx (List.length ts)) ts)
      (fun '(idx, table) saved_count =>
         try_except
           (let df := pd_DataFrame (rows table) in
            let filename :=
              os_path_join out ("table_" ++ str idx ++ ".csv") in
            to_csv df filename ;;
            logging_info
              ("Saved table '" ++ table_title table ++ "' to "
               ++ path_str env filename) ;;
            ret (saved_count + 1))
           (fun e =>
              logging_error
                ("Error saving table " ++ str idx ++ ": " ++ str_exn e) ;;
              ret saved_count))
      n w
    = (Ok (n + writable idx ts cs), w') /\
    lookup out (disk w') = Some (Dir (write_all idx ts cs)).
Proof.
  induction ts as [|t ts IH]; intros idx n w cs H.
  - exists w. cbn. rewrite Nat.add_0_r. split; [reflexivity|exact H].
  - cbn [List.length seq combine for_in write_all writable]. cbv zeta.
    fold (table_file idx).
    destruct (to_csv_run out (table_file idx) (pd_DataFrame (rows t)) w cs H)
      as (w1 & Hrun & _ & Hl).
    unfold bind at 1, try_except, bind at 1. rewrite Hrun.
    rewrite <- (writable_write_one ts (S idx) idx t cs).
    unfold write_one in *.
    destruct (is_dir (assoc (table_file idx) cs));
      unfold logging_info, logging_error, emit, bind at 1; cbn [ret];
      match goal with
      | |- context [for_in _ _ ?m ?w2] =>
          destruct (IH (S idx) m w2 _ Hl) as (w' & Hloop & Hl')
      end;
      exists w'; (split; [|exact Hl']);
      (etransitivity; [exact Hloop|]); do 2 f_equal; lia.
Qed.

End Writer.

Lemma bind_run {A B} (m : M A) (k : A -> M B) w a w' :
  m w = (Ok a, w') -> bind m k w = k a w'.
Proof. intros H. unfold bind. now rewrite H. Qed.

Lemma bind_run_raise {A B} (m : M A) (k : A -> M B) w e w' :
  m w = (Raise e, w') -> bind m k w = (Raise e, w').
Proof. intros H. unfold bind. now rewrite H. Qed.

Lemma os_makedirs_run p w d :
  mkdirs p (disk w) = Ok d -> os_makedirs p w = (Ok tt, set_disk d w).
Proof. intros H. unfold os_makedirs. now rewrite H. Qed.

Ltac run_with H := etransitivity; [apply bind_run; exact H|]; cbv beta.

Section SaveTables.

Variable env : collaborators.
Variable out : path.
Variable ts : list table.

Lemma save_tables_v11_run w d0 cs0 :
  mkdirs out (disk w) = Ok d0 ->
  lookup out d0 = Some (Dir cs0) ->
  exists w',
    V11.save_tables env ts out w = (Ok PyNone, w') /\
    lookup out (disk w') = Some (Dir (write_all 1 ts cs0)).
Proof.
  intros Hm Hl.
  pose (w1 := add_log
                [(INFO, "Saving tables to directory: " ++ path_str env out)] w).
  destruct (save_loop_v11 env out ts 1 (set_disk d0 w1) cs0 Hl)
    as (w' & Hloop & Hl').
  exists w'. split; [|exact Hl']. unfold V11.save_tables, enumerate1.
  run_with (eq_refl : logging_info _ w = (Ok tt, w1)).
  run_with (os_makedirs_run out w1 d0 Hm).
  run_with Hloop. reflexivity.
Qed.

Lemma save_tables_v10_run w d0 cs0 :
  mkdirs out (disk w) = Ok d0 ->
  lookup out d0 = Some (Dir cs0) ->
  exists w',
    V10.save_tables env ts out w
    = (Ok PyNone,
       add_log [(INFO,
                 "Successfully saved " ++ str (writable 1 ts cs0) ++ " out of "
                 ++ str (List.length ts) ++ " tables")] w') /\
    lookup out (disk w') = Some (Dir (write_all 1 ts cs0)).
Proof.
  intros Hm Hl.
  pose (w1 := add_log
                [(INFO, "Saving tables to directory: " ++ path_str env out)] w).
  destruct (save_loop_v10 env out ts 1 0 (set_disk d0 w1) cs0 Hl)
    as (w' & Hloop & Hl').
  exists w'. split; [|exact Hl']. unfold V10.save_tables, enumerate1.
  run_with (eq_refl : logging_info _ w = (Ok tt, w1)).
  run_with (os_makedirs_run out w1 d0 Hm).
  run_with Hloop. reflexivity.
Qed.

Lemma save_tables_v11_raise w e :
  mkdirs out (disk w) = Raise e ->
  fst (V11.save_tables env ts out w) = Raise e.
Proof.
  intros Hm. unfold V11.save_tables.
  unfold bind at 1. unfold logging_info at 1, emit.
  unfold bind at 1. unfold os_makedirs. cbn [disk]. now rewrite Hm.
Qed.

Lemma save_tables_v10_raise w e :
  mkdirs out (disk w) = Raise e ->
  fst (V10.save_tables env ts out w) = Raise e.
Proof.
  intros Hm. unfold V10.save_tables.
  unfold bind at 1. unfold logging_info at 1, emit.
  unfold bind at 1. unfold os_makedirs. cbn [disk]. now rewrite Hm.
Qed.

End SaveTables.

(** ** Frames built from records *)

Lemma existsb_eqb_In k l : existsb (String.eqb k) l = true <-> In k l.
Proof.
  rewrite existsb_exists. split.
  - intros (x & Hin & E). apply String.eqb_eq in E. now subst.
  - intros H. exists k. split; auto. apply String.eqb_refl.
Qed.








(** ** Claims about the writer *)

Lemma lookup_join out f d cs :
  lookup out d = Some (Dir cs) -> lookup (os_path_join out f) d = assoc f cs.
Proof.
  intros H. unfold os_path_join. rewrite lookup_app, H. cbn [lookup].
  now destruct (assoc f cs).
Qed.

Lemma for_in_related {A S} (R : A -> A -> Prop) (body : A -> S -> M S) :
  (forall x y, R x y -> forall s w, body x s w = body y s w) ->
  forall l l', Forall2 R l l' ->
  forall s w, for_in l body s w = for_in l' body s w.
Proof.
  intros Hb l l' HF. induction HF as [|x y l l' Hxy HF IH]; intros s w.
  - reflexivity.
  - cbn [for_in]. unfold bind. rewrite (Hb x y Hxy).
    destruct (body y s w) as [[s'|e] w']; auto.
Qed.

Lemma bind_ext {A B} (m m' : M A) (k k' : A -> M B) w :
  m w = m' w -> (forall a w', k a w' = k' a w') ->
  bind m k w = bind m' k' w.
Proof.
  intros Hm Hk. unfold bind. rewrite Hm.
  destruct (m' w) as [[a|e] w']; auto.
Qed.

(** Two tables that differ at most in their ['headers']. *)
Lemma same_rows_enumerate (ts : list table) : forall ts' idx,
  map rows ts' = map rows ts ->
  map table_title ts' = map table_title ts ->
  Forall2
    (fun x y =>
       fst x = fst y /\ rows (snd x) = rows (snd y) /\
       table_title (snd x) = table_title (snd y))
    (combine (seq idx (List.length ts')) ts')
    (combine (seq idx (List.length ts)) ts).
Proof.
  induction ts as [|t ts IH]; intros [|t' ts'] idx Hr Ht;
    try discriminate; [constructor|].
  cbn [map] in Hr, Ht. inversion Hr. inversion Ht.
  cbn [List.length seq combine]. constructor; auto.
Qed.

Lemma save_tables_v11_same_rows env out ts ts' w :
  map rows ts' = map rows ts ->
  map table_title ts' = map table_title ts ->
  V11.save_tables env ts' out w = V11.save_tables env ts out w.
Proof.
  intros Hr Ht. unfold V11.save_tables, enumerate1.
  apply bind_ext; [reflexivity|]. intros _ w1.
  apply bind_ext; [reflexivity|]. intros _ w2.
  apply bind_ext; [|reflexivity].
  eapply (for_in_related
            (fun x y =>
               fst x = fst y /\ rows (snd x) = rows (snd y) /\
               table_title (snd x) = table_title (snd y))).
  - intros [i x] [j y] (Hi & Hx & Hy) s w0. cbn [fst snd] in *.
    subst j. cbv zeta. rewrite Hx, Hy. reflexivity.
  - now apply same_rows_enumerate.
Qed.

Lemma save_tables_v10_same_rows env out ts ts' w :
  map rows ts' = map rows ts ->
  map table_title ts' = map table_title ts ->
  V10.save_tables env ts' out w = V10.save_tables env ts out w.
Proof.
  intros Hr Ht. unfold V10.save_tables, enumerate1.
  assert (Hlen : List.length ts' = List.length ts).
  { rewrite <- (length_map rows ts'), Hr. apply length_map. }
  apply bind_ext; [reflexivity|]. intros _ w1.
  apply bind_ext; [reflexivity|]. intros _ w2.
  apply bind_ext; [|intros; now rewrite Hlen].
  eapply (for_in_related
            (fun x y =>
               fst x = fst y /\ rows (snd x) = rows (snd y) /\
               table_title (snd x) = table_title (snd y))).
  - intros [i x] [j y] (Hi & Hx & Hy) s w0. cbn [fst snd] in *.
    subst j. cbv zeta. rewrite Hx, Hy. reflexivity.
  - now apply same_rows_enumerate.
Qed.

(** C9.  For a table without records both scripts write a file whose
    only line has no field: no column is named in it.  More generally the
    writer never reads ['headers']: tables with the same records and the
    same titles are written alike, whatever columns they declare. *)
Theorem empty_table_file_has_no_header env ts out w d0 cs0 i t :
  mkdirs out (disk w) = Ok d0 ->
  lookup out d0 = Some (Dir cs0) ->
  nth_error ts i = Some t ->
  is_dir (assoc (table_file (S i)) cs0) = false ->
  rows t = [] ->
  (exists w',
      V11.save_tables env ts out w = (Ok PyNone, w') /\
      lookup (os_path_join out (table_file (S i))) (disk w')
      = Some (File [[]])) /\
  (exists w',
      V10.save_tables env ts out w = (Ok PyNone, w') /\
      lookup (os_path_join out (table_file (S i))) (disk w')
      = Some (File [[]])) /\
  (forall ts',
      map rows ts' = map rows ts ->
      map table_title ts' = map table_title ts ->
      V11.save_tables env ts' out w = V11.save_tables env ts out w /\
      V10.save_tables env ts' out w = V10.save_tables env ts out w).
Proof.
  intros Hm Hl Hn Hd He.
  assert (Hfile :
    assoc (table_file (S i)) (write_all 1 ts cs0) = Some (File [[]])).
  { rewrite (write_all_position ts cs0 i t Hn Hd). now rewrite He. }
  split; [|split].
  - destruct (save_tables_v11_run env out ts w d0 cs0 Hm Hl)
      as (w' & Hrun & Hl').
    exists w'. split; [exact Hrun|].
    now rewrite (lookup_join _ _ _ _ Hl').
  - destruct (save_tables_v10_run env out ts w d0 cs0 Hm Hl)
      as (w' & Hrun & Hl').
    eexists. split; [exact Hrun|]. unfold add_log. cbn [disk].
    now rewrite (lookup_join _ _ _ _ Hl').
  - intros ts' Hr Ht. split.
    + now apply save_tables_v11_same_rows.
    + now apply save_tables_v10_same_rows.
Qed.

Lemma empty_table_file_has_no_header_witness :
  exists w',
    V11.save_tables (offline header_only_page) [header_only_table] ["out"]
                    blank
    = (Ok PyNone, w') /\
    lookup (os_path_join ["out"] (table_file 1)) (disk w')
    = Some (File [[]]).
Proof.
  exact (proj1 (empty_table_file_has_no_header (offline header_only_page)
                  [header_only_table] ["out"] blank
                  (Dir [("out", Dir [])]) [] 0 header_only_table
                  eq_refl eq_refl eq_refl eq_refl eq_refl)).
Defined.




(** C4, as amended.  [save_tables] has no [return] statement: when the
    output directory can be made, the call evaluates to [None] in both
    scripts, and when it cannot, the error of [os.makedirs] reaches the
    caller.  The earlier script counts the tables it has written and
    reports the count, with the number of tables attempted, in its last
    log record; the later script keeps no count. *)
Theorem writer_returns_none env ts out w :
  match mkdirs out (disk w) with
  | Raise e =>
      fst (V10.save_tables env ts out w) = Raise e /\
      fst (V11.save_tables env ts out w) = Raise e
  | Ok d0 =>
      exists cs0 w10 w11,
        lookup out d0 = Some (Dir cs0) /\
        V10.save_tables env ts out w
        = (Ok PyNone,
           add_log
             [(INFO,
               "Successfully saved " ++ str (writable 1 ts cs0) ++ " out of "
               ++ str (List.length ts) ++ " tables")] w10) /\
        writable 1 ts cs0 <= List.length ts /\
        lookup out (disk w10) = Some (Dir (write_all 1 ts cs0)) /\
        V11.save_tables env ts out w = (Ok PyNone, w11) /\
        lookup out (disk w11) = Some (Dir (write_all 1 ts cs0))
  end.
Proof.
  destruct (mkdirs out (disk w)) as [d0|e] eqn:Hm.
  - destruct (mkdirs_is_dir _ _ _ Hm) as (cs0 & Hl & _).
    destruct (save_tables_v10_run env out ts w d0 cs0 Hm Hl)
      as (w10 & H10 & Hl10).
    destruct (save_tables_v11_run env out ts w d0 cs0 Hm Hl)
      as (w11 & H11 & Hl11).
    exists cs0, w10, w11. repeat split; auto. apply writable_le.
  - split.
    + now apply save_tables_v10_raise.
    + now apply save_tables_v11_raise.
Qed.

(** C4 as stated fails: writing the one table of [one_record_table] into
    a fresh directory succeeds in both scripts, and both calls evaluate to
    [None], not to the count 1. *)
Lemma writer_count_counterexample :
  fst (V10.save_tables (offline short_row_page) [one_record_table] ["out"]
         blank) = Ok PyNone /\
  fst (V11.save_tables (offline short_row_page) [one_record_table] ["out"]
         blank) = Ok PyNone /\
  lookup ["out"; "table_1.csv"]
    (disk (snd (V11.save_tables (offline short_row_page) [one_record_table]
                  ["out"] blank)))
  = Some (File [["Name"; "Type"; "week_info"; "source_url"; "table_title"];
                ["A"; "Journal"; "Week 1"; "http://x"; "Added"]]) /\
  last (log (snd (V10.save_tables (offline short_row_page)
                    [one_record_table] ["out"] blank))) (DEBUG, "")
  = (INFO, "Successfully saved 1 out of 1 tables") /\
  Ok PyNone <> Ok (PyInt 1).
Proof. repeat split; try (vm_compute; reflexivity). discriminate. Qed.

(** ** The two slots of a base directory *)

Lemma assoc_in_keys {V} k (d : list (string * V)) :
  In k (keys d) -> exists v, assoc k d = Some v.
Proof.
  induction d as [|[k' v] d IH]; simpl; [contradiction|].
  intros [->|H].
  - rewrite String.eqb_refl. eauto.
  - destruct (k' =? k); eauto.
Qed.

Lemma mkdirs_noop p : forall e cs,
  lookup p e = Some (Dir cs) -> mkdirs p e = Ok e.
Proof.
  induction p as [|n p IH]; intros e cs H; simpl in *.
  - now inversion H.
  - destruct e as [|bs]; try discriminate.
    destruct (assoc n bs) as [c|] eqn:E; try discriminate.
    rewrite (IH c cs H). now rewrite assoc_set_id.
Qed.

Section Slots.

Variable base : path.
Variable name : string.

Lemma lookup_slot d bs :
  lookup base d = Some (Dir bs) ->
  lookup (os_path_join base name) d = assoc name bs.
Proof. apply lookup_join. Qed.

Lemma lookup_in_slot d bs cs f :
  lookup base d = Some (Dir bs) -> assoc name bs = Some (Dir cs) ->
  lookup (os_path_join (os_path_join base name) f) d = assoc f cs.
Proof.
  intros Hb Hn. apply lookup_join. now rewrite (lookup_slot _ _ Hb).
Qed.

Lemma put_in_slot d bs cs f o :
  lookup base d = Some (Dir bs) -> assoc name bs = Some (Dir cs) ->
  lookup base (put (os_path_join (os_path_join base name) f) o d)
  = Some (Dir (assoc_set name
                 (Dir match o with
                      | Some x => assoc_set f x cs
                      | None => assoc_del f cs
                      end) bs)).
Proof.
  intros Hb Hn. unfold os_path_join. rewrite <- app_assoc. cbn [app].
  rewrite (lookup_put_under _ _ _ _ _ Hb) by discriminate.
  cbn [put]. now rewrite Hn.
Qed.

Lemma make_slot w bs cs :
  lookup base (disk w) = Some (Dir bs) -> slot bs name = Some cs ->
  exists d,
    os_makedirs (os_path_join base name) w = (Ok tt, set_disk d w) /\
    mkdirs (os_path_join base name) (disk w) = Ok d /\
    lookup base d = Some (Dir (assoc_set name (Dir cs) bs)).
Proof.
  intros Hb Hs.
  assert (Hq : mkdirs [name] (Dir bs)
               = Ok (Dir (assoc_set name (Dir cs) bs))).
  { unfold slot in Hs. cbn [mkdirs].
    destruct (assoc name bs) as [[l|cs']|]; inversion Hs; subst; reflexivity. }
  destruct (mkdirs_under base [name] _ _ _ Hb Hq) as (d & Hm & Hl).
  exists d. split; [now apply os_makedirs_run|]. split; assumption.
Qed.

Lemma os_listdir_slot w bs cs :
  lookup base (disk w) = Some (Dir bs) -> assoc name bs = Some (Dir cs) ->
  os_listdir (os_path_join base name) w = (Ok (keys cs), w).
Proof.
  intros Hb Hn. unfold os_listdir.
  now rewrite (lookup_slot _ _ Hb), Hn.
Qed.

Lemma os_path_exists_in_slot w bs cs f :
  lookup base (disk w) = Some (Dir bs) -> assoc name bs = Some (Dir cs) ->
  os_path_exists (os_path_join (os_path_join base name) f) w
  = (Ok match assoc f cs with Some _ => true | None => false end, w).
Proof.
  intros Hb Hn. unfold os_path_exists.
  now rewrite (lookup_in_slot _ _ _ _ Hb Hn).
Qed.

Lemma os_remove_in_slot w bs cs f l :
  lookup base (disk w) = Some (Dir bs) -> assoc name bs = Some (Dir cs) ->
  assoc f cs = Some (File l) ->
  exists d,
    os_remove (os_path_join (os_path_join base name) f) w
    = (Ok tt, set_disk d w) /\
    lookup base d = Some (Dir (assoc_set name (Dir (assoc_del f cs)) bs)).
Proof.
  intros Hb Hn Hf. unfold os_remove.
  rewrite (lookup_in_slot _ _ _ _ Hb Hn), Hf.
  eexists. split; [reflexivity|].
  cbn [set_disk disk]. exact (put_in_slot _ _ _ f None Hb Hn).
Qed.

End Slots.

(** ** Rotation *)

Section Rotation.

Variable base : path.

(** The loop over the names of [current]: every name met is unlinked
    from [last time], and the paths of the last name stay assigned. *)
Lemma rotate_loop names : forall ps st w bs,
  lookup base (disk w) = Some (Dir bs) ->
  assoc "last time" bs = Some (Dir ps) ->
  (forall n, In n names -> is_dir (assoc n ps) = false) ->
  exists w',
    for_in names
      (fun file_name (_ : option (path * path)) =>
         let source_path := os_path_join (os_path_join base "current") file_name in
         let destination_path := os_path_join (os_path_join base "last time") file_name in
         present <- os_path_exists destination_path ;;
         (if present : bool then os_remove destination_path else ret tt) ;;
         ret (Some (source_path, destination_path)))
      st w
    = (Ok match names with
          | [] => st
          | _ :: _ =>
              Some (os_path_join (os_path_join base "current") (last names ""),
                    os_path_join (os_path_join base "last time") (last names ""))
          end, w') /\
    log w' = log w /\
    lookup base (disk w')
    = Some (Dir (assoc_set "last time"
                   (Dir (fold_left (fun d n => assoc_del n d) names ps)) bs)).
Proof.
  induction names as [|n names IH]; intros ps st w bs Hb Hp Hfiles.
  - exists w. cbn. rewrite assoc_set_id by exact Hp. auto.
  - assert (Hstep : exists w1,
      (present <- os_path_exists (os_path_join (os_path_join base "last time") n) ;;
       (if present : bool then os_remove (os_path_join (os_path_join base "last time") n)
        else ret tt) ;;
       ret (Some (os_path_join (os_path_join base "current") n, os_path_join (os_path_join base "last time") n)))
        w
      = (Ok (Some (os_path_join (os_path_join base "current") n, os_path_join (os_path_join base "last time") n)),
         w1) /\
      log w1 = log w /\
      lookup base (disk w1)
      = Some (Dir (assoc_set "last time" (Dir (assoc_del n ps)) bs))).
    { pose proof (Hfiles n (or_introl eq_refl)) as Hn.
      pose proof (os_path_exists_in_slot base "last time" w bs ps n Hb Hp)
        as Hex.
      destruct (assoc n ps) as [[l|sub]|] eqn:E; try discriminate.
      - destruct (os_remove_in_slot base "last time" w bs ps n l Hb Hp E)
          as (d & Hrm & Hl).
        exists (set_disk d w). split; [|split; [reflexivity|exact Hl]].
        run_with Hex. run_with Hrm. reflexivity.
      - exists w. split; [|split; [reflexivity|]].
        + run_with Hex. reflexivity.
        + rewrite (assoc_del_absent _ _ E), assoc_set_id by exact Hp.
          exact Hb. }
    destruct Hstep as (w1 & Hstep & Hlog1 & Hl1).
    destruct (IH (assoc_del n ps)
                 (Some (os_path_join (os_path_join base "current") n,
                        os_path_join (os_path_join base "last time") n))
                 w1 _ Hl1 (assoc_set_same _ _ _)) as (w' & Hloop & Hlog & Hl').
    { intros m Hm. destruct (String.eqb_spec m n) as [->|N].
      - now rewrite assoc_del_same.
      - rewrite assoc_del_other by auto. apply Hfiles. now right. }
    exists w'. split; [|split].
    + cbn [for_in]. run_with Hstep.
      etransitivity; [exact Hloop|]. now destruct names.
    + congruence.
    + rewrite Hl'. cbn [fold_left]. now rewrite assoc_set_set.
Qed.

End Rotation.

Lemma last_in {A} (l : list A) d : l <> [] -> In (last l d) l.
Proof.
  induction l as [|x l IH]; [congruence|]. intros _.
  destruct l as [|y l]; [now left|].
  right. apply IH. discriminate.
Qed.

Lemma os_rename_between_slots base w bs s1 s2 cs1 cs2 f e :
  lookup base (disk w) = Some (Dir bs) ->
  s1 <> s2 ->
  assoc s1 bs = Some (Dir cs1) -> assoc s2 bs = Some (Dir cs2) ->
  assoc f cs1 = Some e -> assoc f cs2 = None ->
  exists d,
    os_rename (os_path_join (os_path_join base s1) f)
              (os_path_join (os_path_join base s2) f) w
    = (Ok tt, set_disk d w) /\
    lookup base d
    = Some (Dir (assoc_set s2 (Dir (assoc_set f e cs2))
                   (assoc_set s1 (Dir (assoc_del f cs1)) bs))).
Proof.
  intros Hb Hs H1 H2 Hf1 Hf2. unfold os_rename.
  rewrite (lookup_in_slot base s1 _ _ _ f Hb H1), Hf1.
  rewrite (lookup_in_slot base s2 _ _ _ f Hb H2), Hf2.
  rewrite parent_join, (lookup_slot base s2 _ _ Hb), H2.
  eexists. split; [reflexivity|]. cbn [set_disk disk].
  pose proof (put_in_slot base s1 (disk w) bs cs1 f None Hb H1) as Hsrc.
  cbv beta iota in Hsrc.
  apply (put_in_slot base s2 _ _ cs2 f (Some e) Hsrc).
  now rewrite assoc_set_other by auto.
Qed.

Section Rotate.

Variable base : path.
Variable w : world.
Variables bs cs ps : list (string * entry).

Hypothesis base_dir : lookup base (disk w) = Some (Dir bs).
Hypothesis current_slot : slot bs "current" = Some cs.
Hypothesis last_time_slot : slot bs "last time" = Some ps.

(** The directory tree once both slots have been made. *)
Lemma slots_made :
  exists d1 d2,
    mkdirs (os_path_join base "current") (disk w) = Ok d1 /\
    mkdirs (os_path_join base "last time") d1 = Ok d2 /\
    lookup base d2
    = Some (Dir (assoc_set "last time" (Dir ps)
                   (assoc_set "current" (Dir cs) bs))).
Proof.
  destruct (make_slot base "current" w bs cs base_dir current_slot)
    as (d1 & _ & Hm1 & Hl1).
  assert (Hs : slot (assoc_set "current" (Dir cs) bs) "last time" = Some ps).
  { unfold slot in *. now rewrite assoc_set_other by discriminate. }
  destruct (make_slot base "last time" (set_disk d1 w) _ ps Hl1 Hs)
    as (d2 & _ & Hm2 & Hl2).
  exists d1, d2. auto.
Qed.

Lemma rotate_empty :
  cs = [] ->
  exists d1 d2,
    mkdirs (os_path_join base "current") (disk w) = Ok d1 /\
    mkdirs (os_path_join base "last time") d1 = Ok d2 /\
    lookup base d2
    = Some (Dir (assoc_set "last time" (Dir ps)
                   (assoc_set "current" (Dir []) bs))) /\
    V11.manage_output_folders base w = (Ok PyNone, set_disk d2 w).
Proof.
  intros Hcs. destruct slots_made as (d1 & d2 & Hm1 & Hm2 & Hl).
  rewrite Hcs in Hl.
  exists d1, d2. repeat (split; [assumption|]).
  unfold V11.manage_output_folders. cbv zeta.
  run_with (os_makedirs_run _ w d1 Hm1).
  run_with (os_makedirs_run _ (set_disk d1 w) d2 Hm2).
  assert (Hc : assoc "current"
                 (assoc_set "last time" (Dir ps)
                    (assoc_set "current" (Dir []) bs)) = Some (Dir [])).
  { rewrite assoc_set_other by discriminate. apply assoc_set_same. }
  run_with (os_listdir_slot base "current" (set_disk d2 (set_disk d1 w))
              _ _ Hl Hc).
  reflexivity.
Qed.

Lemma rotate_nonempty :
  cs <> [] ->
  (forall n, In n (keys cs) -> is_dir (assoc n ps) = false) ->
  exists w' moved,
    V11.manage_output_folders base w = (Ok PyNone, w') /\
    assoc (last (keys cs) "") cs = Some moved /\
    lookup base (disk w')
    = Some (Dir (assoc_set "last time"
                   (Dir (without (keys cs) ps
                         ++ [(last (keys cs) "", moved)])%list)
                   (assoc_set "current"
                      (Dir (assoc_del (last (keys cs) "") cs))
                      (assoc_set "last time" (Dir (without (keys cs) ps))
                         (assoc_set "last time" (Dir ps)
                            (assoc_set "current" (Dir cs) bs)))))).
Proof.
  intros Hne Hfiles. destruct slots_made as (d1 & d2 & Hm1 & Hm2 & Hl).
  set (bs2 := assoc_set "last time" (Dir ps)
                (assoc_set "current" (Dir cs) bs)) in *.
  assert (Hc : assoc "current" bs2 = Some (Dir cs)).
  { unfold bs2. rewrite assoc_set_other by discriminate.
    apply assoc_set_same. }
  assert (Hp : assoc "last time" bs2 = Some (Dir ps))
    by apply assoc_set_same.
  assert (Hkeys : keys cs <> []) by (destruct cs; [congruence|discriminate]).
  set (w2 := set_disk d2 (set_disk d1 w)).
  set (w3 := add_log [(INFO, "Moving current files to last time directory")]
               w2).
  destruct (rotate_loop base (keys cs) ps None w3 bs2 Hl Hp Hfiles)
    as (w4 & Hloop & _ & Hl4).
  rewrite fold_assoc_del_without in Hl4.
  set (ps' := without (keys cs) ps) in *.
  set (bs3 := assoc_set "last time" (Dir ps') bs2) in *.
  destruct (assoc_in_keys _ cs (last_in (keys cs) "" Hkeys)) as (moved & Hmv).
  assert (Hc3 : assoc "current" bs3 = Some (Dir cs)).
  { unfold bs3. now rewrite assoc_set_other by discriminate. }
  assert (Hp3 : assoc "last time" bs3 = Some (Dir ps'))
    by apply assoc_set_same.
  assert (Hfree : assoc (last (keys cs) "") ps' = None).
  { unfold ps'. rewrite assoc_without.
    now rewrite (proj2 (existsb_eqb_In _ _) (last_in (keys cs) "" Hkeys)). }
  destruct (os_rename_between_slots base w4 bs3 "current" "last time"
              cs ps' (last (keys cs) "") moved Hl4 ltac:(discriminate)
              Hc3 Hp3 Hmv Hfree) as (d5 & Hren & Hl5).
  exists (set_disk d5 w4), moved. split; [|split; [exact Hmv|]].
  - unfold V11.manage_output_folders. cbv zeta.
    run_with (os_makedirs_run _ w d1 Hm1).
    run_with (os_makedirs_run _ (set_disk d1 w) d2 Hm2).
    run_with (os_listdir_slot base "current" w2 _ _ Hl Hc).
    destruct (keys cs) as [|k ks] eqn:Ek; [congruence|].
    run_with (eq_refl : logging_info _ w2 = (Ok tt, w3)).
    run_with (os_listdir_slot base "current" w3 _ _ Hl Hc).
    rewrite Ek. run_with Hloop. cbv iota.
    run_with Hren. reflexivity.
  - cbn [set_disk disk]. rewrite Hl5.
    now rewrite (assoc_set_new _ _ _ Hfree).
Qed.

End Rotate.

(** C3.  When [current] holds at least one entry (and no entry of
    [last time] that shares a name with one of them is a directory, which
    [os.remove] would refuse), the rotation returns normally; afterwards
    [last time] holds its former entries whose names do not occur in
    [current], followed by the entry of the last name [os.listdir] gave for
    [current]; [current] has lost that one entry and kept all the others;
    the other entries of the base directory are as before. *)
Theorem rotation_moves_last base w bs cs ps :
  lookup base (disk w) = Some (Dir bs) ->
  slot bs "current" = Some cs ->
  slot bs "last time" = Some ps ->
  cs <> [] ->
  (forall n, In n (keys cs) -> is_dir (assoc n ps) = false) ->
  exists w' moved,
    V11.manage_output_folders base w = (Ok PyNone, w') /\
    assoc (last (keys cs) "") cs = Some moved /\
    lookup (os_path_join base "last time") (disk w')
    = Some (Dir (without (keys cs) ps ++ [(last (keys cs) "", moved)])%list) /\
    lookup (os_path_join base "current") (disk w')
    = Some (Dir (assoc_del (last (keys cs) "") cs)) /\
    (forall name, name <> "current" -> name <> "last time" ->
       lookup (os_path_join base name) (disk w')
       = lookup (os_path_join base name) (disk w)).
Proof.
  intros Hb Hc Hp Hne Hfiles.
  destruct (rotate_nonempty base w bs cs ps Hb Hc Hp Hne Hfiles)
    as (w' & moved & Hrun & Hmv & Hl).
  exists w', moved. split; [exact Hrun|]. split; [exact Hmv|].
  split; [|split].
  - rewrite (lookup_slot _ _ _ _ Hl). apply assoc_set_same.
  - rewrite (lookup_slot _ _ _ _ Hl).
    rewrite assoc_set_other by discriminate. apply assoc_set_same.
  - intros name N1 N2.
    rewrite (lookup_slot _ _ _ _ Hl), (lookup_slot _ _ _ _ Hb).
    now rewrite !assoc_set_other by auto.
Qed.

Lemma rotation_moves_last_witness :
  exists w',
    V11.manage_output_folders ["out"] two_runs = (Ok PyNone, w') /\
    lookup ["out"; "last time"] (disk w')
    = Some (Dir [("table_3.csv", File [["c"]; ["0"]]);
                 ("table_2.csv", File [["b"]; ["2"]])]) /\
    lookup ["out"; "current"] (disk w')
    = Some (Dir [("table_1.csv", File [["a"]; ["1"]])]).
Proof.
  destruct (rotation_moves_last ["out"] two_runs _ _ _
              eq_refl eq_refl eq_refl ltac:(discriminate)
              ltac:(intros n Hn; simpl in Hn;
                    destruct Hn as [<-|[<-|[]]]; reflexivity))
    as (w' & moved & Hrun & Hmv & Hlast & Hcur & _).
  exists w'. split; [exact Hrun|].
  vm_compute in Hmv. inversion Hmv; subst moved.
  split; [exact Hlast|exact Hcur].
Defined.

(** C3 as stated fails: [current] of [blocked_archive] holds two files,
    and [last time] holds a directory that has the name of the second.
    The rotation unlinks the file of [last time] that is named like the
    first, then raises at the directory: the entry of [last time] named
    like the second file of [current] is still there, and no entry of
    [current] has been moved. *)
Lemma rotation_counterexample :
  lookup ["out"; "current"] (disk blocked_archive)
  = Some (Dir [("table_1.csv", File [["a"]; ["1"]]);
               ("table_2.csv", File [["b"]; ["1"]])]) /\
  lookup ["out"; "last time"] (disk blocked_archive)
  = Some (Dir [("table_1.csv", File [["a"]; ["0"]]);
               ("table_2.csv", Dir [])]) /\
  exists e w',
    V11.manage_output_folders ["out"] blocked_archive = (Raise e, w') /\
    lookup ["out"; "current"] (disk w')
    = Some (Dir [("table_1.csv", File [["a"]; ["1"]]);
                 ("table_2.csv", File [["b"]; ["1"]])]) /\
    lookup ["out"; "last time"] (disk w')
    = Some (Dir [("table_2.csv", Dir [])]).
Proof.
  split; [reflexivity|]. split; [reflexivity|].
  eexists. eexists. split; [vm_compute; reflexivity|].
  split; reflexivity.
Qed.

(** C10.  When [current] is missing or empty, the rotation returns
    normally without a log record; it makes [current] and [last time]
    where they are missing and does nothing else: [last time] holds what it
    held, no file anywhere is created, removed or changed, the other entries
    of the base directory are as before, and if both slots were there the
    whole tree is as before. *)
Theorem rotation_of_empty_current base w bs ps :
  lookup base (disk w) = Some (Dir bs) ->
  slot bs "current" = Some [] ->
  slot bs "last time" = Some ps ->
  exists w',
    V11.manage_output_folders base w = (Ok PyNone, w') /\
    log w' = log w /\
    lookup (os_path_join base "current") (disk w') = Some (Dir []) /\
    lookup (os_path_join base "last time") (disk w') = Some (Dir ps) /\
    (forall q c,
       lookup q (disk w') = Some (File c) <-> lookup q (disk w) = Some (File c)) /\
    (forall name, name <> "current" -> name <> "last time" ->
       lookup (os_path_join base name) (disk w')
       = lookup (os_path_join base name) (disk w)) /\
    (assoc "current" bs <> None -> assoc "last time" bs <> None ->
     disk w' = disk w).
Proof.
  intros Hb Hc Hp.
  destruct (rotate_empty base w bs [] ps Hb Hc Hp eq_refl)
    as (d1 & d2 & Hm1 & Hm2 & Hl & Hrun).
  exists (set_disk d2 w). split; [exact Hrun|]. split; [reflexivity|].
  cbn [set_disk disk]. split; [|split; [|split; [|split]]].
  - rewrite (lookup_slot _ _ _ _ Hl).
    rewrite assoc_set_other by discriminate. apply assoc_set_same.
  - rewrite (lookup_slot _ _ _ _ Hl). apply assoc_set_same.
  - intros q c. rewrite (mkdirs_files _ _ _ Hm2).
    apply (mkdirs_files _ _ _ Hm1).
  - intros name N1 N2.
    rewrite (lookup_slot _ _ _ _ Hl), (lookup_slot _ _ _ _ Hb).
    now rewrite !assoc_set_other by auto.
  - intros E1 E2. unfold slot in Hc, Hp.
    destruct (assoc "current" bs) as [[l|cs']|] eqn:Ec;
      try congruence. inversion Hc; subst cs'.
    destruct (assoc "last time" bs) as [[l|ps']|] eqn:Ep;
      try congruence. inversion Hp; subst ps'.
    rewrite (mkdirs_noop (os_path_join base "current") (disk w) []) in Hm1
      by (now rewrite (lookup_slot _ _ _ _ Hb)).
    inversion Hm1; subst d1.
    rewrite (mkdirs_noop (os_path_join base "last time") (disk w) ps) in Hm2
      by (now rewrite (lookup_slot _ _ _ _ Hb)).
    now inversion Hm2.
Qed.

Lemma rotation_of_empty_current_witness :
  exists w',
    V11.manage_output_folders ["out"] archive_only = (Ok PyNone, w') /\
    log w' = log archive_only /\
    lookup ["out"; "current"] (disk w') = Some (Dir []) /\
    lookup ["out"; "last time"] (disk w')
    = Some (Dir [("table_1.csv", File [["a"]; ["0"]])]).
Proof.
  destruct (rotation_of_empty_current ["out"] archive_only _ _
              eq_refl eq_refl eq_refl)
    as (w' & Hrun & Hlog & Hcur & Hlast & _).
  exists w'. auto.
Defined.

(** ** The columns of extracted records *)

Lemma assoc_none_keys {V} k (d : list (string * V)) :
  ~ In k (keys d) -> assoc k d = None.
Proof.
  induction d as [|[k' v] d IH]; simpl; auto.
  intros H. destruct (String.eqb_spec k' k) as [->|N]; [tauto|].
  apply IH. tauto.
Qed.

Lemma keys_assoc_set_new {V} k (v : V) d :
  ~ In k (keys d) -> keys (assoc_set k v d) = (keys d ++ [k])%list.
Proof.
  intros H. rewrite assoc_set_new by now apply assoc_none_keys.
  unfold keys. now rewrite map_app.
Qed.

Lemma keys_fold_set (l : list (string * string)) : forall d : dict,
  NoDup (keys d ++ map fst l) ->
  keys (fold_left (fun d kv => assoc_set (fst kv) (snd kv) d) l d)
  = (keys d ++ map fst l)%list.
Proof.
  induction l as [|[k v] l IH]; intros d H; simpl.
  - now rewrite app_nil_r.
  - assert (Hk : ~ In k (keys d)).
    { apply NoDup_remove_2 in H. intros Hin. apply H.
      apply in_or_app. now left. }
    rewrite IH; rewrite keys_assoc_set_new by exact Hk;
      rewrite <- app_assoc; auto.
Qed.

Lemma map_fst_combine_le {A B} (l : list A) : forall l' : list B,
  List.length l <= List.length l' -> map fst (combine l l') = l.
Proof.
  induction l as [|x l IH]; intros [|y l'] H; simpl in *; auto; try lia.
  f_equal. apply IH. lia.
Qed.

(** With pairwise distinct header labels, none of them the name of a
    synthetic column, the keys of the record of a complete row are the
    columns the table declares, in order. *)
Lemma record_of_keys hs week url title row :
  NoDup (hs ++ synthetic_columns) -> complete hs row = true ->
  keys (record_of hs week url title row) = (hs ++ synthetic_columns)%list.
Proof.
  intros Hnd Hc. unfold record_of, dict_update, zip_dict.
  rewrite <- fold_left_app.
  assert (Hfst : map fst (combine hs (cells_of row)) = hs).
  { apply map_fst_combine_le. unfold complete in Hc.
    now apply Nat.leb_le in Hc. }
  rewrite keys_fold_set; cbn [keys map]; rewrite map_app, Hfst; auto.
Qed.

Lemma extracted_records_have_columns soup url t r :
  In t (snapshot_v10 soup url) \/ In t (snapshot_v11 soup url) ->
  NoDup (headers t) -> In r (rows t) -> keys r = headers t.
Proof.
  intros [Hin|Hin] Hnd Hr.
  - unfold snapshot_v10 in Hin.
    apply in_flat_map in Hin. destruct Hin as (div & Hd & Hin).
    apply in_map_iff in Hin. destruct Hin as (tbl & <- & Ht).
    unfold table_v10 in *. cbv zeta in *. cbn [rows headers] in *.
    apply in_map_iff in Hr. destruct Hr as (row & <- & Hrow).
    apply filter_In in Hrow. now apply record_of_keys.
  - unfold snapshot_v11 in Hin.
    apply in_flat_map in Hin. destruct Hin as (div & Hd & Hin).
    apply in_flat_map in Hin. destruct Hin as (tbl & Ht & Hin).
    unfold table_v11 in Hin. cbv zeta in Hin.
    destruct (forallb (complete (headers_of tbl)) (data_rows tbl)) eqn:Hall;
      [|contradiction].
    destruct Hin as [<-|[]]. cbn [rows headers] in *.
    apply in_map_iff in Hr. destruct Hr as (row & <- & Hrow).
    rewrite forallb_forall in Hall. apply record_of_keys; auto.
Qed.

(** ** Tag objects sit where their ranks say *)

Lemma node_induction (P : node -> Prop) :
  (forall s, P (NavigableString s)) ->
  (forall name c a cs, Forall P cs -> P (Tag name c a cs)) ->
  forall n, P n.
Proof.
  intros Hs Ht. fix IH 1. intros [s|name c a cs].
  - apply Hs.
  - apply Ht. induction cs as [|x cs IHcs]; constructor; auto.
Qed.

Lemma firstn_fits {A} (l x : list A) k :
  firstn k l = x -> List.length x = k -> k <= List.length l.
Proof.
  intros H Hx. rewrite <- H, length_firstn in Hx. lia.
Qed.

Lemma parse_order_slice n : forall i m,
  nth_error (parse_order n) i = Some m ->
  firstn (List.length (parse_order m)) (skipn i (parse_order n))
  = parse_order m.
Proof.
  induction n as [s|name c a cs IH] using node_induction; intros i m H.
  - destruct i as [|[|i]]; simpl in H; try discriminate.
    inversion H; subst. reflexivity.
  - destruct i as [|i].
    + simpl in H. inversion H; subst. cbn [skipn]. apply firstn_all.
    + cbn [parse_order nth_error skipn] in *.
      revert i H. induction IH as [|x cs Hx _ IHcs]; intros i H.
      * destruct i; discriminate.
      * cbn [flat_map] in *. rewrite skipn_app, firstn_app.
        destruct (Nat.lt_ge_cases i (List.length (parse_order x))) as [L|G].
        -- rewrite nth_error_app1 in H by exact L.
           specialize (Hx i m H).
           pose proof (firstn_fits _ _ _ Hx eq_refl) as Hfit.
           rewrite Hx.
           replace (List.length (parse_order m)
                    - List.length (skipn i (parse_order x))) with 0 by lia.
           apply app_nil_r.
        -- rewrite nth_error_app2 in H by exact G.
           rewrite (skipn_all2 (parse_order x)) by exact G.
           cbn [firstn app List.length]. rewrite Nat.sub_0_r.
           destruct (List.length (parse_order m)); [|now apply IHcs].
           specialize (IHcs _ H). now destruct m.
Qed.

Lemma in_number_from l : forall k d,
  In d (number_from k l) ->
  exists j, position d = k + j /\ nth_error l j = Some (markup d).
Proof.
  induction l as [|x l IH]; intros k d H; [contradiction|].
  unfold number_from in H. cbn [List.length seq combine map] in H.
  destruct H as [<-|H].
  - exists 0. cbn. split; [lia|reflexivity].
  - destruct (IH (S k) d H) as (j & Hp & Hn).
    exists (S j). split; [lia|exact Hn].
Qed.

Lemma document_sits_in soup : sits_in soup (document soup).
Proof. unfold sits_in, document. cbn [position markup skipn]. apply firstn_all. Qed.

Lemma descendants_sit_in soup e d :
  sits_in soup e -> In d (descendants e) -> sits_in soup d.
Proof.
  unfold sits_in, descendants. intros He Hd.
  destruct (in_number_from _ _ _ Hd) as (j & Hp & Hn).
  assert (Hn' : nth_error (parse_order (markup e)) (S j) = Some (markup d)).
  { destruct (markup e); exact Hn. }
  pose proof (parse_order_slice _ _ _ Hn') as Hs.
  pose proof (firstn_fits _ _ _ Hs eq_refl) as Hfit.
  rewrite length_skipn in Hfit.
  rewrite <- He in Hs. rewrite skipn_firstn_comm, skipn_skipn in Hs.
  rewrite firstn_firstn in Hs.
  rewrite Nat.min_l in Hs by exact Hfit.
  rewrite Hp. replace (S (position e) + j) with (S j + position e) by lia.
  exact Hs.
Qed.

(** Every tag object the extractor works on sits in the document: the
    section blocks, their tables, and the rows and cells of the tables. *)
Lemma find_all_sits_in soup e name p d :
  sits_in soup e -> In d (find_all name p e) -> sits_in soup d.
Proof.
  intros He Hd. unfold find_all in Hd. apply filter_In in Hd.
  eapply descendants_sit_in; [exact He|tauto].
Qed.

Lemma sits_in_rank soup e :
  sits_in soup e -> nth_error (parse_order soup) (position e) = Some (markup e).
Proof.
  unfold sits_in. intros H.
  destruct (skipn (position e) (parse_order soup)) as [|x l] eqn:E.
  - destruct (markup e); discriminate.
  - assert (x = markup e) by (destruct (markup e); now inversion H).
    subst x. rewrite <- (firstn_skipn (position e) (parse_order soup)).
    rewrite E.
    assert (Hlen : List.length (firstn (position e) (parse_order soup))
                   = position e).
    { apply firstn_length_le.
      destruct (Nat.le_gt_cases (position e)
                  (List.length (parse_order soup))) as [L|G]; auto.
      rewrite skipn_all2 in E by lia. discriminate. }
    rewrite nth_error_app2 by lia. now rewrite Hlen, Nat.sub_diag.
Qed.

(** * Further properties of the scripts *)

(** ** Loading the configuration and fetching a page *)

Ltac flatten_log :=
  cbv beta iota; unfold add_log; cbn [log disk fst snd];
  rewrite <- ?app_assoc; cbn [app].

(** [load_config] hands on the answer of the YAML loader unchanged, the
    configuration as well as any error: a missing file and a malformed
    file are logged as errors and raised again, nothing is swallowed or
    replaced, and nothing is touched but the log. *)
Theorem load_config_hands_on_the_answer env config_path w :
  load_config env config_path w
  = (yaml_safe_load env config_path,
     add_log
       ((INFO, "Loading configuration from " ++ config_path)
        :: match yaml_safe_load env config_path with
           | Ok _ => [(INFO, "Configuration loaded successfully")]
           | Raise FileNotFoundError =>
               [(ERROR, "Configuration file not found: " ++ config_path)]
           | Raise YAMLError =>
               [(ERROR, "Error parsing configuration file: YAML error")]
           | Raise _ => []
           end) w).
Proof.
  unfold load_config, try_except, bind, logging_info, logging_error, emit,
    lift, ret, raise.
  destruct (yaml_safe_load env config_path) as [cfg|[]];
    flatten_log; reflexivity.
Qed.

(** [fetch_html] returns the body of the response exactly when the request
    went through with a status outside 400-599.  An error status is raised
    as an HTTP error, a failed request is raised as it came; both are
    logged first.  Nothing is touched but the log. *)
Theorem fetch_html_returns_or_raises env url w :
  fetch_html env url w
  = (match requests_get env url with
     | Ok r => if status_ok r then Ok (response_text r) else Raise HTTPError
     | Raise e => Raise e
     end,
     add_log
       ((INFO, "Fetching HTML content from: " ++ url)
        :: match requests_get env url with
           | Ok r =>
               if status_ok r then
                 [(INFO, "Successfully fetched content (status code: "
                         ++ str (status_code r) ++ ")")]
               else [(ERROR, "Failed to fetch HTML content: HTTP error")]
           | Raise e =>
               if is_RequestException e then
                 [(ERROR, "Failed to fetch HTML content: " ++ str_exn e)]
               else []
           end) w).
Proof.
  unfold fetch_html, raise_for_status, status_ok, try_except_on, try_except,
    bind, logging_info, logging_error, emit, lift, ret, raise.
  destruct (requests_get env url) as [r|e]; cbn [fst snd].
  - destruct ((400 <=? status_code r) && (status_code r <? 600))%nat;
      cbn [negb is_RequestException]; flatten_log; reflexivity.
  - destruct (is_RequestException e); flatten_log; reflexivity.
Qed.

(** ** The link resolver *)

Section LinkFound.

Variable env : collaborators.
Variables (cfg : config) (urls : urls_cfg) (selectors : link_selectors_cfg).
Variables (main_url container_selector list_selector : string).
Variables (front : response) (container : element).

Hypothesis has_urls : cfg_urls cfg = Some urls.
Hypothesis has_main_url : cfg_main_url urls = Some main_url.
Hypothesis has_selectors : cfg_link_selectors urls = Some selectors.
Hypothesis has_container : cfg_container selectors = Some container_selector.
Hypothesis has_list : cfg_list selectors = Some list_selector.
Hypothesis served : requests_get env main_url = Ok front.
Hypothesis served_ok : status_ok front = true.
Hypothesis matched :
  select_one env container_selector
    (document (html_parser env (response_text front))) = Some container.

Lemma resolver_v11_container_found w :
  V11.get_latest_month_url env cfg w
  = (Ok match href_of env list_selector container with
        | Some full_url => PyStr full_url
        | None => PyNone
        end,
     add_log
       [(INFO, "Accessing main URL: " ++ main_url);
        match href_of env list_selector container with
        | Some full_url =>
            (INFO, "Found latest release notes URL: " ++ full_url)
        | None => (ERROR, "Could not find latest release notes link")
        end] w).
Proof.
  unfold V11.get_latest_month_url, try_except_on, try_except, bind, subscript.
  rewrite has_urls. cbn [ret]. rewrite has_main_url. cbn [ret].
  unfold logging_info at 1. cbn [emit]. unfold lift. rewrite served.
  unfold raise_for_status. pose proof served_ok as Hs. unfold status_ok in Hs.
  apply negb_true_iff in Hs. rewrite Hs. cbn [ret]. unfold logging_debug.
  cbn [ret]. rewrite has_selectors. cbn [ret]. rewrite has_container.
  cbn [ret]. cbv zeta. rewrite matched. rewrite has_list. cbn [ret].
  unfold href_of.
  destruct (select_one env list_selector container) as [a|];
    [destruct (assoc "href" (attrs_of (markup a)))|];
    unfold logging_info, logging_error, emit, ret; flatten_log; reflexivity.
Qed.

Lemma resolver_v10_container_found w :
  V10.get_latest_month_url env cfg w
  = (Ok match href_of env list_selector container with
        | Some full_url => PyStr full_url
        | None => PyNone
        end,
     add_log
       [(INFO, "Accessing main URL: " ++ main_url);
        match href_of env list_selector container with
        | Some full_url =>
            (INFO, "Found latest release notes URL: " ++ full_url)
        | None => (ERROR, "Could not find latest release notes link")
        end] w).
Proof.
  unfold V10.get_latest_month_url, try_except, bind, subscript.
  rewrite has_urls. cbn [ret]. rewrite has_main_url. cbn [ret].
  unfold logging_info at 1. cbn [emit]. unfold lift. rewrite served.
  unfold raise_for_status. pose proof served_ok as Hs. unfold status_ok in Hs.
  apply negb_true_iff in Hs. rewrite Hs. cbn [ret]. unfold logging_debug.
  cbn [ret]. rewrite has_selectors. cbn [ret]. rewrite has_container.
  cbn [ret]. cbv zeta. rewrite matched. rewrite has_list. cbn [ret].
  unfold href_of.
  destruct (select_one env list_selector container) as [a|];
    [destruct (assoc "href" (attrs_of (markup a)))|];
    unfold logging_info, logging_error, emit, ret; flatten_log; reflexivity.
Qed.

End LinkFound.

(** When the container is found, both scripts return the [href] of the
    first element the list selector matches inside it, verbatim, and
    [None] when nothing in the container matches or the match has no
    [href]; either way nothing is raised and only the log changes. *)
Theorem resolver_returns_the_href
  env cfg urls selectors main_url container_selector list_selector
  front container w :
  cfg_urls cfg = Some urls ->
  cfg_main_url urls = Some main_url ->
  cfg_link_selectors urls = Some selectors ->
  cfg_container selectors = Some container_selector ->
  cfg_list selectors = Some list_selector ->
  requests_get env main_url = Ok front ->
  status_ok front = true ->
  select_one env container_selector
    (document (html_parser env (response_text front))) = Some container ->
  let answer :=
    match href_of env list_selector container with
    | Some full_url => PyStr full_url
    | None => PyNone
    end in
  let records :=
    [(INFO, "Accessing main URL: " ++ main_url);
     match href_of env list_selector container with
     | Some full_url => (INFO, "Found latest release notes URL: " ++ full_url)
     | None => (ERROR, "Could not find latest release notes link")
     end] in
  V11.get_latest_month_url env cfg w = (Ok answer, add_log records w) /\
  V10.get_latest_month_url env cfg w = (Ok answer, add_log records w).
Proof.
  intros. split.
  - eapply resolver_v11_container_found; eauto.
  - eapply resolver_v10_container_found; eauto.
Qed.

Lemma resolver_returns_the_href_witness :
  V11.get_latest_month_url (site served_notes short_row_page) sample_config
    blank
  = (Ok (PyStr "https://kb.example/2024-01"),
     add_log
       [(INFO, "Accessing main URL: https://kb.example/release-notes");
        (INFO, "Found latest release notes URL: https://kb.example/2024-01")]
       blank).
Proof.
  exact (proj1 (resolver_returns_the_href (site served_notes short_row_page)
                  sample_config _ _ _ _ _ _ _ blank
                  eq_refl eq_refl eq_refl eq_refl eq_refl eq_refl eq_refl
                  eq_refl)).
Defined.

Lemma logs_only_try_reraise {A} (m : M A) (msg : exn -> string) e :
  logs_only m (Raise e) ->
  forall w, exists lg,
    try_except m (fun e => logging_critical (msg e) ;; raise e) w
    = (Raise e, add_log (lg ++ [(CRITICAL, msg e)]) w).
Proof.
  intros Hm w. destruct (Hm w) as [lg E]. exists lg.
  unfold try_except. rewrite E.
  unfold bind, logging_critical, emit, raise. flatten_log. reflexivity.
Qed.

Lemma logs_only_of_run {A} (m : M A) r (lg : world -> list log_record) :
  (forall w, m w = (r, add_log (lg w) w)) -> logs_only m r.
Proof. intros H w. exists (lg w). apply H. Qed.

(** [main] stops, and returns normally, as soon as the resolver hands it
    something false. *)
Lemma main_v11_stops env cfg v :
  yaml_safe_load env "config.yaml" = Ok cfg ->
  logs_only (V11.get_latest_month_url env cfg) (Ok v) ->
  falsy v = true ->
  logs_only (V11.main env) (Ok PyNone).
Proof.
  intros Hcfg Hv Hf. unfold V11.main. apply logs_only_try_ok.
  eapply logs_only_bind; [apply logs_only_setup_logging|].
  eapply logs_only_bind; [apply logs_only_load_config; exact Hcfg|].
  eapply logs_only_bind; [exact Hv|].
  destruct v; try rewrite Hf; unfold logging_error; repeat log_step.
Qed.

Lemma main_v10_stops env cfg v :
  yaml_safe_load env "config.yaml" = Ok cfg ->
  logs_only (V10.get_latest_month_url env cfg) (Ok v) ->
  falsy v = true ->
  logs_only (V10.main env) (Ok PyNone).
Proof.
  intros Hcfg Hv Hf. unfold V10.main. apply logs_only_try_ok.
  eapply logs_only_bind; [apply logs_only_setup_logging|].
  unfold logging_info at 1. log_step.
  eapply logs_only_bind; [apply logs_only_load_config; exact Hcfg|].
  eapply logs_only_bind; [exact Hv|].
  destruct v; try rewrite Hf; unfold logging_error; repeat log_step.
Qed.

(** A front page that cannot be fetched, because the request fails or
    because the status is in 400-599, makes neither script fail: the
    resolver logs the error and returns [None], and [main] returns
    normally, having changed nothing but the log. *)
Theorem resolver_survives_a_failed_request env cfg urls main_url e w :
  yaml_safe_load env "config.yaml" = Ok cfg ->
  cfg_urls cfg = Some urls ->
  cfg_main_url urls = Some main_url ->
  request_error env main_url = Some e ->
  is_RequestException e = true ->
  let records :=
    [(INFO, "Accessing main URL: " ++ main_url);
     (ERROR, "Error accessing main URL: " ++ str_exn e)] in
  V11.get_latest_month_url env cfg w = (Ok PyNone, add_log records w) /\
  V10.get_latest_month_url env cfg w = (Ok PyNone, add_log records w) /\
  logs_only (V11.main env) (Ok PyNone) /\
  logs_only (V10.main env) (Ok PyNone).
Proof.
  intros Hcfg Hu Hm He Hreq records.
  assert (H11 : forall w,
    V11.get_latest_month_url env cfg w = (Ok PyNone, add_log records w)).
  { intros w0. unfold V11.get_latest_month_url, raise_for_status,
      try_except_on, try_except, bind, subscript.
    rewrite Hu. cbn [ret]. rewrite Hm. cbn [ret].
    unfold logging_info at 1. cbn [emit]. unfold lift.
    unfold request_error, status_ok in He.
    destruct (requests_get env main_url) as [r|e'].
    - destruct ((400 <=? status_code r) && (status_code r <? 600))%nat;
        cbn [negb] in He; [|discriminate]. inversion He; subst e.
      subst records. unfold raise, logging_error, emit, ret.
      cbn [is_RequestException]. flatten_log. reflexivity.
    - inversion He; subst e'. subst records. rewrite Hreq.
      unfold logging_error, emit, ret. flatten_log. reflexivity. }
  assert (H10 : forall w,
    V10.get_latest_month_url env cfg w = (Ok PyNone, add_log records w)).
  { intros w0. unfold V10.get_latest_month_url, raise_for_status,
      try_except, bind, subscript.
    rewrite Hu. cbn [ret]. rewrite Hm. cbn [ret].
    unfold logging_info at 1. cbn [emit]. unfold lift.
    unfold request_error, status_ok in He.
    destruct (requests_get env main_url) as [r|e'].
    - destruct ((400 <=? status_code r) && (status_code r <? 600))%nat;
        cbn [negb] in He; [|discriminate]. inversion He; subst e.
      subst records. unfold raise, logging_error, emit, ret.
      cbn [is_RequestException]. flatten_log. reflexivity.
    - inversion He; subst e'. subst records. rewrite Hreq.
      unfold logging_error, emit, ret. flatten_log. reflexivity. }
  split; [apply H11|]. split; [apply H10|]. split.
  - apply (main_v11_stops env cfg PyNone Hcfg); auto.
    apply (logs_only_of_run _ _ (fun _ => records)). exact H11.
  - apply (main_v10_stops env cfg PyNone Hcfg); auto.
    apply (logs_only_of_run _ _ (fun _ => records)). exact H10.
Qed.

Lemma resolver_survives_a_failed_request_witness :
  V11.get_latest_month_url (configured sample_config) sample_config blank
  = (Ok PyNone,
     add_log
       [(INFO, "Accessing main URL: https://kb.example/release-notes");
        (ERROR, "Error accessing main URL: request failed")] blank).
Proof.
  exact (proj1 (resolver_survives_a_failed_request (configured sample_config)
                  sample_config _ _ RequestException blank
                  eq_refl eq_refl eq_refl eq_refl eq_refl)).
Defined.

(** A configuration that lacks the key ['urls'], or ['main_url'] under
    it, separates the two scripts.  The earlier one catches the key error
    inside the resolver, logs it and returns [None], so that [main] ends
    normally.  The later one only handles request errors there: the key
    error leaves the resolver unlogged, and [main] logs it as critical and
    raises it again.  Neither touches anything but the log. *)
Theorem missing_key_separates_the_scripts env cfg key w :
  yaml_safe_load env "config.yaml" = Ok cfg ->
  (cfg_urls cfg = None /\ key = "urls") \/
  (exists urls,
      cfg_urls cfg = Some urls /\ cfg_main_url urls = None /\
      key = "main_url") ->
  V10.get_latest_month_url env cfg w
  = (Ok PyNone,
     add_log [(ERROR, "Unexpected error while getting latest month URL: '"
                      ++ key ++ "'")] w) /\
  V11.get_latest_month_url env cfg w = (Raise (KeyError key), w) /\
  logs_only (V10.main env) (Ok PyNone) /\
  exists lg,
    V11.main env w
    = (Raise (KeyError key),
       add_log (lg ++ [(CRITICAL, "Critical error in main process: '"
                                  ++ key ++ "'")]) w).
Proof.
  intros Hcfg Hkey.
  assert (H10 : forall w,
    V10.get_latest_month_url env cfg w
    = (Ok PyNone,
       add_log [(ERROR, "Unexpected error while getting latest month URL: '"
                        ++ key ++ "'")] w)).
  { intros w0. unfold V10.get_latest_month_url, try_except, bind, subscript.
    destruct Hkey as [[Hu ->]|(urls & Hu & Hm & ->)]; rewrite Hu;
      [|cbn [ret]; rewrite Hm]; reflexivity. }
  assert (H11 : forall w,
    V11.get_latest_month_url env cfg w = (Raise (KeyError key), w)).
  { intros w0. unfold V11.get_latest_month_url, try_except_on, try_except,
      bind, subscript.
    destruct Hkey as [[Hu ->]|(urls & Hu & Hm & ->)]; rewrite Hu;
      [|cbn [ret]; rewrite Hm]; reflexivity. }
  split; [apply H10|]. split; [apply H11|]. split.
  - apply (main_v10_stops env cfg PyNone Hcfg); auto.
    eapply (logs_only_of_run _ _ (fun _ => _)). exact H10.
  - unfold V11.main.
    apply (logs_only_try_reraise _
             (fun e => "Critical error in main process: " ++ str_exn e)
             (KeyError key)).
    eapply logs_only_bind; [apply logs_only_setup_logging|].
    eapply logs_only_bind; [apply logs_only_load_config; exact Hcfg|].
    apply logs_only_bind_raise. apply logs_only_pure. exact H11.
Qed.

Lemma missing_key_separates_the_scripts_witness :
  V11.get_latest_month_url (configured {| cfg_urls := None |})
    {| cfg_urls := None |} blank
  = (Raise (KeyError "urls"), blank).
Proof.
  exact (proj1 (proj2 (missing_key_separates_the_scripts
                         (configured {| cfg_urls := None |})
                         {| cfg_urls := None |} "urls" blank eq_refl
                         (or_introl (conj eq_refl eq_refl))))).
Defined.

(** ** Runs of [main] that stop early *)

Lemma logs_only_bind_run {A B} (m : M A) (k : A -> M B) a :
  logs_only m (Ok a) ->
  forall w, exists lg, bind m k w = k a (add_log lg w).
Proof.
  intros Hm w. destruct (Hm w) as [lg E]. exists lg.
  unfold bind. now rewrite E.
Qed.

Lemma logs_only_load_config_raise env config_path e :
  yaml_safe_load env config_path = Raise e ->
  logs_only (load_config env config_path) (Raise e).
Proof.
  intros H. unfold load_config, logging_info.
  eapply logs_only_try_raise.
  - log_step. rewrite H. apply logs_only_bind_raise. apply logs_only_lift.
  - unfold logging_error. destruct e; repeat log_step.
Qed.

Lemma logs_only_fetch_html env url :
  logs_only (fetch_html env url)
    match request_error env url with
    | Some e => Raise e
    | None =>
        match requests_get env url with
        | Ok r => Ok (response_text r)
        | Raise e => Raise e
        end
    end.
Proof.
  unfold fetch_html, request_error, logging_info, try_except_on. log_step.
  destruct (requests_get env url) as [r|e] eqn:E.
  - unfold status_ok.
    destruct ((400 <=? status_code r) && (status_code r <? 600))%nat eqn:Es;
      cbn [negb].
    + eapply logs_only_try_raise.
      * eapply logs_only_bind; [apply logs_only_lift|].
        apply logs_only_bind_raise. unfold raise_for_status. rewrite Es.
        apply logs_only_raise.
      * cbn [is_RequestException]. unfold logging_error. repeat log_step.
    + apply logs_only_try_ok.
      eapply logs_only_bind; [apply logs_only_lift|].
      eapply logs_only_bind.
      * unfold raise_for_status. rewrite Es. apply logs_only_ret.
      * repeat log_step.
  - eapply logs_only_try_raise.
    + apply logs_only_bind_raise. apply logs_only_lift.
    + unfold logging_error. destruct (is_RequestException e); repeat log_step.
Qed.

(** An empty [href] counts as no link.  When the link the resolver finds
    has the empty string as its [href], the resolver returns that string,
    and [main] takes it for "not found": it returns normally without
    fetching, rotating or writing anything; only the log has changed. *)
Theorem empty_href_counts_as_no_link
  env cfg urls selectors main_url container_selector list_selector
  front container :
  yaml_safe_load env "config.yaml" = Ok cfg ->
  cfg_urls cfg = Some urls ->
  cfg_main_url urls = Some main_url ->
  cfg_link_selectors urls = Some selectors ->
  cfg_container selectors = Some container_selector ->
  cfg_list selectors = Some list_selector ->
  requests_get env main_url = Ok front ->
  status_ok front = true ->
  select_one env container_selector
    (document (html_parser env (response_text front))) = Some container ->
  href_of env list_selector container = Some "" ->
  logs_only (V11.get_latest_month_url env cfg) (Ok (PyStr "")) /\
  logs_only (V10.get_latest_month_url env cfg) (Ok (PyStr "")) /\
  logs_only (V11.main env) (Ok PyNone) /\
  logs_only (V10.main env) (Ok PyNone).
Proof.
  intros Hcfg H1 H2 H3 H4 H5 H6 H7 H8 Hhref.
  assert (R11 : logs_only (V11.get_latest_month_url env cfg) (Ok (PyStr ""))).
  { intros w. eexists.
    rewrite (resolver_v11_container_found env cfg urls selectors main_url
               container_selector list_selector front container
               H1 H2 H3 H4 H5 H6 H7 H8).
    rewrite Hhref. reflexivity. }
  assert (R10 : logs_only (V10.get_latest_month_url env cfg) (Ok (PyStr ""))).
  { intros w. eexists.
    rewrite (resolver_v10_container_found env cfg urls selectors main_url
               container_selector list_selector front container
               H1 H2 H3 H4 H5 H6 H7 H8).
    rewrite Hhref. reflexivity. }
  split; [exact R11|]. split; [exact R10|]. split.
  - now apply (main_v11_stops env cfg (PyStr "")).
  - now apply (main_v10_stops env cfg (PyStr "")).
Qed.

Lemma empty_href_counts_as_no_link_witness :
  logs_only (V11.main blank_link_site) (Ok PyNone).
Proof.
  exact (proj1 (proj2 (proj2
           (empty_href_counts_as_no_link blank_link_site sample_config
              _ _ _ _ _ _ _
              eq_refl eq_refl eq_refl eq_refl eq_refl eq_refl eq_refl
              eq_refl eq_refl eq_refl)))).
Defined.

(** ** Runs of [main] that fail *)

(** A configuration file that cannot be loaded ends the run of either
    script before anything else happens: [main] raises the loader's error
    again, its last log record is the critical one that names the error,
    and nothing but the log has changed. *)
Theorem main_raises_the_configuration_error env e w :
  yaml_safe_load env "config.yaml" = Raise e ->
  (exists lg,
      V11.main env w
      = (Raise e,
         add_log (lg ++ [(CRITICAL, "Critical error in main process: "
                                    ++ str_exn e)]) w)) /\
  (exists lg,
      V10.main env w
      = (Raise e,
         add_log (lg ++ [(CRITICAL, "Critical error in main process: "
                                    ++ str_exn e)]) w)).
Proof.
  intros H. split.
  - unfold V11.main.
    apply (logs_only_try_reraise _
             (fun e => "Critical error in main process: " ++ str_exn e) e).
    eapply logs_only_bind; [apply logs_only_setup_logging|].
    apply logs_only_bind_raise. now apply logs_only_load_config_raise.
  - unfold V10.main.
    apply (logs_only_try_reraise _
             (fun e => "Critical error in main process: " ++ str_exn e) e).
    eapply logs_only_bind; [apply logs_only_setup_logging|].
    unfold logging_info at 1. log_step.
    apply logs_only_bind_raise. now apply logs_only_load_config_raise.
Qed.

Lemma main_raises_the_configuration_error_witness :
  exists lg,
    V11.main (offline bare_page) blank
    = (Raise FileNotFoundError,
       add_log (lg ++ [(CRITICAL, "Critical error in main process: "
                                  ++ "No such file or directory")]) blank).
Proof.
  exact (proj1 (main_raises_the_configuration_error (offline bare_page)
                  FileNotFoundError blank eq_refl)).
Defined.

(** When the link is found but the page behind it cannot be fetched, the
    error of [fetch_html] ends the run of either script: [main] raises it
    again after the critical record, and since the failure precedes the
    rotation and the writer, the directory tree is as it was. *)
Theorem main_raises_the_fetch_error
  env cfg urls selectors main_url container_selector list_selector
  front container url e w :
  yaml_safe_load env "config.yaml" = Ok cfg ->
  cfg_urls cfg = Some urls ->
  cfg_main_url urls = Some main_url ->
  cfg_link_selectors urls = Some selectors ->
  cfg_container selectors = Some container_selector ->
  cfg_list selectors = Some list_selector ->
  requests_get env main_url = Ok front ->
  status_ok front = true ->
  select_one env container_selector
    (document (html_parser env (response_text front))) = Some container ->
  href_of env list_selector container = Some url ->
  url <> "" ->
  request_error env url = Some e ->
  (exists lg,
      V11.main env w
      = (Raise e,
         add_log (lg ++ [(CRITICAL, "Critical error in main process: "
                                    ++ str_exn e)]) w)) /\
  (exists lg,
      V10.main env w
      = (Raise e,
         add_log (lg ++ [(CRITICAL, "Critical error in main process: "
                                    ++ str_exn e)]) w)).
Proof.
  intros Hcfg H1 H2 H3 H4 H5 H6 H7 H8 Hhref Hurl He.
  assert (Hf : falsy (PyStr url) = false)
    by (cbn [falsy]; now apply String.eqb_neq).
  pose proof (logs_only_fetch_html env url) as Hfetch. rewrite He in Hfetch.
  split.
  - unfold V11.main.
    apply (logs_only_try_reraise _
             (fun e => "Critical error in main process: " ++ str_exn e) e).
    eapply logs_only_bind; [apply logs_only_setup_logging|].
    eapply logs_only_bind; [apply logs_only_load_config; exact Hcfg|].
    eapply logs_only_bind.
    + intros w0. eexists.
      rewrite (resolver_v11_container_found env cfg urls selectors main_url
                 container_selector list_selector front container
                 H1 H2 H3 H4 H5 H6 H7 H8).
      rewrite Hhref. reflexivity.
    + cbv beta iota. rewrite Hf. now apply logs_only_bind_raise.
  - unfold V10.main.
    apply (logs_only_try_reraise _
             (fun e => "Critical error in main process: " ++ str_exn e) e).
    eapply logs_only_bind; [apply logs_only_setup_logging|].
    unfold logging_info at 1. log_step.
    eapply logs_only_bind; [apply logs_only_load_config; exact Hcfg|].
    eapply logs_only_bind.
    + intros w0. eexists.
      rewrite (resolver_v10_container_found env cfg urls selectors main_url
                 container_selector list_selector front container
                 H1 H2 H3 H4 H5 H6 H7 H8).
      rewrite Hhref. reflexivity.
    + cbv beta iota. rewrite Hf. unfold logging_info at 1. log_step.
      now apply logs_only_bind_raise.
Qed.

Lemma main_raises_the_fetch_error_witness :
  exists lg,
    V11.main (site (Raise RequestException) bare_page) second_run
    = (Raise RequestException,
       add_log (lg ++ [(CRITICAL, "Critical error in main process: "
                                  ++ "request failed")]) second_run).
Proof.
  exact (proj1 (main_raises_the_fetch_error
                  (site (Raise RequestException) bare_page) sample_config
                  _ _ _ _ _ _ _ "https://kb.example/2024-01"
                  RequestException second_run
                  eq_refl eq_refl eq_refl eq_refl eq_refl eq_refl eq_refl
                  eq_refl eq_refl eq_refl ltac:(discriminate) eq_refl)).
Defined.

(** ** Runs in stages *)

Lemma run_from_logs {A} (pre : entry -> Prop) (m : M A) r :
  logs_only m r -> run_from pre m r pre.
Proof.
  intros Hm w Hpre. destruct (Hm w) as [lg E].
  exists (add_log lg w). split; [exact E|exact Hpre].
Qed.

Lemma run_from_bind {A B} pre mid post (m : M A) (k : A -> M B) a r :
  run_from pre m (Ok a) mid -> run_from mid (k a) r post ->
  run_from pre (bind m k) r post.
Proof.
  intros Hm Hk w Hpre. destruct (Hm w Hpre) as (w1 & E1 & Hmid).
  destruct (Hk w1 Hmid) as (w2 & E2 & Hpost).
  exists w2. split; [|exact Hpost]. unfold bind. now rewrite E1.
Qed.

Lemma run_from_after_logs {A B} pre post (m : M A) (k : A -> M B) a r :
  logs_only m (Ok a) -> run_from pre (k a) r post ->
  run_from pre (bind m k) r post.
Proof.
  intros Hm Hk. eapply run_from_bind; [|exact Hk]. now apply run_from_logs.
Qed.

Lemma run_from_try_ok {A} pre post (m : M A) h a :
  run_from pre m (Ok a) post -> run_from pre (try_except m h) (Ok a) post.
Proof.
  intros Hm w Hpre. destruct (Hm w Hpre) as (w1 & E1 & Hpost).
  exists w1. split; [|exact Hpost]. unfold try_except. now rewrite E1.
Qed.

Lemma run_from_weaken {A} (pre pre' post post' : entry -> Prop) (m : M A) r :
  (forall d, pre' d -> pre d) -> (forall d, post d -> post' d) ->
  run_from pre m r post -> run_from pre' m r post'.
Proof.
  intros Hpre Hpost Hm w H. destruct (Hm w (Hpre _ H)) as (w1 & E & Hp).
  exists w1. auto.
Qed.

(** An assertion about the world that every turn of a loop keeps holds
    after the loop. *)
Lemma for_in_invariant {A S} (P : world -> Prop) (body : A -> S -> M S) :
  (forall x s w, P w -> P (snd (body x s w))) ->
  forall l s w, P w -> P (snd (for_in l body s w)).
Proof.
  intros Hb l. induction l as [|x l IH]; intros s w Hw; [exact Hw|].
  cbn [for_in]. unfold bind. specialize (Hb x s w Hw).
  destruct (body x s w) as [[s'|e] w1]; cbn [snd] in *; auto.
Qed.

(** ** What writing leaves alone *)

Lemma lookup_put_diverge common a ra b rb o : forall d,
  a <> b ->
  lookup (common ++ a :: ra)%list (put (common ++ b :: rb)%list o d)
  = lookup (common ++ a :: ra)%list d.
Proof.
  induction common as [|n common IH]; intros d N; cbn [app].
  - destruct d as [l|cs]; [reflexivity|]. cbn [put].
    destruct rb as [|x rb].
    + cbn [lookup]. destruct o.
      * now rewrite assoc_set_other.
      * now rewrite assoc_del_other.
    + destruct (assoc b cs) as [c|]; [|reflexivity].
      cbn [lookup]. now rewrite assoc_set_other.
  - destruct d as [l|cs]; [reflexivity|]. cbn [put].
    destruct (common ++ b :: rb)%list eqn:E.
    + destruct common; discriminate.
    + destruct (assoc n cs) as [c|] eqn:En; [|reflexivity].
      cbn [lookup]. rewrite assoc_set_same, En. now apply IH.
Qed.

Lemma write_all_untouched f ts : forall idx cs,
  (forall j, idx <= j < idx + List.length ts -> table_file j <> f) ->
  assoc f (write_all idx ts cs) = assoc f cs.
Proof.
  induction ts as [|t ts IH]; intros idx cs Hf; cbn [write_all]; auto.
  cbn [List.length] in Hf.
  rewrite IH by (intros j Hj; apply Hf; lia).
  unfold write_one. destruct (is_dir (assoc (table_file idx) cs)); auto.
  apply assoc_set_other. intros ->. apply (Hf idx); [lia|reflexivity].
Qed.





(** ** A run that goes through *)

Lemma save_tables_v11_frame env ts out q w :
  (forall f o d, lookup q (put (os_path_join out f) o d) = lookup q d) ->
  mkdirs out (disk w) = Ok (disk w) ->
  lookup q (disk (snd (V11.save_tables env ts out w))) = lookup q (disk w).
Proof.
  intros Hq Hm. unfold V11.save_tables.
  set (w1 := add_log
               [(INFO, "Saving tables to directory: " ++ path_str env out)] w).
  etransitivity; [apply (f_equal (fun x => lookup q (disk (snd x))))|].
  { run_with (eq_refl : logging_info _ w = (Ok tt, w1)).
    run_with (os_makedirs_run out w1 (disk w) Hm). reflexivity. }
  unfold bind at 1.
  match goal with
  | |- context [for_in ?l ?b tt ?w2] =>
      pose proof (for_in_invariant
                    (fun w' => lookup q (disk w') = lookup q (disk w))
                    b) as Hinv;
      specialize (fun H => Hinv H l tt w2)
  end.
  assert (Hloop : forall (x : nat * table) (s : unit) w0,
    lookup q (disk w0) = lookup q (disk w) ->
    lookup q (disk (snd
      ((let '(idx, table) := x in
        fun _ : unit =>
          try_except
            (let df := pd_DataFrame (rows table) in
             let filename :=
               os_path_join out ("table_" ++ str idx ++ ".csv") in
             to_csv df filename ;;
             logging_info
               ("Saved table '" ++ table_title table ++ "' to "
                ++ path_str env filename))
            (fun e =>
               logging_error
                 ("Error saving table " ++ str idx ++ ": " ++ str_exn e)))
         s w0)))
    = lookup q (disk w)).
  { intros [idx t] s w0 H0. cbv zeta.
    unfold try_except, bind, to_csv, logging_info, logging_error, emit.
    destruct (lookup (os_path_join out ("table_" ++ str idx ++ ".csv"))
                (disk w0)) as [[l|sub]|];
      destruct (lookup (parent (os_path_join out
                                 ("table_" ++ str idx ++ ".csv")))
                  (disk w0)) as [[l'|sub']|];
      cbn [snd disk set_disk]; rewrite ?Hq; exact H0. }
  specialize (Hinv Hloop eq_refl).
  match goal with
  | |- context [for_in ?l ?b tt ?w2] =>
      destruct (for_in l b tt w2) as [[u|e] w3]
  end; exact Hinv.
Qed.

Section WholeRun.

Variable env : collaborators.
Variable base : path.
Variables bs cs ps : list (string * entry).

Hypothesis current_slot : slot bs "current" = Some cs.
Hypothesis last_time_slot : slot bs "last time" = Some ps.
Hypothesis no_collision :
  forall n, In n (keys cs) -> is_dir (assoc n ps) = false.

Lemma rotation_stage :
  run_from (fun d => lookup base d = Some (Dir bs))
    (V11.manage_output_folders base) (Ok PyNone)
    (fun d =>
       exists bs',
         lookup base d = Some (Dir bs') /\
         assoc "current" bs' = Some (Dir (kept cs)) /\
         assoc "last time" bs' = Some (Dir (archived cs ps))).
Proof.
  intros w Hb. destruct cs as [|c cs'] eqn:Ecs.
  - destruct (rotate_empty base w bs [] ps Hb current_slot last_time_slot
                eq_refl) as (d1 & d2 & _ & _ & Hl & Hrun).
    exists (set_disk d2 w). split; [exact Hrun|].
    eexists. split; [exact Hl|]. split.
    + rewrite assoc_set_other by discriminate. apply assoc_set_same.
    + apply assoc_set_same.
  - destruct (rotate_nonempty base w bs (c :: cs') ps Hb current_slot
                last_time_slot ltac:(discriminate) no_collision)
      as (w' & moved & Hrun & Hmv & Hl).
    exists w'. split; [exact Hrun|].
    eexists. split; [exact Hl|]. split.
    + rewrite assoc_set_other by discriminate. apply assoc_set_same.
    + rewrite assoc_set_same. unfold archived. now rewrite Hmv.
Qed.

Lemma save_stage ts cs' ps' :
  run_from
    (fun d =>
       exists bs',
         lookup base d = Some (Dir bs') /\
         assoc "current" bs' = Some (Dir cs') /\
         assoc "last time" bs' = Some (Dir ps'))
    (V11.save_tables env ts (os_path_join base "current")) (Ok PyNone)
    (fun d =>
       lookup (os_path_join base "current") d
       = Some (Dir (write_all 1 ts cs')) /\
       lookup (os_path_join base "last time") d = Some (Dir ps')).
Proof.
  intros w (bs' & Hb & Hc & Hp).
  assert (Hout : lookup (os_path_join base "current") (disk w)
                 = Some (Dir cs'))
    by (now rewrite (lookup_slot _ _ _ _ Hb)).
  pose proof (mkdirs_noop _ _ _ Hout) as Hm.
  destruct (save_tables_v11_run env (os_path_join base "current") ts w
              (disk w) cs' Hm Hout) as (w' & Hrun & Hl).
  exists w'. split; [exact Hrun|]. split; [exact Hl|].
  pose proof (save_tables_v11_frame env ts (os_path_join base "current")
                (os_path_join base "last time") w) as Hf.
  rewrite Hrun in Hf. cbn [snd] in Hf. rewrite Hf; auto.
  - now rewrite (lookup_slot _ _ _ _ Hb).
  - intros f o d. unfold os_path_join. rewrite <- app_assoc. cbn [app].
    apply lookup_put_diverge. discriminate.
Qed.

End WholeRun.

Lemma logs_only_fetch_html_ok env url page :
  requests_get env url = Ok page -> status_ok page = true ->
  logs_only (fetch_html env url) (Ok (response_text page)).
Proof.
  intros Hr Hs. pose proof (logs_only_fetch_html env url) as H.
  unfold request_error in H. now rewrite Hr, Hs in H.
Qed.

(** A complete run of the later script.  With the configuration loaded,
    the link found and its page fetched, [main] returns normally after
    rotating and writing: [last time] is what the rotation leaves in it,
    and [current] is what the rotation leaves in it with the files of the
    extracted tables written over it.  [main] never empties [current]: an
    entry the rotation did not move and no new table overwrites stays
    where it was. *)
Theorem main_rotates_then_writes
  env cfg urls selectors main_url container_selector list_selector
  front container url page w bs cs ps :
  yaml_safe_load env "config.yaml" = Ok cfg ->
  cfg_urls cfg = Some urls ->
  cfg_main_url urls = Some main_url ->
  cfg_link_selectors urls = Some selectors ->
  cfg_container selectors = Some container_selector ->
  cfg_list selectors = Some list_selector ->
  requests_get env main_url = Ok front ->
  status_ok front = true ->
  select_one env container_selector
    (document (html_parser env (response_text front))) = Some container ->
  href_of env list_selector container = Some url ->
  url <> "" ->
  requests_get env url = Ok page ->
  status_ok page = true ->
  lookup V11.base_output_dir (disk w) = Some (Dir bs) ->
  slot bs "current" = Some cs ->
  slot bs "last time" = Some ps ->
  (forall n, In n (keys cs) -> is_dir (assoc n ps) = false) ->
  exists snap w',
    logs_only (V11.extract_tables env (response_text page) url) (Ok snap) /\
    V11.main env w = (Ok PyNone, w') /\
    lookup (os_path_join V11.base_output_dir "current") (disk w')
    = Some (Dir (write_all 1 snap (kept cs))) /\
    lookup (os_path_join V11.base_output_dir "last time") (disk w')
    = Some (Dir (archived cs ps)) /\
    (forall f,
        (forall j, 1 <= j <= List.length snap -> table_file j <> f) ->
        assoc f (write_all 1 snap (kept cs)) = assoc f (kept cs)).
Proof.
  intros Hcfg H1 H2 H3 H4 H5 H6 H7 H8 Hhref Hurl Hreq Hok Hb Hc Hp Hfiles.
  set (snap := snapshot_v11 (html_parser env (response_text page)) url).
  assert (Hf : falsy (PyStr url) = false)
    by (cbn [falsy]; now apply String.eqb_neq).
  assert (Hrun :
    run_from (fun d => lookup V11.base_output_dir d = Some (Dir bs))
      (V11.main env) (Ok PyNone)
      (fun d =>
         lookup (os_path_join V11.base_output_dir "current") d
         = Some (Dir (write_all 1 snap (kept cs))) /\
         lookup (os_path_join V11.base_output_dir "last time") d
         = Some (Dir (archived cs ps)))).
  { unfold V11.main. apply run_from_try_ok.
    eapply run_from_after_logs; [apply logs_only_setup_logging|].
    eapply run_from_after_logs; [apply logs_only_load_config; exact Hcfg|].
    eapply run_from_after_logs.
    { intros w0. eexists.
      rewrite (resolver_v11_container_found env cfg urls selectors main_url
                 container_selector list_selector front container
                 H1 H2 H3 H4 H5 H6 H7 H8).
      rewrite Hhref. reflexivity. }
    cbv beta iota. rewrite Hf.
    eapply run_from_after_logs;
      [apply (logs_only_fetch_html_ok env url page Hreq Hok)|].
    eapply run_from_after_logs; [apply extract_tables_v11|].
    eapply run_from_bind;
      [apply (rotation_stage V11.base_output_dir bs cs ps Hc Hp Hfiles)|].
    eapply run_from_bind; [apply save_stage|].
    unfold logging_info. eapply run_from_after_logs; [apply logs_only_emit|].
    apply run_from_logs. apply logs_only_ret. }
  destruct (Hrun w Hb) as (w' & Hmain & Hcur & Hlast).
  exists snap, w'. split; [apply extract_tables_v11|].
  split; [exact Hmain|]. split; [exact Hcur|]. split; [exact Hlast|].
  intros f Hfree. apply write_all_untouched. intros j Hj. apply Hfree. lia.
Qed.

Lemma main_rotates_then_writes_witness :
  exists snap w',
    logs_only
      (V11.extract_tables (site served_notes bare_page) "notes"
         "https://kb.example/2024-01") (Ok snap) /\
    V11.main (site served_notes bare_page) second_run = (Ok PyNone, w') /\
    lookup (os_path_join V11.base_output_dir "last time") (disk w')
    = Some (Dir [("table_3.csv", File [["c"]; ["1"]])]).
Proof.
  destruct (main_rotates_then_writes (site served_notes bare_page)
              sample_config _ _ _ _ _ _ _ "https://kb.example/2024-01"
              {| status_code := 200; response_text := "notes" |}
              second_run _ _ _
              eq_refl eq_refl eq_refl eq_refl eq_refl eq_refl eq_refl
              eq_refl eq_refl eq_refl ltac:(discriminate) eq_refl eq_refl
              eq_refl eq_refl eq_refl
              ltac:(intros n Hn; simpl in Hn;
                    destruct Hn as [<-|[<-|[<-|[]]]]; reflexivity))
    as (snap & w' & Hsnap & Hmain & _ & Hlast & _).
  exists snap, w'. split; [exact Hsnap|]. split; [exact Hmain|].
  exact Hlast.
Defined.

(** A complete run of the earlier script, which does not rotate: with the
    configuration loaded, the link found and its page fetched, [main]
    returns normally and the output directory holds its former entries
    with the files of the extracted tables written over them. *)
Theorem earlier_main_writes_in_place
  env cfg urls selectors main_url container_selector list_selector
  front container url page w d0 cs0 :
  yaml_safe_load env "config.yaml" = Ok cfg ->
  cfg_urls cfg = Some urls ->
  cfg_main_url urls = Some main_url ->
  cfg_link_selectors urls = Some selectors ->
  cfg_container selectors = Some container_selector ->
  cfg_list selectors = Some list_selector ->
  requests_get env main_url = Ok front ->
  status_ok front = true ->
  select_one env container_selector
    (document (html_parser env (response_text front))) = Some container ->
  href_of env list_selector container = Some url ->
  url <> "" ->
  requests_get env url = Ok page ->
  status_ok page = true ->
  mkdirs V10.output_dir (disk w) = Ok d0 ->
  lookup V10.output_dir d0 = Some (Dir cs0) ->
  exists snap w',
    logs_only (V10.extract_tables env (response_text page) url) (Ok snap) /\
    V10.main env w = (Ok PyNone, w') /\
    lookup V10.output_dir (disk w') = Some (Dir (write_all 1 snap cs0)).
Proof.
  intros Hcfg H1 H2 H3 H4 H5 H6 H7 H8 Hhref Hurl Hreq Hok Hm Hl.
  set (snap := snapshot_v10 (html_parser env (response_text page)) url).
  assert (Hf : falsy (PyStr url) = false)
    by (cbn [falsy]; now apply String.eqb_neq).
  assert (Hrun :
    run_from (fun d => mkdirs V10.output_dir d = Ok d0)
      (V10.main env) (Ok PyNone)
      (fun d => lookup V10.output_dir d = Some (Dir (write_all 1 snap cs0)))).
  { unfold V10.main. apply run_from_try_ok.
    eapply run_from_after_logs; [apply logs_only_setup_logging|].
    unfold logging_info at 1.
    eapply run_from_after_logs; [apply logs_only_emit|].
    eapply run_from_after_logs; [apply logs_only_load_config; exact Hcfg|].
    eapply run_from_after_logs.
    { intros w0. eexists.
      rewrite (resolver_v10_container_found env cfg urls selectors main_url
                 container_selector list_selector front container
                 H1 H2 H3 H4 H5 H6 H7 H8).
      rewrite Hhref. reflexivity. }
    cbv beta iota. rewrite Hf. unfold logging_info at 1.
    eapply run_from_after_logs; [apply logs_only_emit|].
    eapply run_from_after_logs;
      [apply (logs_only_fetch_html_ok env url page Hreq Hok)|].
    eapply run_from_after_logs; [apply extract_tables_v10|].
    eapply (run_from_bind _
              (fun d =>
                 lookup V10.output_dir d = Some (Dir (write_all 1 snap cs0)))).
    { intros w0 Hm0.
      destruct (save_tables_v10_run env V10.output_dir snap w0 d0 cs0 Hm0 Hl)
        as (w1 & Hsave & Hl1).
      eexists. split; [exact Hsave|]. exact Hl1. }
    unfold logging_info. eapply run_from_after_logs; [apply logs_only_emit|].
    apply run_from_logs. apply logs_only_ret. }
  destruct (Hrun w Hm) as (w' & Hmain & Hout).
  exists snap, w'. split; [apply extract_tables_v10|].
  split; [exact Hmain|exact Hout].
Qed.

Lemma earlier_main_writes_in_place_witness :
  exists snap w',
    logs_only
      (V10.extract_tables (site served_notes short_row_page) "notes"
         "https://kb.example/2024-01") (Ok snap) /\
    V10.main (site served_notes short_row_page) blank = (Ok PyNone, w') /\
    lookup V10.output_dir (disk w') = Some (Dir (write_all 1 snap [])).
Proof.
  exact (earlier_main_writes_in_place (site served_notes short_row_page)
           sample_config _ _ _ _ _ _ _ "https://kb.example/2024-01"
           {| status_code := 200; response_text := "notes" |}
           blank (under V10.output_dir (Dir [])) []
           eq_refl eq_refl eq_refl eq_refl eq_refl eq_refl eq_refl
           eq_refl eq_refl eq_refl ltac:(discriminate) eq_refl eq_refl
           eq_refl eq_refl).
Defined.

(** ** More about the extractor *)

Lemma table_v11_is_v10 soup url week tbl t :
  In t (table_v11 soup url week tbl) -> t = table_v10 soup url week tbl.
Proof.
  unfold table_v11, table_v10. cbv zeta.
  destruct (forallb (complete (headers_of tbl)) (data_rows tbl)) eqn:Hall;
    [|contradiction].
  intros [<-|[]]. now rewrite (filter_all _ _ Hall).
Qed.

Lemma table_v11_length soup url week tbl :
  List.length (table_v11 soup url week tbl) <= 1.
Proof.
  unfold table_v11. cbv zeta.
  destruct (forallb (complete (headers_of tbl)) (data_rows tbl)); simpl; lia.
Qed.

Lemma flat_map_length_le {A B} (f g : A -> list B) l :
  (forall x, List.length (f x) <= List.length (g x)) ->
  List.length (flat_map f l) <= List.length (flat_map g l).
Proof.
  intros H. induction l as [|x l IH]; simpl; auto.
  rewrite !length_app. specialize (H x). lia.
Qed.

Lemma flat_map_ext_in {A B} (f g : A -> list B) l :
  (forall x, In x l -> f x = g x) -> flat_map f l = flat_map g l.
Proof.
  intros H. induction l as [|x l IH]; simpl; auto.
  rewrite (H x) by now left. rewrite IH; auto.
  intros y Hy. apply H. now right.
Qed.

(** What the later script returns is part of what the earlier script
    returns for the same page: every table in the later snapshot is in the
    earlier one, with the same records, the later snapshot is no longer
    than the earlier one, and the two are equal when every data row of
    every table has a cell for each header. *)
Theorem later_snapshot_within_earlier env html url :
  let soup := html_parser env html in
  exists snap10 snap11,
    logs_only (V10.extract_tables env html url) (Ok snap10) /\
    logs_only (V11.extract_tables env html url) (Ok snap11) /\
    (forall t, In t snap11 -> In t snap10) /\
    List.length snap11 <= List.length snap10 /\
    ((forall div tbl row,
         In div (sections soup) -> In tbl (tables_of div) ->
         In row (data_rows tbl) -> complete (headers_of tbl) row = true) ->
     snap11 = snap10).
Proof.
  intros soup. exists (snapshot_v10 soup url), (snapshot_v11 soup url).
  split; [apply extract_tables_v10|]. split; [apply extract_tables_v11|].
  split; [|split].
  - intros t Hin. unfold snapshot_v11 in Hin.
    apply in_flat_map in Hin. destruct Hin as (div & Hd & Hin).
    apply in_flat_map in Hin. destruct Hin as (tbl & Ht & Hin).
    apply table_v11_is_v10 in Hin. subst t. now apply in_snapshot_v10.
  - unfold snapshot_v11, snapshot_v10. apply flat_map_length_le.
    intros div. rewrite map_as_flat_map. apply flat_map_length_le.
    intros tbl. apply table_v11_length.
  - intros Hall. unfold snapshot_v11, snapshot_v10.
    apply flat_map_ext_in. intros div Hd. rewrite map_as_flat_map.
    apply flat_map_ext_in. intros tbl Ht.
    unfold table_v11, table_v10. cbv zeta.
    assert (Hf : forallb (complete (headers_of tbl)) (data_rows tbl) = true).
    { apply forallb_forall. intros row Hr. eapply Hall; eauto. }
    now rewrite Hf, (filter_all _ _ Hf).
Qed.

(** Both scripts list the tables in section order, then in table order
    within the section: the earlier script returns one table for every
    table element of every section block, titled and headed as that
    element is, so a page without section blocks, or without tables in
    them, gives the empty snapshot and no error; the later script returns
    the empty snapshot for such a page too. *)
Theorem snapshot_follows_the_page env html url :
  let soup := html_parser env html in
  exists snap10 snap11,
    logs_only (V10.extract_tables env html url) (Ok snap10) /\
    logs_only (V11.extract_tables env html url) (Ok snap11) /\
    map table_title snap10
    = flat_map (fun div => map (title_of soup) (tables_of div))
               (sections soup) /\
    map headers snap10
    = flat_map
        (fun div =>
           map (fun tbl => (headers_of tbl ++ synthetic_columns)%list)
               (tables_of div))
        (sections soup) /\
    (flat_map tables_of (sections soup) = [] -> snap10 = [] /\ snap11 = []).
Proof.
  intros soup. exists (snapshot_v10 soup url), (snapshot_v11 soup url).
  split; [apply extract_tables_v10|]. split; [apply extract_tables_v11|].
  unfold snapshot_v10, snapshot_v11. split; [|split].
  - induction (sections soup) as [|div l IH]; simpl; auto.
    rewrite map_app, IH, map_map. reflexivity.
  - induction (sections soup) as [|div l IH]; simpl; auto.
    rewrite map_app, IH, map_map. reflexivity.
  - induction (sections soup) as [|div l IH]; simpl; auto.
    intros H. apply app_eq_nil in H. destruct H as [H1 H2].
    rewrite H1. simpl. now apply IH.
Qed.

Lemma assoc_fold_set_other k (l : list (string * string)) : forall d : dict,
  ~ In k (map fst l) ->
  assoc k (fold_left (fun d kv => assoc_set (fst kv) (snd kv) d) l d)
  = assoc k d.
Proof.
  induction l as [|[k' v] l IH]; intros d H; simpl in *; auto.
  rewrite IH by tauto. apply assoc_set_other. intros ->. tauto.
Qed.

Lemma in_map_fst_combine {A B} (l : list A) (l' : list B) x :
  In x (map fst (combine l l')) -> In x l.
Proof.
  revert l'. induction l as [|y l IH]; intros [|y' l'] H; simpl in *;
    try contradiction.
  destruct H as [H|H]; eauto.
Qed.

Lemma zip_value hs : forall cells i h c (d : dict),
  NoDup hs -> nth_error hs i = Some h -> nth_error cells i = Some c ->
  assoc h (fold_left (fun d kv => assoc_set (fst kv) (snd kv) d)
             (combine hs cells) d) = Some c.
Proof.
  induction hs as [|h0 hs IH]; intros cells i h c d Hnd Hh Hc.
  - destruct i; discriminate.
  - inversion Hnd as [|? ? Hnin Hnd']; subst.
    destruct cells as [|c0 cells]; [destruct i; discriminate|].
    destruct i as [|i]; simpl in *.
    + inversion Hh; inversion Hc; subst.
      rewrite assoc_fold_set_other.
      * apply assoc_set_same.
      * intros Hin. apply in_map_fst_combine in Hin. contradiction.
    + eapply IH; eauto.
Qed.

(** The record of a row that has a cell for every header, when the header
    labels are pairwise distinct and none of them is the name of a
    synthetic column: its keys are the headers followed by the three
    synthetic columns, the field of the header at position [i] holds the
    cell at position [i], and the cells beyond the last header are not in
    the record. *)
Theorem complete_row_record hs cells week url title w :
  List.length hs <= List.length cells ->
  NoDup (hs ++ synthetic_columns) ->
  exists row_data,
    row_comprehension hs cells w = (Ok row_data, w) /\
    let record :=
      dict_update row_data
        [("week_info", week); ("source_url", url); ("table_title", title)] in
    keys record = (hs ++ synthetic_columns)%list /\
    List.length record = List.length hs + 3 /\
    (forall i h, nth_error hs i = Some h -> assoc h record = nth_error cells i) /\
    assoc "week_info" record = Some week /\
    assoc "source_url" record = Some url /\
    assoc "table_title" record = Some title.
Proof.
  intros Hlen Hnd. exists (zip_dict hs cells). split.
  - rewrite row_comprehension_run. unfold zip_result.
    now rewrite (proj2 (Nat.leb_le _ _) Hlen).
  - cbv zeta.
    assert (Hkeys :
      keys (dict_update (zip_dict hs cells)
              [("week_info", week); ("source_url", url);
               ("table_title", title)])
      = (hs ++ synthetic_columns)%list).
    { unfold dict_update, zip_dict. rewrite <- fold_left_app.
      rewrite keys_fold_set; cbn [keys map]; rewrite map_app,
        (map_fst_combine_le hs cells Hlen); auto. }
    split; [exact Hkeys|]. split; [|split].
    + rewrite <- (length_map fst). fold (keys (dict_update (zip_dict hs cells)
        [("week_info", week); ("source_url", url); ("table_title", title)])).
      rewrite Hkeys, length_app. reflexivity.
    + intros i h Hh.
      assert (Hin : In h hs) by (eapply nth_error_In; eauto).
      assert (Hsyn : ~ In h synthetic_columns).
      { intros Hs. revert Hnd Hin Hs. clear. intros Hnd Hin Hs.
        induction hs as [|x hs IH]; [contradiction|].
        simpl in Hnd. inversion Hnd; subst. destruct Hin as [->|Hin].
        - apply H1. apply in_or_app. now right.
        - now apply IH. }
      unfold dict_update. cbn [fold_left fst snd].
      rewrite !assoc_set_other
        by (intros ->; apply Hsyn; simpl; tauto).
      destruct (nth_error cells i) as [c|] eqn:Hc.
      * unfold zip_dict. eapply zip_value; eauto.
        now apply NoDup_app_remove_r in Hnd.
      * apply nth_error_None in Hc.
        assert (i < List.length hs) by (apply nth_error_Some; congruence).
        lia.
    + unfold dict_update. cbn [fold_left fst snd]. repeat split.
      * rewrite !assoc_set_other by discriminate. apply assoc_set_same.
      * rewrite assoc_set_other by discriminate. apply assoc_set_same.
      * apply assoc_set_same.
Qed.

Lemma complete_row_record_witness :
  exists row_data,
    row_comprehension ["Name"; "Type"] ["A"; "Journal"; "extra"] blank
    = (Ok row_data, blank) /\
    keys (dict_update row_data
            [("week_info", "Week 1"); ("source_url", "http://x");
             ("table_title", "Added")])
    = ["Name"; "Type"; "week_info"; "source_url"; "table_title"].
Proof.
  destruct (complete_row_record ["Name"; "Type"] ["A"; "Journal"; "extra"]
              "Week 1" "http://x" "Added" blank
              ltac:(simpl; lia)
              ltac:(repeat constructor; simpl; intuition discriminate))
    as (row_data & Hrun & Hkeys & _).
  exists row_data. split; [exact Hrun|exact Hkeys].
Defined.

Lemma firstn_split {A} (l : list A) : forall p k,
  firstn (p + k) l = (firstn p l ++ firstn k (skipn p l))%list.
Proof.
  induction l as [|x l IH]; intros [|p] k; simpl; auto.
  - now rewrite firstn_nil.
  - now rewrite IH.
Qed.

Lemma find_previous_shared name soup t1 t2 :
  position t1 <= position t2 ->
  forallb (fun n => negb (is_tag name n))
          (firstn (position t2 - position t1)
                  (skipn (position t1) (parse_order soup))) = true ->
  find_previous name soup t2 = find_previous name soup t1.
Proof.
  intros Hle Hno. unfold find_previous.
  replace (position t2) with (position t1 + (position t2 - position t1))
    by lia.
  rewrite firstn_split, rev_app_distr, filter_app.
  apply forallb_rev in Hno. now rewrite (filter_none _ _ Hno).
Qed.

(** The title of a table is the nearest level-2 heading before it in the
    whole document, wherever that heading stands.  Take two tables of the
    page, met at positions [i1] and [i2], with no heading between them, be
    they in one section block or in two.  The earlier script returns them
    at positions [i1] and [i2] under the same title, and every record of
    the second, one for each complete data row, carries that title.  The
    later script, when both have only complete rows, returns them under
    the same title too, at the positions that count the tables with only
    complete rows before them. *)
Theorem tables_share_the_heading_before_them
  env html url i1 div1 tbl1 i2 div2 tbl2 :
  let soup := html_parser env html in
  nth_error (placed_tables soup) i1 = Some (div1, tbl1) ->
  nth_error (placed_tables soup) i2 = Some (div2, tbl2) ->
  position tbl1 <= position tbl2 ->
  no_heading_between soup tbl1 tbl2 = true ->
  exists snap10 snap11,
    logs_only (V10.extract_tables env html url) (Ok snap10) /\
    logs_only (V11.extract_tables env html url) (Ok snap11) /\
    (exists t1 t2,
        nth_error snap10 i1 = Some t1 /\ nth_error snap10 i2 = Some t2 /\
        table_title t2 = table_title t1 /\
        List.length (rows t2)
        = List.length (filter (complete (headers_of tbl2)) (data_rows tbl2)) /\
        forall r, In r (rows t2) ->
          assoc "table_title" r = Some (table_title t1)) /\
    (whole (div1, tbl1) = true -> whole (div2, tbl2) = true ->
     exists t1 t2,
        nth_error snap11 (returned_before soup i1) = Some t1 /\
        nth_error snap11 (returned_before soup i2) = Some t2 /\
        table_title t2 = table_title t1 /\
        List.length (rows t2) = List.length (data_rows tbl2) /\
        forall r, In r (rows t2) ->
          assoc "table_title" r = Some (table_title t1)).
Proof.
  intros soup H1 H2 Hle Hno.
  assert (Htitle : title_of soup tbl2 = title_of soup tbl1).
  { unfold title_of.
    now rewrite (find_previous_shared "h2" soup tbl1 tbl2 Hle Hno). }
  assert (Hrec : forall r,
             In r (rows (table_v10 soup url (label_of div2) tbl2)) ->
             assoc "table_title" r
             = Some (table_title (table_v10 soup url (label_of div1) tbl1))).
  { intros r Hr. apply table_v10_tags in Hr.
    cbn [table_v10 table_title]. rewrite <- Htitle. tauto. }
  exists (snapshot_v10 soup url), (snapshot_v11 soup url).
  split; [apply extract_tables_v10|]. split; [apply extract_tables_v11|].
  split.
  - exists (table_v10 soup url (label_of div1) tbl1),
      (table_v10 soup url (label_of div2) tbl2).
    split; [now apply nth_snapshot_v10|].
    split; [now apply nth_snapshot_v10|].
    split; [exact Htitle|]. split; [apply table_v10_rows|exact Hrec].
  - intros Hw1 Hw2.
    exists (table_v10 soup url (label_of div1) tbl1),
      (table_v10 soup url (label_of div2) tbl2).
    split; [now apply nth_snapshot_v11|].
    split; [now apply nth_snapshot_v11|].
    split; [exact Htitle|]. split; [|exact Hrec].
    rewrite table_v10_rows. unfold whole in Hw2. cbn [snd] in Hw2.
    now rewrite (filter_all _ _ Hw2).
Qed.

Lemma tables_share_the_heading_before_them_witness :
  exists snap10 t1 t2 r,
    logs_only (V10.extract_tables (offline shared_heading_page) ""
                 "http://x") (Ok snap10) /\
    nth_error snap10 0 = Some t1 /\ nth_error snap10 1 = Some t2 /\
    table_title t2 = table_title t1 /\
    In r (rows t2) /\ assoc "table_title" r = Some (table_title t1).
Proof.
  pose (d := (document shared_heading_page, document shared_heading_page)).
  pose (p1 := nth 0 (placed_tables shared_heading_page) d).
  pose (p2 := nth 1 (placed_tables shared_heading_page) d).
  destruct (tables_share_the_heading_before_them
              (offline shared_heading_page) "" "http://x"
              0 (fst p1) (snd p1) 1 (fst p2) (snd p2)
              eq_refl eq_refl
              ltac:(vm_compute; lia) ltac:(vm_compute; reflexivity))
    as (snap10 & snap11 & Hrun & _ &
        (t1 & t2 & Hn1 & Hn2 & Ht & Hlen & Hrec) & _).
  destruct (rows t2) as [|r rs] eqn:Er; [vm_compute in Hlen; discriminate|].
  exists snap10, t1, t2, r. split; [exact Hrun|].
  split; [exact Hn1|]. split; [exact Hn2|]. split; [exact Ht|].
  rewrite Er. split; [now left|]. apply Hrec. now left.
Defined.

Lemma keys_assoc_set_nodup {V} k (v : V) d :
  NoDup (keys d) -> NoDup (keys (assoc_set k v d)).
Proof.
  intros H. destruct (assoc k d) as [v0|] eqn:E.
  - assert (Hk : keys (assoc_set k v d) = keys d).
    { clear H. induction d as [|[k' v'] d IH]; simpl in *; [discriminate|].
      destruct (String.eqb_spec k' k) as [->|N]; simpl; auto.
      now rewrite IH. }
    now rewrite Hk.
  - rewrite assoc_set_new by exact E. unfold keys. rewrite map_app. simpl.
    apply NoDup_app; auto.
    + repeat constructor. simpl. tauto.
    + intros x Hx [<-|[]]. apply assoc_in_keys in Hx.
      destruct Hx as [v1 Hx]. congruence.
Qed.

Lemma keys_fold_set_nodup (l : list (string * string)) : forall d : dict,
  NoDup (keys d) ->
  NoDup (keys (fold_left (fun d kv => assoc_set (fst kv) (snd kv) d) l d)).
Proof.
  induction l as [|[k v] l IH]; intros d H; simpl; auto.
  apply IH. now apply keys_assoc_set_nodup.
Qed.

Lemma zip_value_last hs : forall cells i h c (d : dict),
  nth_error hs i = Some h -> nth_error cells i = Some c ->
  (forall j, i < j -> nth_error hs j <> Some h) ->
  assoc h (fold_left (fun d kv => assoc_set (fst kv) (snd kv) d)
             (combine hs cells) d) = Some c.
Proof.
  induction hs as [|h0 hs IH]; intros cells i h c d Hh Hc Hlast.
  - destruct i; discriminate.
  - destruct cells as [|c0 cells]; [destruct i; discriminate|].
    destruct i as [|i]; simpl in *.
    + inversion Hh; inversion Hc; subst.
      rewrite assoc_fold_set_other.
      * apply assoc_set_same.
      * intros Hin. apply in_map_fst_combine in Hin.
        apply In_nth_error in Hin. destruct Hin as [j Hj].
        apply (Hlast (S j)); [lia|exact Hj].
    + eapply IH; eauto. intros j Hj. apply (Hlast (S j)). lia.
Qed.

(** Header labels that repeat.  A record never has two fields of the
    same name: a label that occurs several times among the headers gives
    one field, and that field holds the cell under the last occurrence of
    the label. *)
Theorem repeated_header_keeps_last_cell hs cells week url title w i h c :
  List.length hs <= List.length cells ->
  nth_error hs i = Some h ->
  nth_error cells i = Some c ->
  (forall j, i < j -> nth_error hs j <> Some h) ->
  ~ In h synthetic_columns ->
  exists row_data,
    row_comprehension hs cells w = (Ok row_data, w) /\
    let record :=
      dict_update row_data
        [("week_info", week); ("source_url", url); ("table_title", title)] in
    assoc h record = Some c /\ NoDup (keys record).
Proof.
  intros Hlen Hh Hc Hlast Hsyn. exists (zip_dict hs cells). split.
  - rewrite row_comprehension_run. unfold zip_result.
    now rewrite (proj2 (Nat.leb_le _ _) Hlen).
  - cbv zeta. split.
    + unfold dict_update. cbn [fold_left fst snd].
      rewrite !assoc_set_other
        by (intros ->; apply Hsyn; simpl; tauto).
      unfold zip_dict. eapply zip_value_last; eauto.
    + unfold dict_update, zip_dict. rewrite <- fold_left_app.
      apply keys_fold_set_nodup. constructor.
Qed.

Lemma repeated_header_keeps_last_cell_witness :
  exists row_data,
    row_comprehension ["Name"; "Name"] ["A"; "B"] blank = (Ok row_data, blank) /\
    assoc "Name"
      (dict_update row_data
         [("week_info", "Week 1"); ("source_url", "http://x");
          ("table_title", "Added")]) = Some "B".
Proof.
  destruct (repeated_header_keeps_last_cell ["Name"; "Name"] ["A"; "B"]
              "Week 1" "http://x" "Added" blank 1 "Name" "B"
              ltac:(simpl; lia) eq_refl eq_refl
              ltac:(intros [|[|[|j]]] Hj; simpl; try lia; discriminate)
              ltac:(simpl; intuition discriminate))
    as (row_data & Hrun & Hval & _).
  exists row_data. split; [exact Hrun|exact Hval].
Defined.

(** ** More about the rotation *)

Section RotationFails.

Variable base : path.

(** The loop over the names of [current] when one of them names a
    directory of [last time]: it stops there, having unlinked only files
    of [last time] that share a name with an earlier entry. *)
Lemma rotate_loop_fail names : forall ps st w bs,
  lookup base (disk w) = Some (Dir bs) ->
  assoc "last time" bs = Some (Dir ps) ->
  (exists n, In n names /\ is_dir (assoc n ps) = true) ->
  exists w' ps',
    for_in names
      (fun file_name (_ : option (path * path)) =>
         let source_path :=
           os_path_join (os_path_join base "current") file_name in
         let destination_path :=
           os_path_join (os_path_join base "last time") file_name in
         present <- os_path_exists destination_path ;;
         (if present : bool then os_remove destination_path else ret tt) ;;
         ret (Some (source_path, destination_path)))
      st w
    = (Raise IsADirectoryError, w') /\
    log w' = log w /\
    lookup base (disk w')
    = Some (Dir (assoc_set "last time" (Dir ps') bs)) /\
    (forall m, ~ In m names -> assoc m ps' = assoc m ps) /\
    (forall m, is_dir (assoc m ps) = true -> assoc m ps' = assoc m ps) /\
    (forall m x, assoc m ps' = Some x -> assoc m ps = Some x).
Proof.
  induction names as [|h names IH]; intros ps st w bs Hb Hp (n & Hin & Hn).
  - contradiction.
  - pose proof (os_path_exists_in_slot base "last time" w bs ps h Hb Hp)
      as Hex.
    cbn [for_in].
    destruct (assoc h ps) as [[l|sub]|] eqn:E.
    + destruct (os_remove_in_slot base "last time" w bs ps h l Hb Hp E)
        as (d & Hrm & Hl).
      assert (Hrest : exists n, In n names /\
                                is_dir (assoc n (assoc_del h ps)) = true).
      { exists n. destruct Hin as [<-|Hin]; [rewrite E in Hn; discriminate|].
        split; [exact Hin|]. rewrite assoc_del_other; auto.
        intros ->. rewrite E in Hn. discriminate. }
      destruct (IH (assoc_del h ps)
                  (Some (os_path_join (os_path_join base "current") h,
                         os_path_join (os_path_join base "last time") h))
                  (set_disk d w) _ Hl (assoc_set_same _ _ _) Hrest)
        as (w' & ps' & Hloop & Hlog & Hl' & Hout & Hkeep & Hold).
      exists w', ps'. repeat split.
      * assert (Hstep :
          (present <- os_path_exists
                        (os_path_join (os_path_join base "last time") h) ;;
           (if present : bool
            then os_remove (os_path_join (os_path_join base "last time") h)
            else ret tt) ;;
           ret (Some (os_path_join (os_path_join base "current") h,
                      os_path_join (os_path_join base "last time") h)))
            w
          = (Ok (Some (os_path_join (os_path_join base "current") h,
                       os_path_join (os_path_join base "last time") h)),
             set_disk d w)).
        { run_with Hex. run_with Hrm. reflexivity. }
        run_with Hstep. exact Hloop.
      * exact Hlog.
      * rewrite Hl'. now rewrite assoc_set_set.
      * intros m Hm. rewrite Hout by (intros H; apply Hm; now right).
        apply assoc_del_other. intros ->. apply Hm. now left.
      * intros m Hm.
        assert (m <> h) by (intros ->; rewrite E in Hm; discriminate).
        rewrite Hkeep; rewrite assoc_del_other by auto; auto.
      * intros m e Hm. apply Hold in Hm.
        destruct (String.eqb_spec m h) as [->|N].
        -- rewrite assoc_del_same in Hm. discriminate.
        -- now rewrite assoc_del_other in Hm by auto.
    + exists w, ps. repeat split; auto.
      * apply bind_run_raise. run_with Hex.
        apply bind_run_raise. unfold os_remove.
        now rewrite (lookup_in_slot base "last time" _ _ _ h Hb Hp), E.
      * now rewrite assoc_set_id.
    + assert (Hrest : exists n, In n names /\ is_dir (assoc n ps) = true).
      { exists n. destruct Hin as [<-|Hin]; [rewrite E in Hn; discriminate|].
        auto. }
      destruct (IH ps
                  (Some (os_path_join (os_path_join base "current") h,
                         os_path_join (os_path_join base "last time") h))
                  w bs Hb Hp Hrest)
        as (w' & ps' & Hloop & Hlog & Hl' & Hout & Hkeep & Hold).
      exists w', ps'. repeat split; auto.
      * assert (Hstep :
          (present <- os_path_exists
                        (os_path_join (os_path_join base "last time") h) ;;
           (if present : bool
            then os_remove (os_path_join (os_path_join base "last time") h)
            else ret tt) ;;
           ret (Some (os_path_join (os_path_join base "current") h,
                      os_path_join (os_path_join base "last time") h)))
            w
          = (Ok (Some (os_path_join (os_path_join base "current") h,
                       os_path_join (os_path_join base "last time") h)),
             w)).
        { run_with Hex. reflexivity. }
        run_with Hstep. exact Hloop.
      * intros m Hm. apply Hout. intros H. apply Hm. now right.
Qed.

End RotationFails.

(** A directory in the archive that has the name of an entry of
    [current].  The rotation then ends in the error with which
    [os.remove] refuses a directory, after the record that announces the
    move and before anything is moved: [current] holds all its entries; [last time] has
    gained nothing and has kept its directories and every entry whose name
    does not occur in [current]. *)
Theorem rotation_stops_at_a_directory base w bs cs ps :
  lookup base (disk w) = Some (Dir bs) ->
  slot bs "current" = Some cs ->
  slot bs "last time" = Some ps ->
  (exists n, In n (keys cs) /\ is_dir (assoc n ps) = true) ->
  exists e w' ps',
    V11.manage_output_folders base w = (Raise e, w') /\
    log w'
    = (log w ++ [(INFO, "Moving current files to last time directory")])%list /\
    lookup (os_path_join base "current") (disk w') = Some (Dir cs) /\
    lookup (os_path_join base "last time") (disk w') = Some (Dir ps') /\
    (forall m, ~ In m (keys cs) -> assoc m ps' = assoc m ps) /\
    (forall m, is_dir (assoc m ps) = true -> assoc m ps' = assoc m ps) /\
    (forall m x, assoc m ps' = Some x -> assoc m ps = Some x).
Proof.
  intros Hb Hcs Hps Hdir.
  destruct (slots_made base w bs cs ps Hb Hcs Hps)
    as (d1 & d2 & Hm1 & Hm2 & Hl).
  set (bs2 := assoc_set "last time" (Dir ps)
                (assoc_set "current" (Dir cs) bs)) in *.
  assert (Hc : assoc "current" bs2 = Some (Dir cs)).
  { unfold bs2. rewrite assoc_set_other by discriminate.
    apply assoc_set_same. }
  assert (Hp : assoc "last time" bs2 = Some (Dir ps))
    by apply assoc_set_same.
  set (w2 := set_disk d2 (set_disk d1 w)).
  set (w3 := add_log [(INFO, "Moving current files to last time directory")]
               w2).
  destruct (rotate_loop_fail base (keys cs) ps None w3 bs2 Hl Hp Hdir)
    as (w4 & ps' & Hloop & Hlog & Hl4 & Hout & Hkeep & Hold).
  exists IsADirectoryError, w4, ps'. repeat split; auto.
  - unfold V11.manage_output_folders. cbv zeta.
    run_with (os_makedirs_run _ w d1 Hm1).
    run_with (os_makedirs_run _ (set_disk d1 w) d2 Hm2).
    run_with (os_listdir_slot base "current" w2 _ _ Hl Hc).
    destruct (keys cs) as [|k ks] eqn:Ek.
    { destruct Hdir as (n & [] & _). }
    run_with (eq_refl : logging_info _ w2 = (Ok tt, w3)).
    run_with (os_listdir_slot base "current" w3 _ _ Hl Hc).
    rewrite Ek. apply bind_run_raise. exact Hloop.
  - rewrite (lookup_slot _ _ _ _ Hl4).
    rewrite assoc_set_other by discriminate. exact Hc.
  - rewrite (lookup_slot _ _ _ _ Hl4). apply assoc_set_same.
Qed.

Lemma rotation_stops_at_a_directory_witness :
  exists e w',
    V11.manage_output_folders ["out"] blocked_archive = (Raise e, w') /\
    lookup ["out"; "current"] (disk w')
    = Some (Dir [("table_1.csv", File [["a"]; ["1"]]);
                 ("table_2.csv", File [["b"]; ["1"]])]) /\
    lookup ["out"; "last time"; "table_2.csv"] (disk w') = Some (Dir []).
Proof.
  destruct (rotation_stops_at_a_directory ["out"] blocked_archive _ _ _
              eq_refl eq_refl eq_refl
              (ex_intro _ "table_2.csv"
                 (conj (or_intror (or_introl eq_refl)) eq_refl)))
    as (e & w' & ps' & Hrun & _ & Hcur & Hlast & _ & Hkeep & _).
  exists e, w'. split; [exact Hrun|]. split; [exact Hcur|].
  change ["out"; "last time"; "table_2.csv"]
    with (os_path_join (os_path_join ["out"] "last time") "table_2.csv").
  rewrite (lookup_join _ _ _ _ Hlast).
  exact (Hkeep "table_2.csv" eq_refl).
Defined.

Lemma keys_filter_in {V} (f : string * V -> bool) k (d : list (string * V)) :
  In k (keys (filter f d)) -> In k (keys d).
Proof.
  unfold keys. rewrite !in_map_iff. intros (x & Hx & Hin).
  apply filter_In in Hin. exists x. tauto.
Qed.

Lemma keys_filter_nodup {V} (f : string * V -> bool) (d : list (string * V)) :
  NoDup (keys d) -> NoDup (keys (filter f d)).
Proof.
  induction d as [|[k v] d IH]; simpl; auto.
  intros H. inversion H as [|? ? Hk Hd]; subst.
  destruct (f (k, v)); simpl; auto.
  constructor; auto. intros Hin. apply Hk. exact (keys_filter_in _ _ _ Hin).
Qed.

Lemma length_assoc_del {V} k (d : list (string * V)) :
  NoDup (keys d) -> In k (keys d) ->
  S (List.length (assoc_del k d)) = List.length d.
Proof.
  induction d as [|[k' v] d IH]; simpl; [contradiction|].
  intros H Hin. inversion H as [|? ? Hk Hd]; subst.
  destruct (String.eqb_spec k' k) as [->|N].
  - now rewrite (assoc_del_absent _ _ (assoc_none_keys _ _ Hk)).
  - simpl. f_equal. apply IH; auto. destruct Hin; [contradiction|auto].
Qed.

Lemma assoc_some_keys {V} k (v : V) d : assoc k d = Some v -> In k (keys d).
Proof.
  induction d as [|[k' v'] d IH]; simpl; [discriminate|].
  destruct (String.eqb_spec k' k) as [->|N]; auto.
Qed.

Lemma keys_in_assoc_del {V} k n (d : list (string * V)) :
  In n (keys (assoc_del k d)) -> n <> k /\ In n (keys d).
Proof.
  rewrite assoc_del_filter. unfold keys. rewrite in_map_iff.
  intros ([n' v] & Hn & Hin). simpl in Hn. subst n'.
  apply filter_In in Hin. destruct Hin as (Hin & Hf). simpl in Hf.
  split.
  - intros ->. now rewrite String.eqb_refl in Hf.
  - apply in_map_iff. now exists (n, v).
Qed.

Lemma keys_in_without {V} names n (d : list (string * V)) :
  In n (keys (without names d)) -> ~ In n names.
Proof.
  unfold without, keys. rewrite in_map_iff.
  intros ([n' v] & Hn & Hin). simpl in Hn. subst n'.
  apply filter_In in Hin. destruct Hin as (_ & Hf). simpl in Hf.
  intros H. apply existsb_eqb_In in H. now rewrite H in Hf.
Qed.

(** Distinct names through the rotation.  When the names of [current] are
    pairwise distinct, and so are those of [last time], a rotation of a
    non-empty [current] leaves distinct names in both; [current] holds one
    entry less than before, and afterwards no name occurs in both
    directories: of the entries that stay in [current], [last time] holds
    no copy, older or newer. *)
Theorem rotation_leaves_disjoint_names base w bs cs ps :
  lookup base (disk w) = Some (Dir bs) ->
  slot bs "current" = Some cs ->
  slot bs "last time" = Some ps ->
  cs <> [] ->
  (forall n, In n (keys cs) -> is_dir (assoc n ps) = false) ->
  NoDup (keys cs) -> NoDup (keys ps) ->
  exists w' cs' ps',
    V11.manage_output_folders base w = (Ok PyNone, w') /\
    lookup (os_path_join base "current") (disk w') = Some (Dir cs') /\
    lookup (os_path_join base "last time") (disk w') = Some (Dir ps') /\
    NoDup (keys cs') /\ NoDup (keys ps') /\
    S (List.length cs') = List.length cs /\
    (forall n, In n (keys cs') -> ~ In n (keys ps')).
Proof.
  intros Hb Hcs Hps Hne Hfiles Dc Dp.
  destruct (rotate_nonempty base w bs cs ps Hb Hcs Hps Hne Hfiles)
    as (w' & moved & Hrun & Hmv & Hl).
  exists w', (assoc_del (last (keys cs) "") cs),
    (without (keys cs) ps ++ [(last (keys cs) "", moved)])%list.
  assert (Hlast : In (last (keys cs) "") (keys cs))
    by exact (assoc_some_keys _ _ _ Hmv).
  split; [|split; [|split; [|split; [|split; [|split]]]]].
  - exact Hrun.
  - rewrite (lookup_slot _ _ _ _ Hl).
    rewrite assoc_set_other by discriminate. apply assoc_set_same.
  - rewrite (lookup_slot _ _ _ _ Hl). apply assoc_set_same.
  - rewrite assoc_del_filter. now apply keys_filter_nodup.
  - unfold keys. rewrite map_app. cbn [map fst].
    apply NoDup_app.
    + now apply (keys_filter_nodup _ ps).
    + repeat constructor. intros [].
    + intros n Hn [<-|[]]. exact (keys_in_without _ _ _ Hn Hlast).
  - now apply length_assoc_del.
  - intros n Hn Hin. apply keys_in_assoc_del in Hn. destruct Hn as (N & Hn).
    unfold keys in Hin. rewrite map_app in Hin. cbn [map fst] in Hin.
    apply in_app_or in Hin. destruct Hin as [Hin|[E|[]]].
    + exact (keys_in_without _ _ _ Hin Hn).
    + now apply N.
Qed.

Lemma rotation_leaves_disjoint_names_witness :
  exists w' cs' ps',
    V11.manage_output_folders ["out"] two_runs = (Ok PyNone, w') /\
    lookup ["out"; "current"] (disk w') = Some (Dir cs') /\
    lookup ["out"; "last time"] (disk w') = Some (Dir ps') /\
    List.length cs' = 1 /\
    (forall n, In n (keys cs') -> ~ In n (keys ps')).
Proof.
  destruct (rotation_leaves_disjoint_names ["out"] two_runs _ _ _
              eq_refl eq_refl eq_refl ltac:(discriminate)
              ltac:(intros n Hn; simpl in Hn;
                    destruct Hn as [<-|[<-|[]]]; reflexivity)
              ltac:(repeat constructor; simpl; intuition discriminate)
              ltac:(repeat constructor; simpl; intuition discriminate))
    as (w' & cs' & ps' & Hrun & Hcur & Hlast & _ & _ & Hlen & Hdis).
  exists w', cs', ps'.
  split; [exact Hrun|]. split; [exact Hcur|]. split; [exact Hlast|].
  split; [|exact Hdis].
  simpl in Hlen. now inversion Hlen.
Defined.
